(* ===== verification/_CoqProject ===== *)
-Q . S2P
Prelude.v
Num.v
PyStr.v
PyNum.v
StableSort.v
Dates.v
Models.v
Dashboard.v
Store.v
App.v
Reach.v
Redirects.v
Hash.v
Amounts.v
Expiry.v
Race.v
Deploy.v
EditRace.v
