(* ===== verification/Prelude.v ===== *)
(** * FINTRACK: a verification development of the Flask finance tracker

    The repository is a small Flask application ([src/app.py], [src/models.py])
    in which users register, log in, record income and expense transactions
    and look at a dashboard of aggregates.  Its parts, and how they interact:

    - the data model ([src/models.py]): a [User] table and a [Transaction]
      table whose rows point to their owner through [user_id];
    - the record store (SQLAlchemy over SQLite): rows kept in rowid order,
      looked up by id, by email, by owner, written by [add]/[commit] and
      [delete]/[commit];
    - the session (Flask's signed cookie): [user_id] and the [permanent] flag;
    - the password hash of [werkzeug.security] ([generate_password_hash]
      at line 54, [check_password_hash] at line 74) and Python's [float()]
      (lines 106 and 247), library code the handlers call;
    - the request handlers of [src/app.py]: [home], [register], [login],
      [add_transaction], [dashboard], [logout], [view_transactions],
      [edit_transaction], [delete_transaction];
    - the transaction aggregator, the body of [dashboard]: period totals with
      an optional [filter_date], payment-method totals, monthly totals of the
      current year, the running balance over the transactions sorted by date,
      and the five most recent entries.

    Data flow: a request of some client reads that client's session, the
    handler reads and writes the store shared by all clients and returns the
    new session with flashes and a redirect or a page; [dashboard] feeds one
    user's transactions to the aggregator.

    ** Files, in dependency order

    - [Prelude.v] (this file): the scope [py_scope] and its bind notation, a
      small exception monad for Python's raised errors ([py_result]), the
      model of list slicing ([py_last]) and of an insertion-ordered [dict],
      the shared list lemmas, the hint databases [fintrack]/[fintrack_rw] and
      the tactics.
    - [Num.v]: the interface [Num] that the aggregator needs of an amount
      (Python's [0], [+], [-], [sum], and whether SQLite binds the value as
      NULL) and the laws [NumLaws] of exact arithmetic; instances for [Z]
      (exact amounts, in the smallest currency unit, used by the witnesses)
      and for the kernel's binary64 floats [PrimFloat.float] (the column
      type [db.Float] and Python's [float]).  On floats [sum] is CPython
      3.12's [builtin_sum_impl]: Neumaier's compensated summation
      ([float_sum]); NaN is the value bound as NULL.
    - [PyStr.v]: [str.lower] and [str.strip] on code points below 256.
    - [PyNum.v]: CPython's [int(s)] in base 10 and [float(s)]: whitespace,
      PEP 515 underscores, sign, [inf]/[infinity]/[nan] in any case,
      fraction and exponent, and the binary64 value nearest to the decimal
      (ties to even; overflow gives inf, underflow 0), computed with the
      kernel's [SpecFloat] rounding; [int()] refuses more than 4300 digits
      ([int_max_str_digits]), as CPython 3.11 and later do.
    - [StableSort.v]: Python's [sorted(xs, key=...)] as a stable insertion
      sort ([sort_by]), with its specification (sorted, a permutation, stable)
      and the theorem that the specification determines the result, so the
      model returns what CPython's Timsort returns.
    - [Dates.v]: [datetime] values, [datetime.date()], their ordering, the
      Gregorian calendar, and [datetime.strptime(s, '%Y-%m-%d')] as
      [_strptime] runs it (its regular expression with backtracking, the
      unconverted-data check, the calendar check).
    - [Models.v]: the [User] and [Transaction] rows of [src/models.py].
    - [Dashboard.v]: the aggregator, one definition per computation of lines
      153-212 of [dashboard] ([today_income], [total_by_method],
      [monthly_totals], [running_balance], [recent_transactions],
      [dashboard_view]).
    - [Store.v]: the tables as lists in rowid order, the lookups
      ([user_get], [user_by_email], [txs_of_user], [tx_get]), the writes
      ([insert_user], [insert_tx], [update_tx], [delete_tx]) with SQLite's
      rowid rule (largest rowid plus one), [order_by(date.desc())], and the
      well-formedness [db_wf] (distinct ids and emails, existing owners).
    - [App.v]: the request ([rq_method], [request.form], [request.args]),
      the session, the replies (flashes and a redirect, a page, an HTTP
      error), the hasher interface [Hasher] with its laws [HasherLaws], one
      definition per view function with every branch of the source, and
      [handle]: Flask's treatment of an escaping exception ([KeyError] of
      [request.form[...]] gives 400, any other 500) with the rollback of the
      store.  The commit of a transaction row checks the [NOT NULL]
      constraint of [amount] ([commit_amount]).  [float()] is a section parameter [parse_float] and the hasher
      one of type [Hasher]; the witnesses use a parser of decimal integers
      and a hasher that keeps its input.
    - [Reach.v]: the world, a store shared by all clients and one session
      per client; a step is a request of any client or a client losing its
      cookie; [reachable] worlds from a fresh database, invariants by rule
      induction on the run.
    - [Redirects.v]: the browser following [redirect(url_for(...))] with a
      [GET] of the endpoint, as a loop with fuel ([follow]).
    - [Hash.v]: werkzeug 3's [generate_password_hash] and
      [check_password_hash] (module [Werkzeug]): [gen_salt] over
      [SALT_CHARS] from the random draws, [_hash_internal] with its [scrypt]
      and [pbkdf2] methods, their parameters read with [int()] and its
      errors, [str.split] with a limit, [str.encode] (UTF-8), [bytes.hex],
      [hmac.compare_digest] on [str] and the [method$salt$digest] format.
      The key derivations of OpenSSL are section variables.  The resulting
      [werkzeug_hasher] satisfies [HasherLaws], so every handler theorem
      stated under the laws holds of werkzeug.
    - [Amounts.v]: the handlers with binary64 amounts and [PyNum.py_float]
      for [float()]; what an amount [nan] does to the writes and what
      overflow does to the dashboard's sums.
    - [Expiry.v]: the session lifetime: a clock in seconds and the time
      each cookie was last signed, and whether it holds flashed messages
      not yet shown; [open_session] rejects a signature older than
      [permanent_session_lifetime] (15 minutes), [save_session] signs again
      a session that changed (keys, new flashes, or pending flashes popped
      by a page that shows them) or is permanent; timed runs refine the
      runs of [Reach.v].
    - [Race.v]: requests served concurrently ([app.run]'s threads):
      [register] split at its commit into [register_read] (the lookup and
      the hashing, on the store the thread reads) and [register_commit]
      (the insertion under the [unique] constraint of [users.email], on the
      store at the time of the commit); a concurrent world is a world of
      [Reach.v] with the registrations waiting for their commit.
    - [Deploy.v]: the runs of [Reach.v] with werkzeug's hasher of
      [Hash.v].
    - [EditRace.v]: [edit_transaction] and [delete_transaction] split at
      their commit: [edit_read] and [delete_read] (session check,
      [get_or_404], form reads and [float()], on the store the thread
      reads), [edit_commit] (SQLAlchemy's flush: an UPDATE of the columns
      whose value changed by [==], [StaleDataError] when it matches no
      row, an [IntegrityError] when the new amount is bound as NULL,
      nothing sent when no column changed) and [delete_commit] (a
      DELETE of a missing row only warns); an [EWorld] is a world of
      [Reach.v] with the writes waiting for their commit.

    ** Modelling choices

    Amounts: the aggregator is written once over [Num A]; the code stores
    and adds binary64 floats, so the theorems that matter for the program
    hold for every [Num] or for [float] in particular.  The lemmas stated
    under [NumLaws A] (associativity and commutativity) describe exact
    amounts only, the amounts the specification speaks of; on binary
    floats they fail, and [Dashboard.v] shows a store on which the last
    running balance differs from today's balance and one on which the
    final balance depends on the store order of same-day rows.  Python's
    [sum] is modelled as CPython 3.12 and later compute it (compensated);
    up to 3.11 it was a plain left fold ([fold_sum]), which is what the
    [+=] of the running-balance and monthly loops computes.

    Strings are Stdlib [string]s, one byte per character; [str.lower] and
    [str.isspace] are modelled on code points below 256 (Latin-1).

    Dates: a [datetime] is a calendar day and a time of day in microseconds;
    transactions created by [add_transaction] have time 0 (they come from
    [strptime] with a date-only format).  [datetime.now().year] is an
    argument of the dashboard.

    Errors: an exception that escapes a handler (a [ValueError] from
    [strptime], [float] or werkzeug, a [KeyError] from [request.form[...]],
    an [AttributeError] on [None], a [TypeError] from [compare_digest], an
    [IntegrityError] of a commit) is
    a value [PyErr e] of [py_result].

    Order of rows: a table scan and [user.transactions] return rows in rowid
    order; rows of [order_by(date.desc())] with equal dates are taken in
    rowid order too (SQLite does not promise an order among ties; the
    theorem on [view_transactions] only uses the sortedness).

    ** Theorems

    - Aggregator ([Dashboard.v]): the view on every branch
      ([dashboard_view_ok]) and exactly when it raises
      ([dashboard_view_error]); the running balance as the loop's fold, as
      prefix sums, and its last value against the totals; the monthly maps
      as per-month sums; the recent list as the reversed last five entries;
      the payment totals; the scenarios of the specification.
    - Sorting ([StableSort.v]): [sort_by] is sorted, a permutation and
      stable, and is the only such list.
    - Dates ([Dates.v]): [strptime] reads back every ISO date it should,
      accepts only days of the calendar, and also accepts one-digit months
      and days and a day written as a space and a digit.
    - Store ([Store.v]): the writes keep [db_wf]; a deleted last id is given
      again to the next row.
    - Handlers ([App.v]): an invalid [add_transaction] stores nothing;
      [login] checks the password; a mismatched registration changes
      nothing; [add_transaction] normalises the type it stores while
      [edit_transaction] stores it as typed, so an edit can turn an income
      into a row neither income nor expense; what [view_transactions]
      lists; a session changes to a user only by
      registering it or by a login whose password check succeeds; a client
      without a session writes nothing except by registering; a login
      redirects by the user's history; a missing id answers 404.
    - Runs ([Reach.v]): in every reachable world the store is well formed,
      every session names an existing user, every password is a hash and
      every stored amount is one the [NOT NULL] column accepts; users never
      change along a run; every stored user can always log in again with
      one request (no lockout); [home] never raises and [dashboard] raises
      only on [filter_date]; a reachable run in which a client deletes
      another user's transaction.
    - Lifetime ([Expiry.v]): every timed run is a run of [Reach.v].
    - Redirects ([Redirects.v]): every chain of redirects ends within
      three replies in a page or an error, writes nothing, and is the
      same for every fuel of at least 2 (termination).
    - Deployment ([Deploy.v]): with werkzeug, every stored password in a
      reachable world has the form [scrypt:32768:8:1$salt$digest] with a
      16-character salt of [SALT_CHARS].
    - [float()] ([PyNum.v]): on digit strings below 2^63 the model equals
      the kernel's conversion [of_uint63]; every spelling of [nan] reads
      as NaN; [int()] reads a digit string as its value up to 4300 digits
      and raises beyond ([py_int_digits]).
    - Hashing ([Hash.v]): werkzeug's functions satisfy [HasherLaws] when
      scrypt never raises at the defaults and never maps two passwords to
      one key (a refinement of the interface); a stored hash with fewer
      than two ['$'] never matches and never raises; pbkdf2 hashes of older
      releases are checked; a stored hash naming a method werkzeug 3 does
      not know makes [login] answer 500.
    - Amounts ([Amounts.v]): an amount [nan] passes the [float()]
      validation of [add_transaction] and [edit_transaction] and fails at
      the commit, HTTP 500 with nothing written.  With finite amounts every
      sum the
      dashboard accumulates (period, payment and monthly totals, running
      balances) is never NaN, since [SpecFloat]'s rounding of a
      non-negative mantissa never yields NaN ([Num.v]); it can still
      overflow to an infinity, after which [today_balance] may be
      inf - inf, NaN.
    - Concurrency ([Race.v]): read and commit back to back are [register];
      concurrent runs are serializable (every world they reach is, session
      by session, reachable sequentially, proved with the equivalence
      [world_equiv] and its [Proper] instance), so the invariants of
      [Reach.v] hold; two registrations of one email racing each other
      end with an [IntegrityError] and HTTP 500 for the second.
    - Concurrent writes ([EditRace.v]): the invariant of [Reach.v] holds
      along interleaved runs; an edit whose row is deleted after its read
      answers 500 ([StaleDataError]) instead of 404; two concurrent edits
      are merged column by column, not last write wins.

    ** Not modelled

    HTML rendering (the templates are not in the repository and the model
    stops at [render_template]'s arguments); the key derivations
    [hashlib.scrypt] and [hashlib.pbkdf2_hmac] (OpenSSL; variables of
    [Hash.v], with collision freedom as a hypothesis of the laws); the
    sign of a NaN (the kernel has one
    NaN); the SQL engine beyond the order in which it returns
    rows; the cryptography of cookie signing and cookies forged with the
    constant [secret_key]; the templates, and so which pages show the
    flashed messages (a parameter of [Expiry.v]); the browser's own expiry of a
    permanent cookie (it coincides with the server's check); the database
    URI and the [db]/[migrate] initialisation of the configuration; the
    interleavings of [add_transaction], [login] and [dashboard] with
    other requests, which are served whole: they make at most one write
    (an insertion under no constraint) or none, so an interleaving only
    changes which store they see; SQLite's locking, which serialises the
    commits themselves.

    ** Loops, fuel and termination

    Every loop of the program is a [for] over a finite list (the
    generator sums, the monthly and running-balance loops, [sorted]) or a
    scan of a finite string ([strip], [split], [int()], [float()],
    [strptime]'s pattern), so each is a structural [Fixpoint] or
    [fold_left] and terminates by construction.  The one loop that is not
    the program's own is the browser's: following redirects, which could
    in principle cycle; [follow] takes fuel and [redirects_terminate]
    shows that 2 is enough from any state. *)

From Stdlib Require Import Bool ZArith Lia String List Permutation.
Import ListNotations.

Declare Scope py_scope.
Delimit Scope py_scope with py.

Create HintDb fintrack.
Create Rewrite HintDb fintrack_rw.

(** ** Python exceptions as values *)

(** The exceptions that can escape the handlers of [src/app.py] and the
    library code they call. *)
Inductive py_exc :=
| ValueError (msg : string)
| KeyError (key : string)
| AttributeError (msg : string)
| TypeError (msg : string)
| IntegrityError (msg : string)
| StaleDataError (msg : string).

Inductive py_result (A : Type) :=
| PyOk (a : A)
| PyErr (e : py_exc).
Arguments PyOk {A} a.
Arguments PyErr {A} e.

Definition py_bind {A B} (c : py_result A) (k : A -> py_result B) : py_result B :=
  match c with
  | PyOk a => k a
  | PyErr e => PyErr e
  end.

Notation "x <- c1 ;; c2" := (py_bind c1 (fun x => c2))
  (at level 61, c1 at next level, right associativity) : py_scope.

Definition py_of_option {A} (e : py_exc) (o : option A) : py_result A :=
  match o with
  | Some a => PyOk a
  | None => PyErr e
  end.

Lemma py_bind_ok {A B} (a : A) (k : A -> py_result B) :
  py_bind (PyOk a) k = k a.
Proof. reflexivity. Qed.

Lemma py_bind_err {A B} (e : py_exc) (k : A -> py_result B) :
  py_bind (PyErr e) k = PyErr e.
Proof. reflexivity. Qed.

#[export] Hint Rewrite @py_bind_ok @py_bind_err : fintrack_rw.

(** ** Python list slicing *)

(** [l[-n:]]: the last [n] elements, or all of them when there are fewer. *)
Definition py_last {A} (n : nat) (l : list A) : list A :=
  skipn (length l - n) l.

Lemma length_py_last {A} (n : nat) (l : list A) :
  length (py_last n l) = Nat.min n (length l).
Proof. unfold py_last. rewrite length_skipn. lia. Qed.

(** [l[-n:][::-1]] is the first [n] elements of the reversed list. *)
Lemma rev_py_last {A} (n : nat) (l : list A) :
  rev (py_last n l) = firstn n (rev l).
Proof.
  unfold py_last. rewrite firstn_skipn_rev, rev_involutive, length_rev.
  reflexivity.
Qed.

Lemma py_last_all {A} (n : nat) (l : list A) :
  length l <= n -> py_last n l = l.
Proof. intros H. unfold py_last. replace (length l - n) with 0 by lia. reflexivity. Qed.

(** A property kept by every step of a left fold over [l] holds at its end. *)
Lemma fold_left_invariant {S X} (P : S -> Prop) (g : S -> X -> S) (l : list X) (acc : S) :
  (forall s x, In x l -> P s -> P (g s x)) -> P acc -> P (fold_left g l acc).
Proof.
  revert acc. induction l as [|x l IH]; intros acc Hg Hacc; [exact Hacc|].
  cbn. apply IH; [intros s y Hy; apply Hg; right; exact Hy | apply Hg; [left|]; auto].
Qed.

(** ** An insertion-ordered [dict] *)

(** A Python [dict] keeps its keys in insertion order and [d[k] = v] on a
    key already present changes its value in place. *)
Section PyDict.
Context {K V : Type} (K_dec : forall x y : K, {x = y} + {x <> y}).

Fixpoint dict_get (d : list (K * V)) (k : K) : option V :=
  match d with
  | [] => None
  | (k', v') :: d' => if K_dec k' k then Some v' else dict_get d' k
  end.

(** [d.get(k, default)] *)
Definition dict_get_default (d : list (K * V)) (k : K) (dflt : V) : V :=
  match dict_get d k with Some v => v | None => dflt end.

(** [d[k] = v] *)
Fixpoint dict_set (d : list (K * V)) (k : K) (v : V) : list (K * V) :=
  match d with
  | [] => [(k, v)]
  | (k', v') :: d' =>
      if K_dec k' k then (k', v) :: d' else (k', v') :: dict_set d' k v
  end.

Lemma dict_get_set_eq d k v : dict_get (dict_set d k v) k = Some v.
Proof.
  induction d as [|[k' v'] d IH]; simpl.
  - destruct (K_dec k k); congruence.
  - destruct (K_dec k' k) as [->|Hne]; simpl.
    + destruct (K_dec k k); congruence.
    + destruct (K_dec k' k); [congruence | exact IH].
Qed.

Lemma dict_get_set_ne d k k0 v :
  k <> k0 -> dict_get (dict_set d k v) k0 = dict_get d k0.
Proof.
  intros Hne. induction d as [|[k' v'] d IH]; simpl.
  - destruct (K_dec k k0); congruence.
  - destruct (K_dec k' k) as [->|Hne']; simpl.
    + destruct (K_dec k k0); congruence.
    + destruct (K_dec k' k0); [reflexivity | exact IH].
Qed.

(** A property of every value survives [d[k] = v] when [v] has it. *)
Lemma dict_set_values (Q : V -> Prop) d k v :
  Forall (fun p => Q (snd p)) d -> Q v -> Forall (fun p => Q (snd p)) (dict_set d k v).
Proof.
  intros Hd Hv. induction Hd as [|[k' v'] d Hp Hd IH]; cbn; [constructor; auto|].
  destruct (K_dec k' k); constructor; auto.
Qed.

(** [d.get(k, default)] is a value of [d] or the default. *)
Lemma dict_get_default_values (Q : V -> Prop) d k dflt :
  Forall (fun p => Q (snd p)) d -> Q dflt -> Q (dict_get_default d k dflt).
Proof.
  intros Hd Hdf. unfold dict_get_default.
  induction Hd as [|[k' v'] d Hp Hd IH]; cbn; [exact Hdf|].
  destruct (K_dec k' k); [exact Hp | exact IH].
Qed.

(** The keys stay distinct. *)
Lemma dict_set_keys_nodup d k v :
  NoDup (map fst d) -> NoDup (map fst (dict_set d k v)).
Proof.
  induction d as [|[k' v'] d IH]; simpl; intros Hnd.
  - constructor; [intros [] | constructor].
  - inversion Hnd as [|? ? Hnin Hnd']; subst.
    destruct (K_dec k' k) as [->|Hne]; simpl; constructor; auto.
    intros Hin. apply Hnin.
    enough (forall d0, In k' (map fst (dict_set d0 k v)) -> k' = k \/ In k' (map fst d0))
      as Hk by (destruct (Hk d Hin); [congruence | assumption]).
    clear. induction d0 as [|[k1 v1] d0 IH]; simpl; intros Hin.
    + destruct Hin as [Hin|[]]; auto.
    + destruct (K_dec k1 k); simpl in Hin; destruct Hin as [Hin|Hin]; auto;
        destruct (IH Hin); auto.
Qed.
End PyDict.

(** ** Shared list lemmas *)

Lemma filter_perm {A} (f : A -> bool) (l l' : list A) :
  Permutation l l' -> Permutation (filter f l) (filter f l').
Proof.
  induction 1 as [|x l l' _ IH|x y l|l l' l'' _ IH1 _ IH2]; simpl.
  - constructor.
  - destruct (f x); auto using perm_skip.
  - destruct (f x), (f y); auto using perm_swap, Permutation_refl.
  - exact (Permutation_trans IH1 IH2).
Qed.

Lemma filter_filter_comm {A} (f g : A -> bool) (l : list A) :
  filter f (filter g l) = filter (fun x => g x && f x) l.
Proof.
  induction l as [|x l IH]; simpl; [reflexivity|].
  destruct (g x); simpl; [destruct (f x); simpl|]; rewrite IH; reflexivity.
Qed.

Lemma existsb_orb_distr {A} (f g : A -> bool) (l : list A) :
  existsb (fun x => f x || g x) l = existsb f l || existsb g l.
Proof.
  induction l as [|x l IH]; simpl; [reflexivity|].
  rewrite IH. destruct (f x), (g x), (existsb f l), (existsb g l); reflexivity.
Qed.

(** [last] of a non-empty list does not depend on the default. *)
Lemma last_cons_default {A} (x d : A) (l : list A) : last (x :: l) d = last l x.
Proof.
  revert x d. induction l as [|y l IH]; intros x d; [reflexivity|].
  change (last (y :: l) d = last (y :: l) x). rewrite !IH. reflexivity.
Qed.

(** ** Tactics *)

(** Case on every boolean test of the goal, oldest first. *)
Ltac break_ifs :=
  repeat match goal with
         | |- context [if ?b then _ else _] =>
             lazymatch b with
             | context [if _ then _ else _] => fail
             | _ => destruct b eqn:?
             end
         end.

(** Turn the boolean equalities of the code into propositions. *)
Ltac bool_to_prop :=
  repeat match goal with
         | H : (_ =? _)%string = true |- _ => apply String.eqb_eq in H
         | H : (_ =? _)%string = false |- _ => apply String.eqb_neq in H
         | H : (_ =? _)%Z = true |- _ => apply Z.eqb_eq in H
         | H : (_ =? _)%Z = false |- _ => apply Z.eqb_neq in H
         | H : (_ =? _)%nat = true |- _ => apply Nat.eqb_eq in H
         | H : (_ =? _)%nat = false |- _ => apply Nat.eqb_neq in H
         | H : (_ && _) = true |- _ => apply andb_prop in H as [? ?]
         end.

#[export] Hint Resolve dict_get_set_eq dict_set_keys_nodup : fintrack.

(** Split a hypothesis [lo <= x <= hi] on integer constants into one goal
    per value of [x]. *)
Ltac z_cases x :=
  lazymatch goal with
  | H : (?lo <= x <= ?hi)%Z |- _ =>
      destruct (Z.eq_dec x lo) as [->|?Hne];
      [clear H
      | first [ lia
              | let lo' := eval vm_compute in (Z.succ lo) in
                assert (lo' <= x <= hi)%Z by lia; clear H Hne; z_cases x ] ]
  end.
