(* ===== verification/Num.v ===== *)
(** Amounts.  The aggregator of [src/app.py] adds and subtracts amounts,
    runs loops of [+=] from Python's [0], and calls [sum]; the store binds
    amounts to SQLite.  [Num] is that interface: [num_sum] is [sum] of a
    list of amounts, [num_null] tells which amounts SQLite stores as NULL.
    [NumLaws] are the laws of exact arithmetic (an abelian group, [sum] a
    left fold), which hold for [Z] and fail for binary floats.

    For floats, [sum] is CPython 3.12's: [builtin_sum_impl] adds the first
    term to the integer [0], then runs Neumaier's compensated loop and adds
    the compensation at the end when it is non-zero and finite
    ([float_sum]).  (CPython 3.11 and earlier fold plainly, as the loops
    of the dashboard do.)  SQLite's [sqlite3_bind_double] stores a NaN as
    NULL. *)

From Stdlib Require Import Bool ZArith Lia List PrimFloat SpecFloat FloatOps FloatAxioms.
From S2P Require Import Prelude.
Import ListNotations.

Class Num (A : Type) := {
  num_zero : A;
  num_add : A -> A -> A;
  num_sub : A -> A -> A;
  num_sum : list A -> A;
  num_null : A -> bool
}.

Declare Scope num_scope.
Delimit Scope num_scope with num.
Notation "0" := num_zero : num_scope.
Notation "a + b" := (num_add a b) : num_scope.
Notation "a - b" := (num_sub a b) : num_scope.

Class NumLaws (A : Type) `{Num A} : Prop := {
  num_add_assoc : forall a b c : A, (a + (b + c) = (a + b) + c)%num;
  num_add_comm : forall a b : A, (a + b = b + a)%num;
  num_add_0_l : forall a : A, (0 + a = a)%num;
  num_sub_add : forall a b : A, ((a - b) + b = a)%num;
  num_add_sub : forall a b : A, ((a + b) - b = a)%num;
  num_sum_fold : forall l : list A, num_sum l = fold_left num_add l num_zero
}.

(** Exact amounts, in the smallest unit of the currency. *)
#[export] Instance Num_Z : Num Z :=
  {| num_zero := 0%Z; num_add := Z.add; num_sub := Z.sub;
     num_sum := fun l => fold_left Z.add l 0%Z; num_null := fun _ => false |}.

#[export] Instance NumLaws_Z : NumLaws Z.
Proof. split; cbn; intros; reflexivity || lia. Qed.

(** [math.isnan(x)] *)
Definition sf_isnan (x : spec_float) : bool := match x with S754_nan => true | _ => false end.
Definition float_isnan (x : float) : bool := sf_isnan (Prim2SF x).

(** [math.isfinite(x)]: zero or a finite number. *)
Definition sf_isfinite (x : spec_float) : bool :=
  match x with S754_zero _ | S754_finite _ _ _ => true | _ => false end.
Definition float_isfinite (x : float) : bool := sf_isfinite (Prim2SF x).

(** The loop of [builtin_sum_impl] on floats (CPython 3.12 and later),
    from the partial sum [f] and the compensation [c]:
    [t = f + x; c += (f - t) + x] if [fabs(f) >= fabs(x)], else
    [c += (x - t) + f]; [f = t]; at the end [if (c && isfinite(c)) f += c]. *)
Fixpoint neumaier_sum (f c : float) (xs : list float) : float :=
  match xs with
  | [] => if (negb (c =? 0)%float && float_isfinite c)%bool then (f + c)%float else f
  | x :: xs' =>
      let t := (f + x)%float in
      let c' := if (abs x <=? abs f)%float then (c + ((f - t) + x))%float
                else (c + ((x - t) + f))%float in
      neumaier_sum t c' xs'
  end.

(** [sum(xs)] of floats: [0] if [xs] is empty (the integer path);
    otherwise [0 + x1] then the compensated loop over the rest. *)
Definition float_sum (xs : list float) : float :=
  match xs with
  | [] => 0%float
  | x :: xs' => neumaier_sum (0 + x)%float 0%float xs'
  end.

(** Python's [float] and the column type [db.Float]: IEEE binary64 with
    rounding to nearest, which are the kernel's primitive floats.  Python's
    integer [0] added to a float is the float [0.0]. *)
#[export] Instance Num_float : Num float :=
  {| num_zero := 0%float; num_add := PrimFloat.add; num_sub := PrimFloat.sub;
     num_sum := float_sum; num_null := float_isnan |}.

(** [sum(f(x) for x in xs)]. *)
Definition py_sum {A X} `{Num A} (f : X -> A) (xs : list X) : A := num_sum (map f xs).

(** A loop [acc = 0; for x in xs: acc += f(x)]. *)
Definition fold_sum {A X} `{Num A} (f : X -> A) (xs : list X) : A :=
  fold_left (fun acc x => num_add acc (f x)) xs num_zero.

Section Laws.
Context {A : Type} `{NumLaws A}.
Local Open Scope num_scope.

Lemma num_add_0_r (a : A) : a + 0 = a.
Proof. rewrite num_add_comm. apply num_add_0_l. Qed.

(** Cancellation: an equation [x + c = y] determines [x]. *)
Lemma num_solve (x c y : A) : x + c = y -> x = y - c.
Proof. intros <-. symmetry. apply num_add_sub. Qed.

Lemma num_sub_sub (a b c : A) : a - b - c = a - (b + c).
Proof.
  apply num_solve.
  rewrite (num_add_comm b c), num_add_assoc, !num_sub_add.
  reflexivity.
Qed.

Lemma num_add_sub_assoc (a b c : A) : a + (b - c) = (a + b) - c.
Proof.
  apply num_solve. rewrite <- num_add_assoc, num_sub_add. reflexivity.
Qed.

Lemma num_sub_0_r (a : A) : a - 0 = a.
Proof. symmetry. apply num_solve, num_add_0_r. Qed.

Lemma num_sub_diag (a : A) : a - a = 0.
Proof. symmetry. apply num_solve, num_add_0_l. Qed.

Lemma num_add_swap (p q r s : A) : (p + q) + (r + s) = (p + r) + (q + s).
Proof.
  rewrite <- !num_add_assoc. f_equal.
  rewrite !num_add_assoc, (num_add_comm q r). reflexivity.
Qed.

Lemma num_add_neg (b a : A) : b + (0 - a) = b - a.
Proof. rewrite num_add_sub_assoc, num_add_0_r. reflexivity. Qed.

(** Subtracting [a] from the left of a difference. *)
Lemma num_neg_add_sub (a x y : A) : (0 - a) + (x - y) = x - (a + y).
Proof.
  apply num_solve. rewrite num_add_swap, !num_sub_add, num_add_0_l. reflexivity.
Qed.

(** A fold of additions can be started from [0] and shifted. *)
Lemma fold_add_shift {X} (f : X -> A) (xs : list X) (a : A) :
  fold_left (fun acc x => acc + f x) xs a
  = a + fold_left (fun acc x => acc + f x) xs 0.
Proof.
  revert a. induction xs as [|x xs IH]; intros a; simpl.
  - rewrite num_add_0_r. reflexivity.
  - rewrite IH, (IH (0 + f x)), num_add_0_l, num_add_assoc. reflexivity.
Qed.

(** With exact amounts [sum] is the loop of [+=]. *)
Lemma py_sum_fold {X} (f : X -> A) xs : py_sum f xs = fold_sum f xs.
Proof.
  unfold py_sum, fold_sum. rewrite num_sum_fold. generalize (@num_zero A _).
  induction xs as [|x xs IH]; intros a; [reflexivity | apply IH].
Qed.

Lemma py_sum_nil {X} (f : X -> A) : py_sum f [] = 0.
Proof. rewrite py_sum_fold. reflexivity. Qed.

Lemma py_sum_cons {X} (f : X -> A) x xs : py_sum f (x :: xs) = f x + py_sum f xs.
Proof. rewrite !py_sum_fold. unfold fold_sum. simpl. rewrite fold_add_shift, num_add_0_l. reflexivity. Qed.

Lemma py_sum_app {X} (f : X -> A) xs ys : py_sum f (xs ++ ys) = py_sum f xs + py_sum f ys.
Proof.
  induction xs as [|x xs IH]; simpl.
  - rewrite py_sum_nil, num_add_0_l. reflexivity.
  - rewrite !py_sum_cons, IH, num_add_assoc. reflexivity.
Qed.

(** Exact sums do not depend on the order of the terms. *)
Lemma py_sum_perm {X} (f : X -> A) xs ys :
  Permutation.Permutation xs ys -> py_sum f xs = py_sum f ys.
Proof.
  induction 1 as [|x xs ys _ IH|x y xs|xs ys zs _ IH1 _ IH2].
  - reflexivity.
  - rewrite !py_sum_cons, IH. reflexivity.
  - rewrite !py_sum_cons, !num_add_assoc, (num_add_comm (f y)). reflexivity.
  - congruence.
Qed.

Lemma py_sum_ext {X} (f g : X -> A) xs :
  (forall x, In x xs -> f x = g x) -> py_sum f xs = py_sum g xs.
Proof.
  induction xs as [|x xs IH]; intros Hfg; [reflexivity|].
  rewrite !py_sum_cons, (Hfg x (or_introl eq_refl)), IH by (intros; apply Hfg; right; auto).
  reflexivity.
Qed.
End Laws.

#[export] Hint Rewrite @py_sum_nil @py_sum_cons @py_sum_app using typeclasses eauto : fintrack_rw.

(** Sums of non-negative exact amounts are non-negative. *)
Lemma py_sum_nonneg {X} (f : X -> Z) (xs : list X) :
  (forall x, In x xs -> (0 <= f x)%Z) -> (0 <= py_sum f xs)%Z.
Proof.
  induction xs as [|x xs IH]; intros Hpos; [cbn; lia|].
  rewrite py_sum_cons. cbn [num_add Num_Z].
  assert (0 <= f x)%Z by (apply Hpos; left; reflexivity).
  enough (0 <= py_sum f xs)%Z by lia. apply IH. intros; apply Hpos; right; auto.
Qed.

(** ** Finite summands keep float sums off NaN

    A sum of binary64 numbers meets NaN only through a NaN summand or
    [inf + -inf]; a sum of finite numbers can overflow to an infinity,
    and from there adding a finite number leaves it infinite.  The
    rounding of [SpecFloat] never produces NaN from a non-negative
    mantissa; the lemmas below show it for any precision. *)

Section Rounding.
Variables prec emax : Z.

Lemma shr_1_nonneg mrs : (0 <= shr_m mrs)%Z -> (0 <= shr_m (shr_1 mrs))%Z.
Proof. destruct mrs as [[|[p|p|]|p] r s]; cbn; lia. Qed.

Lemma iter_shr_1_nonneg n mrs : (0 <= shr_m mrs)%Z -> (0 <= shr_m (iter_pos shr_1 n mrs))%Z.
Proof. revert mrs. induction n as [n IH|n IH|]; intros mrs Hm; cbn; auto using shr_1_nonneg. Qed.

Lemma shr_fexp_nonneg m e l : (0 <= m)%Z -> (0 <= shr_m (fst (shr_fexp prec emax m e l)))%Z.
Proof.
  intros Hm. unfold shr_fexp, shr.
  assert (Hl : shr_m (shr_record_of_loc m l) = m) by (destruct l as [|[]]; reflexivity).
  destruct (_ - e)%Z; cbn [fst]; [lia | apply iter_shr_1_nonneg | ]; lia.
Qed.

Lemma round_nearest_even_nonneg mx lx : (0 <= mx)%Z -> (0 <= round_nearest_even mx lx)%Z.
Proof. intros Hm. destruct lx as [|[]]; cbn; try destruct (Z.even mx); lia. Qed.

Lemma binary_round_aux_not_nan sx mx ex lx :
  (0 <= mx)%Z -> sf_isnan (binary_round_aux prec emax sx mx ex lx) = false.
Proof.
  intros Hm. unfold binary_round_aux.
  pose proof (shr_fexp_nonneg mx ex lx Hm) as H1.
  destruct (shr_fexp prec emax mx ex lx) as [mrs' e'] eqn:E1. cbn [fst] in H1.
  pose proof (shr_fexp_nonneg (round_nearest_even (shr_m mrs') (loc_of_shr_record mrs')) e' loc_Exact
                (round_nearest_even_nonneg _ _ H1)) as H2.
  destruct (shr_fexp prec emax _ e' loc_Exact) as [mrs'' e''] eqn:E2. cbn [fst] in H2.
  destruct (shr_m mrs''); [reflexivity | destruct (_ <=? _)%Z; reflexivity | lia].
Qed.

Lemma binary_normalize_not_nan m e sz : sf_isnan (binary_normalize prec emax m e sz) = false.
Proof.
  destruct m as [|m|m]; [reflexivity| |]; cbn [binary_normalize]; unfold binary_round;
    destruct (shl_align _ _ _); apply binary_round_aux_not_nan; lia.
Qed.

(** Adding or subtracting a finite number never gives NaN from a number
    that is not NaN. *)
Lemma SFadd_not_nan x y :
  sf_isnan x = false -> sf_isfinite y = true -> sf_isnan (SFadd prec emax x y) = false.
Proof.
  destruct x as [sx|sx| |sx mx ex], y as [sy|sy| |sy my ey]; cbn; intros Hx Hy;
    try discriminate; try (destruct sx, sy; reflexivity); try reflexivity.
  apply binary_normalize_not_nan.
Qed.

Lemma SFsub_not_nan x y :
  sf_isnan x = false -> sf_isfinite y = true -> sf_isnan (SFsub prec emax x y) = false.
Proof.
  destruct x as [sx|sx| |sx mx ex], y as [sy|sy| |sy my ey]; cbn; intros Hx Hy;
    try discriminate; try (destruct sx, sy; reflexivity); try reflexivity.
  apply binary_normalize_not_nan.
Qed.
End Rounding.

Lemma float_add_not_nan x y :
  float_isnan x = false -> float_isfinite y = true -> float_isnan (x + y)%float = false.
Proof. unfold float_isnan, float_isfinite. rewrite add_spec. apply SFadd_not_nan. Qed.

Lemma float_sub_not_nan x y :
  float_isnan x = false -> float_isfinite y = true -> float_isnan (x - y)%float = false.
Proof. unfold float_isnan, float_isfinite. rewrite sub_spec. apply SFsub_not_nan. Qed.

Lemma float_zero_not_nan : float_isnan 0%float = false.
Proof. vm_compute. reflexivity. Qed.

(** [sum] of finite floats, compensated or not, is never NaN. *)
Lemma neumaier_sum_not_nan f c xs :
  float_isnan f = false -> (forall x, In x xs -> float_isfinite x = true) ->
  float_isnan (neumaier_sum f c xs) = false.
Proof.
  revert f c. induction xs as [|x xs IH]; intros f c Hf Hxs; cbn [neumaier_sum].
  - destruct (negb _ && float_isfinite c) eqn:E; [|exact Hf].
    apply andb_prop in E as [_ Hc]. exact (float_add_not_nan f c Hf Hc).
  - apply IH; [apply float_add_not_nan; [exact Hf | apply Hxs; left; reflexivity]|].
    intros y Hy. apply Hxs. right. exact Hy.
Qed.

Lemma float_sum_not_nan xs :
  (forall x, In x xs -> float_isfinite x = true) -> float_isnan (float_sum xs) = false.
Proof.
  destruct xs as [|x xs]; intros Hxs; [exact float_zero_not_nan|].
  apply neumaier_sum_not_nan; [|intros y Hy; apply Hxs; right; exact Hy].
  apply float_add_not_nan; [exact float_zero_not_nan | apply Hxs; left; reflexivity].
Qed.
