(* ===== verification/PyStr.v ===== *)
(** Python string methods used by [src/app.py]: [str.lower()] (on the
    transaction type, in [add_transaction] and in [dashboard]) and
    [str.strip()] (on every form field of [add_transaction]).  A Stdlib
    [ascii] character is read as the Unicode code point 0..255 (Latin-1),
    on which Python's case mapping and [str.isspace] are modelled exactly;
    code points above 255 are not represented. *)

From Stdlib Require Import Bool Arith Ascii String List Lia.
From S2P Require Import Prelude.
Import ListNotations.

(** [str.isspace] on a code point below 256: the ASCII controls 9..13 and
    28..31, the space, U+0085 and U+00A0. *)
Definition py_isspace (c : ascii) : bool :=
  let n := nat_of_ascii c in
  ((9 <=? n) && (n <=? 13)) || ((28 <=? n) && (n <=? 32))
  || (n =? 133) || (n =? 160).

(** [str.lower] on one code point: A..Z and the Latin-1 capitals U+00C0..
    U+00DE except U+00D7 (the multiplication sign) map 32 places up. *)
Definition py_lower_char (c : ascii) : ascii :=
  let n := nat_of_ascii c in
  if ((65 <=? n) && (n <=? 90)) || ((192 <=? n) && (n <=? 222) && negb (n =? 215))
  then ascii_of_nat (n + 32) else c.

Fixpoint py_lower (s : string) : string :=
  match s with
  | EmptyString => EmptyString
  | String c s' => String (py_lower_char c) (py_lower s')
  end.

(** [str.lstrip()] *)
Fixpoint py_lstrip (s : string) : string :=
  match s with
  | EmptyString => EmptyString
  | String c s' => if py_isspace c then py_lstrip s' else s
  end.

Fixpoint drop_space (l : list ascii) : list ascii :=
  match l with
  | [] => []
  | c :: l' => if py_isspace c then drop_space l' else l
  end.

(** [str.rstrip()] *)
Definition py_rstrip (s : string) : string :=
  string_of_list_ascii (rev (drop_space (rev (list_ascii_of_string s)))).

(** [str.strip()] *)
Definition py_strip (s : string) : string := py_rstrip (py_lstrip s).

(** ** Lemmas *)

Lemma py_lower_char_idem (c : ascii) : py_lower_char (py_lower_char c) = py_lower_char c.
Proof. destruct c as [[] [] [] [] [] [] [] []]; reflexivity. Qed.

Lemma py_lower_idem (s : string) : py_lower (py_lower s) = py_lower s.
Proof. induction s as [|c s IH]; simpl; rewrite ?py_lower_char_idem, ?IH; reflexivity. Qed.

Lemma py_lower_append (s1 s2 : string) : py_lower (s1 ++ s2) = (py_lower s1 ++ py_lower s2)%string.
Proof. induction s1 as [|c s1 IH]; simpl; congruence. Qed.

Lemma drop_space_idem (l : list ascii) : drop_space (drop_space l) = drop_space l.
Proof.
  induction l as [|c l IH]; simpl; [reflexivity|].
  destruct (py_isspace c) eqn:E; [exact IH | simpl; rewrite E; reflexivity].
Qed.

Lemma py_lstrip_as_list (s : string) :
  list_ascii_of_string (py_lstrip s) = drop_space (list_ascii_of_string s).
Proof.
  induction s as [|c s IH]; simpl; [reflexivity|].
  destruct (py_isspace c); [exact IH | reflexivity].
Qed.

Example py_strip_ex : py_strip (String (ascii_of_nat 9) "  Income  ") = "Income"%string.
Proof. reflexivity. Qed.

Example py_lower_ex : py_lower (py_strip " EXPENSE ") = "expense"%string.
Proof. reflexivity. Qed.

Lemma drop_space_nospace (l : list ascii) :
  forallb (fun c => negb (py_isspace c)) l = true -> drop_space l = l.
Proof.
  destruct l as [|c l]; simpl; [reflexivity|].
  destruct (py_isspace c); [discriminate | reflexivity].
Qed.

(** [s.strip()] leaves a string without whitespace as it is. *)
Lemma py_strip_nospace (l : list ascii) :
  forallb (fun c => negb (py_isspace c)) l = true ->
  py_strip (string_of_list_ascii l) = string_of_list_ascii l.
Proof.
  intros Hl. unfold py_strip, py_rstrip.
  rewrite py_lstrip_as_list, list_ascii_of_string_of_list_ascii, (drop_space_nospace l Hl).
  rewrite drop_space_nospace; [rewrite rev_involutive; reflexivity|].
  rewrite forallb_forall in *. intros c Hc. apply Hl, in_rev, Hc.
Qed.
