(* ===== verification/PyNum.v ===== *)
(** Python's [int(s)] and [float(s)] on strings, as [add_transaction] and
    [edit_transaction] call [float] on the amount field and werkzeug calls
    [int] on the parameters of a stored hash method.

    Both strip the whitespace [str.strip] removes, accept one sign and
    digits that single underscores may separate (PEP 515), and reject
    anything else with [ValueError] ([None] here).  [float] also reads
    [inf], [infinity] and [nan] in any case, a fraction part and an
    exponent, following the grammar of the Python reference
    ([floatvalue]), and returns the binary64 value nearest to the decimal
    number, ties to even, as CPython's [_Py_dg_strtod] does.  The rounding
    is the kernel's specification of binary64 ([SpecFloat]): an exact
    integer is rounded with [binary_normalize], a quotient by a power of ten
    with the division core of [SFdiv], which rounds the exact quotient.
    The sign of a NaN is not kept (the kernel has one NaN). *)

From Stdlib Require Import Bool Arith ZArith Lia Ascii String List.
From Stdlib Require Import PrimFloat SpecFloat FloatOps FloatAxioms Uint63.
From S2P Require Import Prelude PyStr.
Import ListNotations.

(** [Py_ISDIGIT] and the digit's value. *)
Definition dig (c : ascii) : option Z :=
  let n := nat_of_ascii c in
  if (48 <=? n) && (n <=? 57) then Some (Z.of_nat n - 48)%Z else None.

(** The rest of [digitpart ::= digit (["_"] digit)*] after its first
    digit; digits are accumulated last first.  An underscore not followed
    by a digit is left in the input. *)
Fixpoint digitpart_rest (l : list ascii) (acc : list Z) : list Z * list ascii :=
  match l with
  | "_"%char :: c :: l' =>
      match dig c with Some d => digitpart_rest l' (d :: acc) | None => (acc, l) end
  | c :: l' =>
      match dig c with Some d => digitpart_rest l' (d :: acc) | None => (acc, l) end
  | [] => (acc, [])
  end.

Definition digitpart (l : list ascii) : option (list Z * list ascii) :=
  match l with
  | c :: l' => match dig c with Some d => Some (digitpart_rest l' [d]) | None => None end
  | [] => None
  end.

(** The value of digits given last first. *)
Fixpoint digits_value (ds : list Z) : Z :=
  match ds with
  | [] => 0
  | d :: ds' => d + 10 * digits_value ds'
  end%Z.

Definition parse_sign (l : list ascii) : bool * list ascii :=
  match l with
  | "-"%char :: l' => (true, l')
  | "+"%char :: l' => (false, l')
  | _ => (false, l)
  end.

(** [sys.get_int_max_str_digits()]: CPython 3.11 and later refuse to
    convert a decimal string of more digits ([ValueError: Exceeds the
    limit (4300 digits) for integer string conversion]). *)
Definition int_max_str_digits : nat := 4300.

(** [int(s)] in base 10. *)
Definition py_int (s : string) : option Z :=
  let '(neg, l) := parse_sign (list_ascii_of_string (py_strip s)) in
  match digitpart l with
  | Some (ds, []) =>
      if Nat.leb (length ds) int_max_str_digits
      then Some (if neg then - digits_value ds else digits_value ds)%Z
      else None
  | _ => None
  end.

(** [number ::= [digitpart] "." digitpart | digitpart ["."]]: the digits
    before and after the point, and the rest. *)
Definition parse_number (l : list ascii) : option (list Z * list Z * list ascii) :=
  match digitpart l with
  | Some (ip, r) =>
      match r with
      | "."%char :: r' =>
          match digitpart r' with
          | Some (fp, r'') => Some (ip, fp, r'')
          | None => Some (ip, [], r')
          end
      | _ => Some (ip, [], r)
      end
  | None =>
      match l with
      | "."%char :: r' =>
          match digitpart r' with
          | Some (fp, r'') => Some ([], fp, r'')
          | None => None
          end
      | _ => None
      end
  end.

(** [exponent ::= ("e" | "E") [sign] digitpart], which must end the
    input; no exponent is 0. *)
Definition parse_exponent (l : list ascii) : option Z :=
  match l with
  | [] => Some 0%Z
  | c :: r =>
      if Ascii.eqb c "e"%char || Ascii.eqb c "E"%char then
        let '(neg, r') := parse_sign r in
        match digitpart r' with
        | Some (ds, []) => Some (if neg then - digits_value ds else digits_value ds)%Z
        | _ => None
        end
      else None
  end.

(** The literal [float] reads. *)
Inductive float_lit :=
| FInf (neg : bool)
| FNan
| FDec (neg : bool) (mant exp10 : Z).

(** [floatvalue ::= [sign] (floatnumber | infinity | nan)]. *)
Definition parse_float_lit (l : list ascii) : option float_lit :=
  let '(neg, l1) := parse_sign l in
  let low := py_lower (string_of_list_ascii l1) in
  if String.eqb low "inf" || String.eqb low "infinity" then Some (FInf neg)
  else if String.eqb low "nan" then Some FNan
  else match parse_number l1 with
       | Some (ip, fp, r) =>
           match parse_exponent r with
           | Some e => Some (FDec neg (digits_value (fp ++ ip)) (e - Z.of_nat (length fp)))
           | None => None
           end
       | None => None
       end.

(** The binary64 value nearest to [(-1)^neg * m * 10^e], ties to even. *)
Definition dec_to_sf (neg : bool) (m e : Z) : spec_float :=
  if (0 <=? e)%Z then
    binary_normalize prec emax (if neg then - (m * 10 ^ e) else m * 10 ^ e)%Z 0 neg
  else if (m =? 0)%Z then S754_zero neg
  else let '(q, e', loc) := SFdiv_core_binary prec emax m 0 (10 ^ (- e)) 0 in
       binary_round_aux prec emax neg q e' loc.

Definition lit_to_sf (x : float_lit) : spec_float :=
  match x with
  | FInf neg => S754_infinity neg
  | FNan => S754_nan
  | FDec neg m e => dec_to_sf neg m e
  end.

(** [float(s)] *)
Definition py_float (s : string) : option float :=
  match parse_float_lit (list_ascii_of_string (py_strip s)) with
  | Some x => Some (SF2Prim (lit_to_sf x))
  | None => None
  end.

(** ** Lemmas *)

Definition is_dig (c : ascii) : bool := match dig c with Some _ => true | None => false end.

(** The value of a decimal digit. *)
Definition dval (c : ascii) : Z := (Z.of_nat (nat_of_ascii c) - 48)%Z.

(** The integer a string of decimal digits denotes, read left to right. *)
Definition dec_value (l : list ascii) : Z := fold_left (fun acc c => 10 * acc + dval c)%Z l 0%Z.

Lemma is_dig_inv c :
  is_dig c = true -> In c ["0"; "1"; "2"; "3"; "4"; "5"; "6"; "7"; "8"; "9"]%char.
Proof.
  unfold is_dig, dig. rewrite <- (ascii_nat_embedding c).
  generalize (nat_of_ascii c) as n. intros n.
  destruct ((48 <=? nat_of_ascii (ascii_of_nat n)) && (nat_of_ascii (ascii_of_nat n) <=? 57)) eqn:E;
    [|discriminate]. intros _.
  apply andb_true_iff in E as [E1 E2]. apply Nat.leb_le in E1, E2.
  assert (Hk : exists k, k < 10 /\ nat_of_ascii (ascii_of_nat n) = 48 + k) by (exists (nat_of_ascii (ascii_of_nat n) - 48); lia).
  destruct Hk as (k & Hk & Heq). rewrite <- (ascii_nat_embedding (ascii_of_nat n)), Heq.
  do 10 (destruct k as [|k]; [simpl; tauto|]). lia.
Qed.

(** What the parsers see of a decimal digit. *)
Lemma digit_char_facts c : is_dig c = true ->
  dig c = Some (dval c) /\ py_isspace c = false /\ py_lower_char c = c
  /\ (forall l, parse_sign (c :: l) = (false, c :: l))
  /\ (forall l acc, digitpart_rest (c :: l) acc = digitpart_rest l (dval c :: acc))
  /\ Ascii.eqb c "i"%char = false /\ Ascii.eqb c "n"%char = false.
Proof.
  intros Hc. apply is_dig_inv in Hc.
  repeat (destruct Hc as [<-|Hc]; [repeat split; intros; try destruct l; reflexivity|]).
  destruct Hc.
Qed.

Lemma digitpart_rest_digits l acc :
  forallb is_dig l = true -> digitpart_rest l acc = (rev (map dval l) ++ acc, []).
Proof.
  revert acc. induction l as [|c l IH]; intros acc Hl; [reflexivity|].
  simpl in Hl. apply andb_true_iff in Hl as [Hc Hl].
  destruct (digit_char_facts c Hc) as (_ & _ & _ & _ & Hr & _).
  rewrite Hr, IH by exact Hl. simpl. rewrite <- app_assoc. reflexivity.
Qed.

Lemma digits_value_snoc xs d :
  digits_value (xs ++ [d]) = (digits_value xs + d * 10 ^ Z.of_nat (length xs))%Z.
Proof.
  induction xs as [|x xs IH]; [simpl; lia|].
  cbn [app digits_value length]. rewrite IH, Nat2Z.inj_succ, Z.pow_succ_r by lia. ring.
Qed.

Lemma dec_value_digits_value l acc :
  fold_left (fun acc c => 10 * acc + dval c)%Z l acc
  = (digits_value (rev (map dval l)) + acc * 10 ^ Z.of_nat (length l))%Z.
Proof.
  revert acc. induction l as [|c l IH]; intros acc; [simpl; lia|].
  cbn [fold_left map rev length]. rewrite IH, digits_value_snoc, length_rev, length_map, Nat2Z.inj_succ, Z.pow_succ_r by lia.
  ring.
Qed.

Lemma lower_digits l :
  forallb is_dig l = true -> py_lower (string_of_list_ascii l) = string_of_list_ascii l.
Proof.
  induction l as [|c l IH]; simpl; intros Hl; [reflexivity|].
  apply andb_true_iff in Hl as [Hc Hl].
  destruct (digit_char_facts c Hc) as (_ & _ & Hlow & _). rewrite Hlow, IH by exact Hl. reflexivity.
Qed.

(** A string of digits is read as the integer it denotes, exponent 0. *)
Lemma parse_float_lit_digits l :
  l <> [] -> forallb is_dig l = true -> parse_float_lit l = Some (FDec false (dec_value l) 0).
Proof.
  intros Hne Hl. destruct l as [|c l']; [contradiction|].
  pose proof Hl as Hl'. simpl in Hl'. apply andb_true_iff in Hl' as [Hc Hrest].
  destruct (digit_char_facts c Hc) as (Hd & _ & Hlow & Hsign & Hr & Hi & Hn).
  unfold parse_float_lit. rewrite Hsign, lower_digits by exact Hl. simpl. rewrite Hi, Hn.
  unfold parse_number, digitpart. rewrite Hd, digitpart_rest_digits by exact Hrest. simpl.
  unfold dec_value. rewrite dec_value_digits_value. simpl.
  rewrite ?app_nil_r. do 2 f_equal; lia.
Qed.

Lemma is_dig_nospace l :
  forallb is_dig l = true -> forallb (fun c => negb (py_isspace c)) l = true.
Proof.
  induction l as [|c l IH]; simpl; [reflexivity|]. intros Hl.
  apply andb_true_iff in Hl as [Hc Hl].
  destruct (digit_char_facts c Hc) as (_ & Hs & _). rewrite Hs, IH by exact Hl. reflexivity.
Qed.

Lemma dval_nonneg c : is_dig c = true -> (0 <= dval c)%Z.
Proof.
  unfold is_dig, dig, dval. destruct (_ && _) eqn:E; [|discriminate]. intros _.
  apply andb_true_iff in E as [E _]. apply Nat.leb_le in E. lia.
Qed.

Lemma dec_value_nonneg l : forallb is_dig l = true -> (0 <= dec_value l)%Z.
Proof.
  unfold dec_value. generalize (Z.le_refl 0). generalize 0%Z at 2 4 as acc.
  induction l as [|c l IH]; cbn [fold_left forallb]; intros acc Hacc Hl; [exact Hacc|].
  apply andb_true_iff in Hl as [Hc Hl]. apply IH; [pose proof (dval_nonneg c Hc); lia | exact Hl].
Qed.

(** [int()] of a string of decimal digits is the integer it denotes when
    it has at most 4300 digits, and raises [ValueError] otherwise. *)
Lemma py_int_digits (l : list ascii) :
  l <> [] -> forallb is_dig l = true ->
  py_int (string_of_list_ascii l)
  = if Nat.leb (length l) int_max_str_digits then Some (dec_value l) else None.
Proof.
  intros Hne Hl. unfold py_int.
  rewrite py_strip_nospace, list_ascii_of_string_of_list_ascii by auto using is_dig_nospace.
  destruct l as [|c l']; [contradiction|].
  pose proof Hl as Hl'. simpl in Hl'. apply andb_true_iff in Hl' as [Hc Hrest].
  destruct (digit_char_facts c Hc) as (Hd & _ & _ & Hsign & _).
  rewrite Hsign. unfold digitpart. rewrite Hd, digitpart_rest_digits by exact Hrest.
  rewrite length_app, length_rev, length_map. cbn [length]. rewrite Nat.add_1_r.
  destruct (Nat.leb _ _); [|reflexivity]. f_equal.
  unfold dec_value. cbn [fold_left]. rewrite dec_value_digits_value, digits_value_snoc, length_rev, length_map.
  lia.
Qed.

(** ** Theorems *)

(** The letters of [nan] in any case are no whitespace and no sign. *)
Lemma nan_letter c r :
  py_lower_char c = "n"%char \/ py_lower_char c = "a"%char ->
  py_isspace c = false /\ parse_sign (c :: r) = (false, c :: r).
Proof. destruct c as [[] [] [] [] [] [] [] []]; cbn; intros [H|H]; try discriminate H; split; reflexivity. Qed.

(** [float(s)] is NaN for every spelling of [nan] ([NaN], [ nan ], ...). *)
Lemma py_float_nan s : py_lower (py_strip s) = "nan"%string -> py_float (py_strip s) = Some nan.
Proof.
  rewrite <- (string_of_list_ascii_of_string (py_strip s)).
  destruct (list_ascii_of_string (py_strip s)) as [|c1 [|c2 [|c3 [|c4 l]]]]; intros H; cbn in H;
    try discriminate H.
  injection H as H1 H2 H3.
  destruct (nan_letter c1 (c2 :: c3 :: []) (or_introl H1)) as [S1 P1].
  destruct (nan_letter c2 [] (or_intror H2)) as [S2 _].
  destruct (nan_letter c3 [] (or_introl H3)) as [S3 _].
  unfold py_float. rewrite (py_strip_nospace [c1; c2; c3]) by (cbn; rewrite S1, S2, S3; reflexivity).
  rewrite list_ascii_of_string_of_list_ascii. unfold parse_float_lit. rewrite P1. cbn.
  rewrite H1, H2, H3. reflexivity.
Qed.

(** [float(s)] is NaN when [s] is [nan] in any case, surrounded by any
    whitespace. *)
Lemma py_float_nan_any s : py_lower (py_strip s) = "nan"%string -> py_float s = Some nan.
Proof.
  intros H. unfold py_float. rewrite <- (string_of_list_ascii_of_string (py_strip s)) in H.
  destruct (list_ascii_of_string (py_strip s)) as [|c1 [|c2 [|c3 [|c4 l]]]];
    cbn in H; try discriminate H.
  injection H as H1 H2 H3. destruct (nan_letter c1 [c2; c3] (or_introl H1)) as [_ P1].
  unfold parse_float_lit. rewrite P1. cbn. rewrite H1, H2, H3. reflexivity.
Qed.

(** [float()] of a string of decimal digits (leading zeros and no
    sign allowed) whose value is below 2^63 is the kernel's conversion of
    that integer, [of_uint63]: the binary64 number nearest to it, ties to
    even.  Amounts of up to 2^53 are thus stored exactly, larger ones
    rounded. *)
Theorem py_float_digits (l : list ascii) :
  l <> [] -> forallb is_dig l = true -> (dec_value l < 2 ^ 63)%Z ->
  py_float (string_of_list_ascii l) = Some (of_uint63 (Uint63.of_Z (dec_value l))).
Proof.
  intros Hne Hl Hb. unfold py_float.
  rewrite py_strip_nospace, list_ascii_of_string_of_list_ascii, parse_float_lit_digits
    by auto using is_dig_nospace.
  cbn [lit_to_sf]. unfold dec_to_sf. rewrite Z.pow_0_r, Z.mul_1_r. simpl (0 <=? 0)%Z.
  f_equal. rewrite <- (SF2Prim_Prim2SF (of_uint63 _)), of_uint63_spec, of_Z_spec, Z.mod_small;
    [reflexivity|].
  pose proof (dec_value_nonneg l Hl). change wB with (2 ^ 63)%Z. lia.
Qed.

(** ** Witness *)

(** 2^53 + 1 is read as 2^53: the nearest even binary64 number. *)
