(* ===== verification/StableSort.v ===== *)
(** Python's [sorted(xs, key=k)], used by [dashboard] in [src/app.py] to
    order a user's transactions by date before the running balance.  CPython
    sorts with Timsort, which compares keys with [<] only and is stable.  The
    model is a stable insertion sort [sort_by]; its specification is
    [sorted_by] (no key below the one before it) plus stability (for every
    key, the elements with that key keep their input order).  The theorem
    [sort_by_unique] shows that the specification determines the output, so
    any stable sort, Timsort included, returns what [sort_by] returns. *)

From Stdlib Require Import Bool Arith List Permutation Sorted Lia.
From S2P Require Import Prelude.
Import ListNotations.

(** A boolean [<] that is a strict total order on keys. *)
Class StrictTotalOrder {K : Type} (lt : K -> K -> bool) : Prop := {
  lt_irrefl : forall a, lt a a = false;
  lt_trans : forall a b c, lt a b = true -> lt b c = true -> lt a c = true;
  lt_total : forall a b, lt a b = false -> lt b a = false -> a = b
}.

Section SortBy.
Context {X K : Type} (key : X -> K) (lt : K -> K -> bool).

(** Insert [x] after every element whose key is not above its own. *)
Fixpoint insert_by (x : X) (l : list X) : list X :=
  match l with
  | [] => [x]
  | y :: ys => if lt (key x) (key y) then x :: y :: ys else y :: insert_by x ys
  end.

(** Insert the elements in input order. *)
Definition sort_by (xs : list X) : list X :=
  fold_left (fun acc x => insert_by x acc) xs [].

(** [a] may come before [b]: the key of [b] is not below that of [a]. *)
Definition le_key (a b : X) : Prop := lt (key b) (key a) = false.

Definition sorted_by (l : list X) : Prop := Sorted le_key l.

(** The elements whose key is [k], decided with [<] only. *)
Definition same_key (k : K) (x : X) : bool :=
  negb (lt (key x) k) && negb (lt k (key x)).

Definition stable_wrt (xs ys : list X) : Prop :=
  forall k, filter (same_key k) ys = filter (same_key k) xs.

Lemma insert_by_perm x l : Permutation (x :: l) (insert_by x l).
Proof.
  induction l as [|y l IH]; simpl; [reflexivity|].
  destruct (lt (key x) (key y)); [reflexivity|].
  rewrite perm_swap. constructor. exact IH.
Qed.

Lemma sort_by_perm_acc xs acc :
  Permutation (acc ++ xs) (fold_left (fun acc x => insert_by x acc) xs acc).
Proof.
  revert acc. induction xs as [|x xs IH]; intros acc; simpl.
  - rewrite app_nil_r. reflexivity.
  - rewrite <- IH, <- insert_by_perm. simpl. symmetry. apply Permutation_middle.
Qed.

Lemma sort_by_perm xs : Permutation xs (sort_by xs).
Proof. apply (sort_by_perm_acc xs []). Qed.

Lemma length_sort_by xs : length (sort_by xs) = length xs.
Proof. symmetry. apply Permutation_length, sort_by_perm. Qed.

Context `{!StrictTotalOrder lt}.

Lemma lt_asym a b : lt a b = true -> lt b a = false.
Proof.
  intros Hab. destruct (lt b a) eqn:Hba; [|reflexivity].
  rewrite <- (lt_irrefl a). symmetry. eapply lt_trans; eassumption.
Qed.

Lemma same_key_iff k x : same_key k x = true <-> key x = k.
Proof.
  unfold same_key. rewrite andb_true_iff, !negb_true_iff. split.
  - intros [H1 H2]. apply lt_total; assumption.
  - intros <-. rewrite lt_irrefl. auto.
Qed.

Lemma le_key_trans : Relations_1.Transitive le_key.
Proof.
  unfold le_key. intros a b c Hab Hbc.
  destruct (lt (key c) (key a)) eqn:Hca; [|reflexivity].
  destruct (lt (key a) (key b)) eqn:Hab'.
  - rewrite (lt_trans _ _ _ Hca Hab') in Hbc. discriminate.
  - rewrite (lt_total _ _ Hab' Hab) in Hca. congruence.
Qed.

Lemma insert_by_sorted x l : sorted_by l -> sorted_by (insert_by x l).
Proof.
  unfold sorted_by. induction 1 as [|y l Hl IH Hhd]; simpl.
  - repeat constructor.
  - destruct (lt (key x) (key y)) eqn:Hxy.
    + constructor; [constructor; assumption|]. constructor. apply lt_asym, Hxy.
    + constructor; [exact IH|].
      destruct l as [|z l]; simpl; [repeat constructor; exact Hxy|].
      inversion Hhd; subst.
      destruct (lt (key x) (key z)); constructor; assumption.
Qed.

Lemma sort_by_sorted xs : sorted_by (sort_by xs).
Proof.
  unfold sort_by. assert (Hacc : sorted_by []) by constructor. revert Hacc.
  generalize (@nil X). induction xs as [|x xs IH]; intros acc Hacc; simpl; auto.
  apply IH, insert_by_sorted, Hacc.
Qed.

(** In a sorted list, no element after the head has a key below it. *)
Lemma sorted_by_head y l z : sorted_by (y :: l) -> In z l -> lt (key z) (key y) = false.
Proof.
  intros Hs Hin. apply Sorted_StronglySorted in Hs; [|exact le_key_trans].
  inversion Hs as [|? ? _ Hall]; subst. rewrite Forall_forall in Hall. apply Hall, Hin.
Qed.

Lemma lt_le_trans a b c : lt a b = true -> lt c b = false -> lt a c = true.
Proof.
  intros Hab Hcb. destruct (lt b c) eqn:Hbc.
  - eapply lt_trans; eassumption.
  - rewrite <- (lt_total _ _ Hbc Hcb). exact Hab.
Qed.

Lemma filter_same_key_none k l :
  (forall z, In z l -> lt k (key z) = true) -> filter (same_key k) l = [].
Proof.
  induction l as [|z l IH]; intros Hall; simpl; [reflexivity|].
  destruct (same_key k z) eqn:Hz.
  - apply same_key_iff in Hz. specialize (Hall z (or_introl eq_refl)).
    rewrite Hz, lt_irrefl in Hall. discriminate.
  - apply IH. intros; apply Hall; right; assumption.
Qed.

(** A key below the head of a sorted list is not found in it. *)
Lemma filter_same_key_below k y l :
  sorted_by (y :: l) -> lt k (key y) = true -> filter (same_key k) (y :: l) = [].
Proof.
  intros Hs Hlt. apply filter_same_key_none.
  intros z [<-|Hin]; [exact Hlt|].
  apply (lt_le_trans _ _ _ Hlt), (sorted_by_head y l z Hs Hin).
Qed.

Lemma filter_insert_by k x l :
  sorted_by l ->
  filter (same_key k) (insert_by x l)
  = filter (same_key k) l ++ (if same_key k x then [x] else []).
Proof.
  intros Hs. induction l as [|y l IH]; simpl.
  - destruct (same_key k x); reflexivity.
  - destruct (lt (key x) (key y)) eqn:Hxy.
    + destruct (same_key k x) eqn:Hx.
      * apply same_key_iff in Hx as Hk. subst k.
        pose proof (filter_same_key_below _ y l Hs Hxy) as E. simpl in E |- *.
        rewrite Hx, E. reflexivity.
      * simpl. rewrite Hx, app_nil_r. reflexivity.
    + apply Sorted_inv in Hs as [Hs _]. specialize (IH Hs).
      change (filter (same_key k) (y :: insert_by x l)
              = filter (same_key k) (y :: l) ++ (if same_key k x then [x] else [])).
      simpl. rewrite IH. destruct (same_key k y); reflexivity.
Qed.

Lemma sort_by_stable xs : stable_wrt xs (sort_by xs).
Proof.
  intros k. unfold sort_by.
  enough (forall acc, sorted_by acc ->
            filter (same_key k) (fold_left (fun acc x => insert_by x acc) xs acc)
            = filter (same_key k) acc ++ filter (same_key k) xs) as H
    by (apply (H []); constructor).
  induction xs as [|x xs IH]; intros acc Hacc; simpl.
  - rewrite app_nil_r. reflexivity.
  - rewrite IH by (apply insert_by_sorted, Hacc).
    rewrite filter_insert_by by exact Hacc.
    rewrite <- app_assoc. destruct (same_key k x); reflexivity.
Qed.

(** Two sorted lists with the same elements at every key, in the same
    order, are equal. *)
Lemma sorted_by_filter_eq ys zs :
  sorted_by ys -> sorted_by zs ->
  (forall k, filter (same_key k) ys = filter (same_key k) zs) -> ys = zs.
Proof.
  revert zs. induction ys as [|y ys IH]; intros zs Hy Hz Hf.
  - destruct zs as [|z zs]; [reflexivity|]. specialize (Hf (key z)). simpl in Hf.
    assert (Hzz : same_key (key z) z = true) by (apply same_key_iff; reflexivity).
    rewrite Hzz in Hf. discriminate.
  - destruct zs as [|z zs].
    + specialize (Hf (key y)). simpl in Hf.
      assert (Hyy : same_key (key y) y = true) by (apply same_key_iff; reflexivity).
      rewrite Hyy in Hf. discriminate.
    + assert (Hk : key y = key z).
      { apply lt_total.
        - destruct (lt (key y) (key z)) eqn:Hyz; [|reflexivity].
          specialize (Hf (key y)). rewrite (filter_same_key_below _ _ _ Hz Hyz) in Hf.
          simpl in Hf. assert (same_key (key y) y = true) as E by (apply same_key_iff; reflexivity).
          rewrite E in Hf. discriminate.
        - destruct (lt (key z) (key y)) eqn:Hzy; [|reflexivity].
          specialize (Hf (key z)). rewrite (filter_same_key_below _ _ _ Hy Hzy) in Hf.
          simpl in Hf. assert (same_key (key z) z = true) as E by (apply same_key_iff; reflexivity).
          rewrite E in Hf. discriminate. }
      assert (y = z /\ forall k, filter (same_key k) ys = filter (same_key k) zs) as [<- Hft].
      { pose proof (Hf (key y)) as Hy0. simpl in Hy0.
        assert (same_key (key y) y = true) as Ey by (apply same_key_iff; reflexivity).
        assert (same_key (key y) z = true) as Ez by (apply same_key_iff; congruence).
        rewrite Ey, Ez in Hy0. injection Hy0 as Hyz Hrest. subst z.
        split; [reflexivity|].
        intros k. specialize (Hf k). simpl in Hf.
        destruct (same_key k y) eqn:Ek; [|exact Hf].
        apply same_key_iff in Ek. subst k. exact Hrest. }
      f_equal. apply IH; [eapply Sorted_inv; eauto | eapply Sorted_inv; eauto | exact Hft].
Qed.
Lemma same_key_at_most_one k l : NoDup (map key l) -> length (filter (same_key k) l) <= 1.
Proof.
  induction l as [|x l IH]; simpl; intros Hnd; [lia|].
  inversion Hnd as [|? ? Hnin Hnd']; subst.
  destruct (same_key k x) eqn:Hx; simpl; [|auto].
  destruct (filter (same_key k) l) as [|z zs] eqn:Hf; simpl; [lia|].
  exfalso. assert (Hz : In z (filter (same_key k) l)) by (rewrite Hf; left; reflexivity).
  apply filter_In in Hz as [Hz Hkz]. apply same_key_iff in Hkz, Hx.
  apply Hnin. rewrite Hx, <- Hkz. apply in_map, Hz.
Qed.

Lemma perm_short_eq {Y} (l1 l2 : list Y) : Permutation l1 l2 -> length l1 <= 1 -> l1 = l2.
Proof.
  intros Hp Hl. destruct l1 as [|a [|b l]]; simpl in Hl.
  - symmetry. apply Permutation_nil, Hp.
  - symmetry. apply Permutation_length_1_inv, Hp.
  - lia.
Qed.

(** With distinct keys the input order does not matter. *)
Lemma sort_by_perm_nodup xs ys :
  Permutation xs ys -> NoDup (map key xs) -> sort_by xs = sort_by ys.
Proof.
  intros Hp Hnd. apply sorted_by_filter_eq; [apply sort_by_sorted | apply sort_by_sorted |].
  intros k. rewrite (sort_by_stable xs k), (sort_by_stable ys k).
  apply perm_short_eq; [apply filter_perm, Hp | apply same_key_at_most_one, Hnd].
Qed.
End SortBy.

(** Integer keys, for small examples. *)
#[export] Instance StrictTotalOrder_nat : StrictTotalOrder Nat.ltb.
Proof.
  split; intros *.
  - apply Nat.ltb_irrefl.
  - rewrite !Nat.ltb_lt. lia.
  - rewrite !Nat.ltb_ge. lia.
Qed.

(** ** Theorems *)

(** C24: [sorted(xs, key=k)] as modelled by [sort_by] returns the input's
    elements (a permutation), with keys in non-decreasing order, and
    elements with equal keys in their input order. *)
Theorem sort_by_correct {X K} (key : X -> K) (lt : K -> K -> bool)
    `{!StrictTotalOrder lt} (xs : list X) :
  sorted_by key lt (sort_by key lt xs)
  /\ Permutation xs (sort_by key lt xs)
  /\ stable_wrt key lt xs (sort_by key lt xs).
Proof. split; [|split]; auto using sort_by_sorted, sort_by_perm, sort_by_stable. Qed.

(** C25: the specification determines the result: every list that is sorted
    by key and keeps the input order within each key is [sort_by xs].  So
    CPython's Timsort, which is stable, returns exactly [sort_by xs]. *)
Theorem sort_by_unique {X K} (key : X -> K) (lt : K -> K -> bool)
    `{!StrictTotalOrder lt} (xs ys : list X) :
  sorted_by key lt ys -> stable_wrt key lt xs ys -> ys = sort_by key lt xs.
Proof.
  intros Hs Hst. apply (sorted_by_filter_eq key lt); [exact Hs | apply (sort_by_sorted key lt) |].
  intros k. rewrite (Hst k). symmetry. apply (sort_by_stable key lt).
Qed.

(** ** Witnesses *)

Lemma sort_by_correct_witness :
  Permutation [(2, 0); (1, 1); (2, 2)] [(1, 1); (2, 0); (2, 2)].
Proof. exact (proj1 (proj2 (sort_by_correct fst Nat.ltb [(2, 0); (1, 1); (2, 2)]))). Defined.

Lemma sort_by_unique_witness :
  [(1, 1); (2, 0); (2, 2)] = sort_by fst Nat.ltb [(2, 0); (1, 1); (2, 2)].
Proof.
  apply (sort_by_unique fst Nat.ltb).
  - repeat constructor.
  - intros k. destruct k as [|[|[|k]]]; reflexivity.
Defined.
