(* ===== verification/Dates.v ===== *)
(** Dates and times as [src/app.py] uses them: [datetime] values (the
    column [Transaction.date] of [src/models.py]), [datetime.date()],
    the comparison [<] used by [sorted(..., key=lambda x: x.date)], the
    Gregorian calendar, and [datetime.strptime(s, '%Y-%m-%d')], called by
    [add_transaction] on the form's date and by [dashboard] on
    [filter_date].  The parser follows CPython's [_strptime]: the regular
    expression [(?P<Y>\d\d\d\d)-(?P<m>1[0-2]|0[1-9]|[1-9])-(?P<d>3[01]|[12]\d|0[1-9]|[1-9]| [1-9])]
    is matched at the start of the string with backtracking over the
    alternatives, leftover characters raise "unconverted data remains", and
    the date is then checked by [datetime.date(year, month, day)]. *)

From Stdlib Require Import Bool ZArith Lia Ascii String List.
From S2P Require Import Prelude StableSort.
Import ListNotations.
Local Open Scope Z_scope.

(** [datetime.datetime] without time zone. *)
Record datetime := mk_datetime {
  dt_year : Z; dt_month : Z; dt_day : Z;
  dt_hour : Z; dt_minute : Z; dt_second : Z; dt_microsecond : Z
}.

(** [datetime.date] *)
Record date := mk_date { d_year : Z; d_month : Z; d_day : Z }.

(** [dt.date()] *)
Definition dt_date (t : datetime) : date :=
  mk_date t.(dt_year) t.(dt_month) t.(dt_day).

(** [date.__eq__] *)
Definition date_eqb (a b : date) : bool :=
  (a.(d_year) =? b.(d_year)) && (a.(d_month) =? b.(d_month)) && (a.(d_day) =? b.(d_day)).

(** [datetime(y, m, d)]: midnight. *)
Definition midnight (y m d : Z) : datetime := mk_datetime y m d 0 0 0 0.

(** ** Ordering: [datetime.__lt__] compares the field tuples *)

Fixpoint lex_compare (xs ys : list Z) : comparison :=
  match xs, ys with
  | [], [] => Eq
  | [], _ :: _ => Lt
  | _ :: _, [] => Gt
  | x :: xs', y :: ys' =>
      match Z.compare x y with
      | Eq => lex_compare xs' ys'
      | c => c
      end
  end.

Definition dt_fields (t : datetime) : list Z :=
  [t.(dt_year); t.(dt_month); t.(dt_day); t.(dt_hour); t.(dt_minute);
   t.(dt_second); t.(dt_microsecond)].

Definition dt_ltb (a b : datetime) : bool :=
  match lex_compare (dt_fields a) (dt_fields b) with Lt => true | _ => false end.

Lemma lex_compare_refl xs : lex_compare xs xs = Eq.
Proof. induction xs as [|x xs IH]; simpl; [reflexivity|]. rewrite Z.compare_refl. exact IH. Qed.

Lemma lex_compare_antisym xs ys : lex_compare ys xs = CompOpp (lex_compare xs ys).
Proof.
  revert ys. induction xs as [|x xs IH]; intros [|y ys]; simpl; try reflexivity.
  rewrite (Z.compare_antisym x y). destruct (Z.compare x y); simpl; auto.
Qed.

Lemma lex_compare_eq xs ys : lex_compare xs ys = Eq -> xs = ys.
Proof.
  revert ys. induction xs as [|x xs IH]; intros [|y ys]; simpl; try discriminate; auto.
  destruct (Z.compare_spec x y) as [Hxy|Hxy|Hxy]; try discriminate. intros Hr; subst; f_equal; auto.
Qed.

Lemma lex_compare_lt_trans xs ys zs :
  lex_compare xs ys = Lt -> lex_compare ys zs = Lt -> lex_compare xs zs = Lt.
Proof.
  revert ys zs. induction xs as [|x xs IH]; intros [|y ys] [|z zs]; simpl; try discriminate; auto.
  destruct (Z.compare_spec x y), (Z.compare_spec y z), (Z.compare_spec x z);
    intros; subst; try discriminate; try lia; eauto.
Qed.

Lemma dt_fields_inj a b : dt_fields a = dt_fields b -> a = b.
Proof. destruct a, b; simpl; intros H; injection H; intros; subst; reflexivity. Qed.

#[export] Instance StrictTotalOrder_datetime : StrictTotalOrder dt_ltb.
Proof.
  split; unfold dt_ltb.
  - intros a. rewrite lex_compare_refl. reflexivity.
  - intros a b c.
    destruct (lex_compare (dt_fields a) (dt_fields b)) eqn:Hab; try discriminate.
    destruct (lex_compare (dt_fields b) (dt_fields c)) eqn:Hbc; try discriminate.
    rewrite (lex_compare_lt_trans _ _ _ Hab Hbc). auto.
  - intros a b. rewrite (lex_compare_antisym (dt_fields a)).
    destruct (lex_compare (dt_fields a) (dt_fields b)) eqn:Hab; simpl; try discriminate.
    intros _ _. apply dt_fields_inj, lex_compare_eq, Hab.
Qed.

(** ** The Gregorian calendar of [datetime] *)

Definition MINYEAR : Z := 1.
Definition MAXYEAR : Z := 9999.

(** [_is_leap] *)
Definition is_leap (y : Z) : bool :=
  (y mod 4 =? 0) && (negb (y mod 100 =? 0) || (y mod 400 =? 0)).

(** [_days_in_month] *)
Definition days_in_month (y m : Z) : Z :=
  if (m =? 2) && is_leap y then 29
  else match m with
       | 1 | 3 | 5 | 7 | 8 | 10 | 12 => 31
       | 2 => 28
       | _ => 30
       end.

(** The checks of [datetime.date(year, month, day)]. *)
Definition valid_ymd (y m d : Z) : bool :=
  (MINYEAR <=? y) && (y <=? MAXYEAR) && (1 <=? m) && (m <=? 12)
  && (1 <=? d) && (d <=? days_in_month y m).

(** ** [datetime.strptime(s, '%Y-%m-%d')] *)

Definition char_code (c : ascii) : Z := Z.of_nat (nat_of_ascii c).
Definition is_digit (c : ascii) : bool := (48 <=? char_code c) && (char_code c <=? 57).
Definition digit_val (c : ascii) : Z := char_code c - 48.

(** The digit class [[lo-hi]]. *)
Definition digit_in (lo hi : Z) (c : ascii) : bool :=
  is_digit c && (lo <=? digit_val c) && (digit_val c <=? hi).

(** A group of the pattern: its integer value and the rest of the input. *)
Definition re_group := list ascii -> option (Z * list ascii).

(** [\d\d\d\d] *)
Definition re_Y : re_group := fun l =>
  match l with
  | a :: b :: c :: d :: r =>
      if is_digit a && is_digit b && is_digit c && is_digit d
      then Some (1000 * digit_val a + 100 * digit_val b + 10 * digit_val c + digit_val d, r)
      else None
  | _ => None
  end.

(** A two-character alternative [[a-b][c-d]]. *)
Definition re_two (lo1 hi1 lo2 hi2 : Z) : re_group := fun l =>
  match l with
  | a :: b :: r =>
      if digit_in lo1 hi1 a && digit_in lo2 hi2 b
      then Some (10 * digit_val a + digit_val b, r) else None
  | _ => None
  end.

(** A one-character alternative [[a-b]]. *)
Definition re_one (lo hi : Z) : re_group := fun l =>
  match l with
  | a :: r => if digit_in lo hi a then Some (digit_val a, r) else None
  | [] => None
  end.

(** The alternative [ [1-9]] (a space, then a digit). *)
Definition re_space_digit : re_group := fun l =>
  match l with
  | a :: b :: r =>
      if (char_code a =? 32) && digit_in 1 9 b then Some (digit_val b, r) else None
  | _ => None
  end.

(** [(?P<m>1[0-2]|0[1-9]|[1-9])] *)
Definition re_m_alts : list re_group := [re_two 1 1 0 2; re_two 0 0 1 9; re_one 1 9].

(** [(?P<d>3[01]|[12]\d|0[1-9]|[1-9]| [1-9])] *)
Definition re_d_alts : list re_group :=
  [re_two 3 3 0 1; re_two 1 2 0 9; re_two 0 0 1 9; re_one 1 9; re_space_digit].

(** Ordered choice: try each alternative in turn and backtrack into the
    next one when the rest of the pattern [k] fails after it. *)
Fixpoint re_alt {B} (alts : list re_group) (l : list ascii) (k : Z -> list ascii -> option B)
  : option B :=
  match alts with
  | [] => None
  | a :: alts' =>
      match a l with
      | Some (v, r) => match k v r with Some b => Some b | None => re_alt alts' l k end
      | None => re_alt alts' l k
      end
  end.

Definition re_char (ch : ascii) (l : list ascii) : option (list ascii) :=
  match l with
  | c :: r => if Ascii.eqb c ch then Some r else None
  | [] => None
  end.

(** [format_regex.match(data_string)]: year, month, day and what follows
    the match. *)
Definition re_match_ymd (l : list ascii) : option (Z * Z * Z * list ascii) :=
  match re_Y l with
  | None => None
  | Some (y, r1) =>
      match re_char "-"%char r1 with
      | None => None
      | Some r2 =>
          re_alt re_m_alts r2 (fun m r3 =>
            match re_char "-"%char r3 with
            | None => None
            | Some r4 => re_alt re_d_alts r4 (fun d r5 => Some (y, m, d, r5))
            end)
      end
  end.

(** [datetime.strptime(data_string, '%Y-%m-%d')] *)
Definition strptime_ymd (s : string) : py_result datetime :=
  match re_match_ymd (list_ascii_of_string s) with
  | None => PyErr (ValueError "time data does not match format '%Y-%m-%d'"%string)
  | Some (y, m, d, rest) =>
      match rest with
      | _ :: _ => PyErr (ValueError "unconverted data remains"%string)
      | [] =>
          if valid_ymd y m d then PyOk (midnight y m d)
          else if y <? MINYEAR then PyErr (ValueError "year 0 is out of range"%string)
          else PyErr (ValueError "day is out of range for month"%string)
      end
  end.

(** [date.isoformat()]: ['%04d-%02d-%02d'], the format of an HTML date
    field. *)
Definition digit_char (n : Z) : ascii := ascii_of_nat (Z.to_nat (48 + n)).

Definition two_digits (n : Z) : list ascii := [digit_char (n / 10); digit_char (n mod 10)].

Definition four_digits (n : Z) : list ascii :=
  [digit_char (n / 1000); digit_char (n / 100 mod 10); digit_char (n / 10 mod 10);
   digit_char (n mod 10)].

Definition date_isoformat (d : date) : string :=
  string_of_list_ascii
    (four_digits d.(d_year) ++ "-"%char :: two_digits d.(d_month) ++ "-"%char :: two_digits d.(d_day)).

(** ** Lemmas on the parser *)

Lemma digit_char_spec n :
  0 <= n <= 9 -> is_digit (digit_char n) = true /\ digit_val (digit_char n) = n.
Proof.
  intros Hn. unfold is_digit, digit_val, char_code, digit_char.
  rewrite nat_ascii_embedding by lia. rewrite Z2Nat.id by lia.
  split; [apply andb_true_intro; split; apply Z.leb_le|]; lia.
Qed.

Lemma re_Y_four_digits y r :
  0 <= y <= 9999 -> re_Y (four_digits y ++ r) = Some (y, r).
Proof.
  intros Hy. unfold four_digits.
  destruct (digit_char_spec (y / 1000)) as [H1 V1]; [Z.div_mod_to_equations; lia|].
  destruct (digit_char_spec (y / 100 mod 10)) as [H2 V2]; [Z.div_mod_to_equations; lia|].
  destruct (digit_char_spec (y / 10 mod 10)) as [H3 V3]; [Z.div_mod_to_equations; lia|].
  destruct (digit_char_spec (y mod 10)) as [H4 V4]; [Z.div_mod_to_equations; lia|].
  cbn [app re_Y]. rewrite H1, H2, H3, H4, V1, V2, V3, V4. cbn [andb]. do 2 f_equal. Z.div_mod_to_equations; lia.
Qed.

(** The month of an ISO date is read by its first matching alternative. *)
Lemma re_alt_month {B} m r (k : Z -> list ascii -> option B) b :
  1 <= m <= 12 -> k m r = Some b -> re_alt re_m_alts (two_digits m ++ r) k = Some b.
Proof. intros Hm Hk. z_cases m; vm_compute; rewrite Hk; reflexivity. Qed.

Lemma re_alt_day {B} d r (k : Z -> list ascii -> option B) b :
  1 <= d <= 31 -> k d r = Some b -> re_alt re_d_alts (two_digits d ++ r) k = Some b.
Proof. intros Hd Hk. z_cases d; vm_compute; rewrite Hk; reflexivity. Qed.

Lemma days_in_month_range y m : 28 <= days_in_month y m <= 31.
Proof.
  unfold days_in_month. destruct (_ && _); [lia|].
  destruct m as [|p|p]; cbn; try lia.
  do 5 (try (destruct p as [p|p|]; cbn; try lia)).
Qed.

Lemma valid_ymd_bounds y m d :
  valid_ymd y m d = true -> 1 <= y <= 9999 /\ 1 <= m <= 12 /\ 1 <= d <= 31.
Proof.
  unfold valid_ymd, MINYEAR, MAXYEAR. intros H. bool_to_prop.
  repeat match goal with H : (_ <=? _) = true |- _ => apply Z.leb_le in H end.
  pose proof (days_in_month_range y m). lia.
Qed.

(** The regular expression reads an ISO date back completely. *)
Lemma re_match_isoformat y m d :
  0 <= y <= 9999 -> 1 <= m <= 12 -> 1 <= d <= 31 ->
  re_match_ymd (four_digits y ++ "-"%char :: two_digits m ++ "-"%char :: two_digits d)
  = Some (y, m, d, []).
Proof.
  intros Hy Hm Hd. unfold re_match_ymd. rewrite re_Y_four_digits by exact Hy.
  cbn [re_char Ascii.eqb Bool.eqb]. apply re_alt_month; [exact Hm|].
  cbn [re_char Ascii.eqb Bool.eqb]. rewrite <- (app_nil_r (two_digits d)).
  apply re_alt_day; [exact Hd | reflexivity].
Qed.

(** ** Theorems *)

(** C27: [strptime(s, '%Y-%m-%d')] reads back every ISO date [YYYY-MM-DD]
    with digits in range: it returns that day at midnight when the date
    exists in the calendar, and raises [ValueError] otherwise (year 0, or a
    day past the end of the month, such as 2023-02-29). *)
Theorem strptime_isoformat y m d :
  0 <= y <= 9999 -> 1 <= m <= 12 -> 1 <= d <= 31 ->
  strptime_ymd (date_isoformat (mk_date y m d))
  = if valid_ymd y m d then PyOk (midnight y m d)
    else if y <? MINYEAR then PyErr (ValueError "year 0 is out of range"%string)
    else PyErr (ValueError "day is out of range for month"%string).
Proof.
  intros Hy Hm Hd. unfold strptime_ymd, date_isoformat. cbn [d_year d_month d_day].
  rewrite list_ascii_of_string_of_list_ascii, re_match_isoformat by assumption.
  reflexivity.
Qed.


Lemma re_alt_month_one {B} m r (k : Z -> list ascii -> option B) b :
  1 <= m <= 9 -> k m ("-"%char :: r) = Some b ->
  re_alt re_m_alts (digit_char m :: "-"%char :: r) k = Some b.
Proof. intros Hm Hk. z_cases m; vm_compute; rewrite Hk; reflexivity. Qed.

Lemma re_alt_day_one {B} d (k : Z -> list ascii -> option B) b :
  1 <= d <= 9 -> k d [] = Some b ->
  re_alt re_d_alts [digit_char d] k = Some b /\ re_alt re_d_alts [" "%char; digit_char d] k = Some b.
Proof. intros Hd Hk. z_cases d; vm_compute; rewrite Hk; split; reflexivity. Qed.

Lemma valid_ymd_first_days y m d :
  1 <= y <= 9999 -> 1 <= m <= 12 -> 1 <= d <= 28 -> valid_ymd y m d = true.
Proof.
  intros Hy Hm Hd. pose proof (days_in_month_range y m). unfold valid_ymd, MINYEAR, MAXYEAR.
  repeat rewrite (proj2 (Z.leb_le _ _)) by lia. reflexivity.
Qed.

(** The forms [Y-M-D] and [Y-M- D] with one-digit month and day. *)
Lemma re_match_short y m d :
  0 <= y <= 9999 -> 1 <= m <= 9 -> 1 <= d <= 9 ->
  re_match_ymd (four_digits y ++ "-"%char :: digit_char m :: "-"%char :: [digit_char d])
  = Some (y, m, d, [])
  /\ re_match_ymd (four_digits y ++ "-"%char :: digit_char m :: "-"%char :: [" "%char; digit_char d])
  = Some (y, m, d, []).
Proof.
  intros Hy Hm Hd. destruct (re_alt_day_one d (fun d r5 => Some (y, m, d, r5)) (y, m, d, []) Hd eq_refl)
    as [H1 H2].
  unfold re_match_ymd. rewrite !re_Y_four_digits by exact Hy.
  cbn [re_char Ascii.eqb Bool.eqb]. split; apply re_alt_month_one; assumption.
Qed.

(** C28: whatever string [strptime] accepts, the result is midnight of a
    day that exists in the calendar of [datetime]. *)
Theorem strptime_sound s t :
  strptime_ymd s = PyOk t ->
  valid_ymd t.(dt_year) t.(dt_month) t.(dt_day) = true
  /\ t = midnight t.(dt_year) t.(dt_month) t.(dt_day).
Proof.
  unfold strptime_ymd. destruct (re_match_ymd _) as [[[[y m] d] [|c rest]]|]; try discriminate.
  destruct (valid_ymd y m d) eqn:Hv; [|destruct (y <? MINYEAR); discriminate].
  intros H. injection H as <-. split; [exact Hv | reflexivity].
Qed.

(** C29: [strptime] with ['%Y-%m-%d'] accepts more than ISO dates: a
    month and a day of one digit, and a day written as a space and a
    digit, as CPython's pattern [(?P<d>3[01]|[12]\d|0[1-9]|[1-9]| [1-9])]
    allows; ["2024-1- 5"] is the fifth of January 2024. *)
Theorem strptime_short_forms y m d :
  1 <= y <= 9999 -> 1 <= m <= 9 -> 1 <= d <= 9 ->
  strptime_ymd (string_of_list_ascii (four_digits y ++ "-"%char :: digit_char m :: "-"%char
                                        :: [digit_char d])) = PyOk (midnight y m d)
  /\ strptime_ymd (string_of_list_ascii (four_digits y ++ "-"%char :: digit_char m :: "-"%char
                                        :: [" "%char; digit_char d])) = PyOk (midnight y m d).
Proof.
  intros Hy Hm Hd. destruct (re_match_short y m d) as [H1 H2]; try lia.
  unfold strptime_ymd. rewrite !list_ascii_of_string_of_list_ascii, H1, H2.
  rewrite valid_ymd_first_days by lia. split; reflexivity.
Qed.

(** ** Witnesses *)

Lemma strptime_isoformat_witness :
  strptime_ymd (date_isoformat (mk_date 2023 2 29))
  = PyErr (ValueError "day is out of range for month"%string).
Proof. rewrite (strptime_isoformat 2023 2 29) by lia. reflexivity. Defined.

Lemma strptime_sound_witness : valid_ymd 2024 2 29 = true.
Proof. exact (proj1 (strptime_sound "2024-02-29"%string (midnight 2024 2 29) eq_refl)). Defined.

Lemma strptime_short_forms_witness :
  strptime_ymd "2024-1- 5"%string = PyOk (midnight 2024 1 5).
Proof. exact (proj2 (strptime_short_forms 2024 1 5 ltac:(lia) ltac:(lia) ltac:(lia))). Defined.
