(* ===== verification/Models.v ===== *)
(** The two tables of [src/models.py].  Column types: [db.Integer] is
    [nat] (SQLite rowids of this application are positive), [db.String(n)]
    is [string] (SQLite does not enforce the length [n]), a nullable column
    is an [option], [db.DateTime] is [datetime], and [db.Float] is the
    amount type [A] of the development ([float], or [Z] for exact
    reasoning).  The relationship [User.transactions] is not a column: the
    store computes it (see the owner filter of [Store.v]). *)

From Stdlib Require Import String.
From S2P Require Import Prelude Dates.

(** [class User(db.Model)] *)
Record User := mk_user {
  user_id : nat;
  user_name : option string;
  user_email : string;
  user_password : string
}.

(** [class Transaction(db.Model)].  The column [date] is declared nullable
    with the default [datetime.utcnow]; every transaction of the
    application is created by [add_transaction] with a parsed date, so the
    model has no [None] date. *)
Record Transaction (A : Type) := mk_transaction {
  tx_id : nat;
  tx_type : string;
  tx_category : string;
  tx_amount : A;
  tx_date : datetime;
  tx_note : option string;
  tx_user_id : nat;
  tx_payment_method : option string
}.

Arguments mk_transaction {A}.
Arguments tx_id {A}.
Arguments tx_type {A}.
Arguments tx_category {A}.
Arguments tx_amount {A}.
Arguments tx_date {A}.
Arguments tx_note {A}.
Arguments tx_user_id {A}.
Arguments tx_payment_method {A}.
