(* ===== verification/Dashboard.v ===== *)
(** The transaction aggregator: the body of [dashboard] in [src/app.py]
    (lines 155-212), over the list [user.transactions] in the order the
    store returns it.  Each computation of the handler is one definition:
    the period totals with the optional [filter_date] ([today_income],
    [today_expense], [today_balance]), the payment-method totals, the
    monthly dictionaries of the current year, the running balance over the
    transactions sorted by date, and the five most recent entries.  The
    handler's template arguments are the record [DashboardView]; the session
    check and the user lookup that precede them are in [App.v].

    Python evaluates [t.type.lower() == 'income' and (not filter_date or ...)]
    lazily: [datetime.strptime(filter_date, ...)] runs once per transaction
    whose type passes the test, and its [ValueError] escapes the handler.
    [cond_sum] keeps that order.  Python's [sum] of no terms is the integer
    [0]; the model does not distinguish it from the float [0.0]. *)

From Stdlib Require Import Bool ZArith Lia String List Permutation Sorted PrimFloat.
From S2P Require Import Prelude Num PyStr StableSort Dates Models.
Import ListNotations.

Section Aggregator.
Context {A : Type} `{Num A}.
Local Open Scope num_scope.

Abbreviation Tx := (Transaction A).

(** [t.type.lower() == 'income'] *)
Definition is_income (t : Tx) : bool := String.eqb (py_lower t.(tx_type)) "income".

(** [t.type.lower() == 'expense'] *)
Definition is_expense (t : Tx) : bool := String.eqb (py_lower t.(tx_type)) "expense".

(** [(not filter_date or t.date.date() == datetime.strptime(filter_date, '%Y-%m-%d').date())] *)
Definition date_matches (fd : option string) (t : Tx) : py_result bool :=
  match fd with
  | None => PyOk true
  | Some s =>
      if String.eqb s "" then PyOk true
      else match strptime_ymd s with
           | PyOk d => PyOk (date_eqb (dt_date t.(tx_date)) (dt_date d))
           | PyErr e => PyErr e
           end
  end.

(** The generator's condition: the type test, then (only if it holds)
    the date test. *)
Definition period_cond (is_type : Tx -> bool) (fd : option string) (t : Tx) : py_result bool :=
  if is_type t then date_matches fd t else PyOk false.

(** The transactions the generator [(t.amount for t in txs if cond(t))]
    yields to [sum], in store order, or the exception the first raising
    condition throws. *)
Fixpoint cond_filter (cond : Tx -> py_result bool) (txs : list Tx) : py_result (list Tx) :=
  match txs with
  | [] => PyOk []
  | t :: ts =>
      match cond t with
      | PyErr e => PyErr e
      | PyOk c => py_bind (cond_filter cond ts) (fun l => PyOk (if c then t :: l else l))
      end
  end.

(** [sum(t.amount for t in txs if cond(t))] with a condition that may
    raise. *)
Definition cond_sum (cond : Tx -> py_result bool) (txs : list Tx) : py_result A :=
  py_bind (cond_filter cond txs) (fun l => PyOk (py_sum tx_amount l)).

(** [today_income] *)
Definition today_income (txs : list Tx) (fd : option string) : py_result A :=
  cond_sum (period_cond is_income fd) txs.

(** [today_expense] *)
Definition today_expense (txs : list Tx) (fd : option string) : py_result A :=
  cond_sum (period_cond is_expense fd) txs.

(** [t.payment_method == label]; a [None] column is never equal. *)
Definition paid_with (label : string) (t : Tx) : bool :=
  match t.(tx_payment_method) with
  | Some pm => String.eqb pm label
  | None => false
  end.

(** [total_cash] and [total_upi] *)
Definition total_by_method (label : string) (txs : list Tx) : A :=
  py_sum tx_amount (filter (paid_with label) txs).

(** One iteration of the monthly loop. *)
Definition monthly_step (current_year : Z) (acc : list (Z * A) * list (Z * A)) (t : Tx)
  : list (Z * A) * list (Z * A) :=
  let '(mi, me) := acc in
  if Z.eqb t.(tx_date).(dt_year) current_year then
    let month := t.(tx_date).(dt_month) in
    if is_income t then
      (dict_set Z.eq_dec mi month (dict_get_default Z.eq_dec mi month 0 + t.(tx_amount)), me)
    else if is_expense t then
      (mi, dict_set Z.eq_dec me month (dict_get_default Z.eq_dec me month 0 + t.(tx_amount)))
    else (mi, me)
  else (mi, me).

(** [monthly_income] and [monthly_expense] *)
Definition monthly_totals (current_year : Z) (txs : list Tx) : list (Z * A) * list (Z * A) :=
  fold_left (monthly_step current_year) txs ([], []).

(** [sorted(user.transactions, key=lambda x: x.date)] *)
Definition sort_by_date (txs : list Tx) : list Tx := sort_by tx_date dt_ltb txs.

(** [balance += t.amount] or [balance -= t.amount]: every type other
    than [income] is subtracted. *)
Definition balance_step (balance : A) (t : Tx) : A :=
  if is_income t then balance + t.(tx_amount) else balance - t.(tx_amount).

(** One iteration of the running-balance loop. *)
Definition running_step (acc : A * list (Tx * A)) (t : Tx) : A * list (Tx * A) :=
  let '(balance, rb) := acc in
  let balance' := balance_step balance t in
  (balance', rb ++ [(t, balance')]).

(** [running_balance] *)
Definition running_balance (txs : list Tx) : list (Tx * A) :=
  snd (fold_left running_step (sort_by_date txs) (0, [])).

(** [[t for t, _ in running_balance[-5:][::-1]]] *)
Definition recent_transactions (rb : list (Tx * A)) : list Tx :=
  map fst (rev (py_last 5 rb)).

(** The arguments of [render_template('dashboard.html', ...)] computed
    from the transactions. *)
Record DashboardView := mk_view {
  v_filter_date : option string;
  v_today_income : A;
  v_today_expense : A;
  v_today_balance : A;
  v_total_cash : A;
  v_total_upi : A;
  v_total_amount : A;
  v_current_year : Z;
  v_monthly_income : list (Z * A);
  v_monthly_expense : list (Z * A);
  v_running_balance : list (Tx * A);
  v_recent_transactions : list Tx
}.

(** Lines 153-212 of [dashboard], given [user.transactions], the query
    argument [filter_date] and the year of [datetime.now()]. *)
Definition dashboard_view (txs : list Tx) (fd : option string) (current_year : Z)
  : py_result DashboardView :=
  match today_income txs fd with
  | PyErr e => PyErr e
  | PyOk ti =>
  match today_expense txs fd with
  | PyErr e => PyErr e
  | PyOk te =>
    let cash := total_by_method "Cash" txs in
    let upi := total_by_method "UPI" txs in
    let '(mi, me) := monthly_totals current_year txs in
    let rb := running_balance txs in
    PyOk {| v_filter_date := fd;
            v_today_income := ti;
            v_today_expense := te;
            v_today_balance := ti - te;
            v_total_cash := cash;
            v_total_upi := upi;
            v_total_amount := cash + upi;
            v_current_year := current_year;
            v_monthly_income := mi;
            v_monthly_expense := me;
            v_running_balance := rb;
            v_recent_transactions := recent_transactions rb |}
  end
  end.
End Aggregator.

(** ** Specification helpers *)

(** [not filter_date]: [None] and the empty string are false in Python. *)
Definition no_filter (fd : option string) : bool :=
  match fd with
  | None => true
  | Some s => String.eqb s ""
  end.

(** The date that [filter_date] denotes, once: [None] for no filter. *)
Definition parse_filter (fd : option string) : py_result (option date) :=
  match fd with
  | Some s =>
      if String.eqb s "" then PyOk None
      else match strptime_ymd s with
           | PyOk d => PyOk (Some (dt_date d))
           | PyErr e => PyErr e
           end
  | None => PyOk None
  end.

(** A transaction lies in the period [pd]. *)
Definition in_period {A} (pd : option date) (t : Transaction A) : bool :=
  match pd with
  | None => true
  | Some d => date_eqb (dt_date t.(tx_date)) d
  end.

Section AggregatorLemmas.
Context {A : Type} `{Num A}.
Local Open Scope num_scope.
Abbreviation Tx := (Transaction A).

(** A condition that does not raise selects with a filter. *)
Lemma cond_filter_pure (cond : Tx -> py_result bool) (p : Tx -> bool) txs :
  (forall t, In t txs -> cond t = PyOk (p t)) -> cond_filter cond txs = PyOk (filter p txs).
Proof.
  induction txs as [|t txs IH]; intros Hc; simpl; [reflexivity|].
  rewrite (Hc t (or_introl eq_refl)), IH by (intros; apply Hc; right; auto). reflexivity.
Qed.

Lemma cond_sum_pure (cond : Tx -> py_result bool) (p : Tx -> bool) txs :
  (forall t, In t txs -> cond t = PyOk (p t)) ->
  cond_sum cond txs = PyOk (py_sum tx_amount (filter p txs)).
Proof. intros Hc. unfold cond_sum. rewrite (cond_filter_pure cond p txs Hc). reflexivity. Qed.

(** A condition that raises at the first selected transaction. *)
Lemma cond_sum_raise (cond : Tx -> py_result bool) (sel : Tx -> bool) e txs :
  (forall t, cond t = if sel t then PyErr e else PyOk false) ->
  cond_sum cond txs = if existsb sel txs then PyErr e else PyOk (py_sum tx_amount []).
Proof.
  intros Hc. unfold cond_sum.
  enough (Hf : cond_filter cond txs = if existsb sel txs then PyErr e else PyOk [])
    by (rewrite Hf; destruct (existsb sel txs); reflexivity).
  induction txs as [|t txs IH]; simpl; [reflexivity|].
  rewrite Hc. destruct (sel t); simpl; [reflexivity|]. rewrite IH. destruct (existsb sel txs); reflexivity.
Qed.

(** The generator yields transactions of the store only. *)
Lemma cond_filter_incl (cond : Tx -> py_result bool) txs l :
  cond_filter cond txs = PyOk l -> forall t, In t l -> In t txs.
Proof.
  revert l. induction txs as [|t0 txs IH]; cbn; intros l Hf t Ht.
  - injection Hf as <-. destruct Ht.
  - destruct (cond t0) as [c|e]; [|discriminate].
    destruct (cond_filter cond txs) as [l'|e] eqn:Hr; cbn in Hf; [|discriminate].
    injection Hf as <-. destruct c; [destruct Ht as [<-|Ht]; [left; reflexivity|] |]; right; exact (IH l' eq_refl t Ht).
Qed.

Lemma date_matches_parsed fd pd (t : Tx) :
  parse_filter fd = PyOk pd -> date_matches fd t = PyOk (in_period pd t).
Proof.
  unfold parse_filter, date_matches. intros Hp.
  destruct fd as [s|]; [|injection Hp as <-; reflexivity].
  destruct (String.eqb s ""); [injection Hp as <-; reflexivity|].
  destruct (strptime_ymd s); [injection Hp as <-; reflexivity | discriminate].
Qed.

Lemma date_matches_raise fd e (t : Tx) :
  parse_filter fd = PyErr e -> date_matches fd t = PyErr e.
Proof.
  unfold parse_filter, date_matches. destruct fd as [s|]; [|congruence].
  destruct (String.eqb s ""); [congruence|].
  destruct (strptime_ymd s); congruence.
Qed.

Lemma period_total_parsed is_type fd pd txs :
  parse_filter fd = PyOk pd ->
  cond_sum (period_cond is_type fd) txs
  = PyOk (py_sum tx_amount (filter (fun t => is_type t && in_period pd t) txs)).
Proof.
  intros Hp. apply cond_sum_pure. intros t _. unfold period_cond.
  destruct (is_type t); [apply date_matches_parsed, Hp | reflexivity].
Qed.

Lemma period_total_raise is_type fd e txs :
  parse_filter fd = PyErr e ->
  cond_sum (period_cond is_type fd) txs
  = if existsb is_type txs then PyErr e else PyOk (py_sum tx_amount []).
Proof.
  intros Hp. apply cond_sum_raise. intros t. unfold period_cond.
  destruct (is_type t); [apply date_matches_raise, Hp | reflexivity].
Qed.

(** The entries the running-balance loop appends, from balance [b]. *)
Fixpoint scan_balance (l : list Tx) (b : A) : list (Tx * A) :=
  match l with
  | [] => []
  | t :: l' => (t, balance_step b t) :: scan_balance l' (balance_step b t)
  end.

Lemma fold_running_step l b rb :
  fold_left running_step l (b, rb) = (fold_left balance_step l b, rb ++ scan_balance l b).
Proof.
  revert b rb. induction l as [|t l IH]; intros b rb; simpl.
  - rewrite app_nil_r. reflexivity.
  - rewrite IH, <- app_assoc. reflexivity.
Qed.

Lemma running_balance_scan txs : running_balance txs = scan_balance (sort_by_date txs) 0.
Proof. unfold running_balance. rewrite fold_running_step. reflexivity. Qed.

Lemma map_fst_scan_balance l b : map fst (scan_balance l b) = l.
Proof. revert b. induction l as [|t l IH]; intros b; simpl; f_equal; auto. Qed.

Lemma nth_error_scan_balance l b i :
  nth_error (scan_balance l b) i
  = option_map (fun t => (t, fold_left balance_step (firstn (S i) l) b)) (nth_error l i).
Proof.
  revert b i. induction l as [|t l IH]; intros b [|i]; simpl; auto.
Qed.

(** The monthly loop on one of its two dictionaries: the value at [m]
    grows by the amounts of the selected transactions of month [m]. *)
Definition extend_sum (o : option A) (xs : list Tx) : option A :=
  fold_left (fun o t => Some (match o with Some v => v | None => 0 end + t.(tx_amount))) xs o.

Lemma extend_sum_None xs :
  extend_sum None xs = match xs with [] => None | _ :: _ => Some (fold_sum tx_amount xs) end.
Proof.
  destruct xs as [|t xs]; [reflexivity|]. unfold extend_sum, fold_sum. simpl.
  generalize (0 + tx_amount t). induction xs as [|u xs IH]; intros a; simpl; auto.
Qed.

(** [d[month] = d.get(month, 0) + a], read back at [m]. *)
Lemma dict_add_get (d : list (Z * A)) month a m :
  dict_get Z.eq_dec (dict_set Z.eq_dec d month (dict_get_default Z.eq_dec d month 0 + a)) m
  = if Z.eq_dec month m
    then Some (match dict_get Z.eq_dec d m with Some v => v | None => 0 end + a)
    else dict_get Z.eq_dec d m.
Proof.
  destruct (Z.eq_dec month m) as [<-|Hne].
  - rewrite dict_get_set_eq. reflexivity.
  - apply dict_get_set_ne, Hne.
Qed.

Lemma is_income_not_expense (t : Tx) : is_income t = true -> is_expense t = false.
Proof.
  unfold is_income, is_expense. intros Hi. apply String.eqb_eq in Hi. rewrite Hi. reflexivity.
Qed.

(** A transaction of year [y] and month [m]. *)
Definition in_month (y m : Z) (t : Tx) : bool :=
  Z.eqb t.(tx_date).(dt_year) y && Z.eqb t.(tx_date).(dt_month) m.

Lemma fold_monthly_step y txs mi me m :
  let r := fold_left (monthly_step y) txs (mi, me) in
  dict_get Z.eq_dec (fst r) m
    = extend_sum (dict_get Z.eq_dec mi m) (filter (fun t => is_income t && in_month y m t) txs)
  /\ dict_get Z.eq_dec (snd r) m
    = extend_sum (dict_get Z.eq_dec me m) (filter (fun t => is_expense t && in_month y m t) txs).
Proof.
  revert mi me. induction txs as [|t txs IH]; intros mi me; simpl; [auto|].
  destruct (Z.eqb_spec (dt_year (tx_date t)) y) as [Hy|Hy]; simpl.
  2:{ assert (Hin : in_month y m t = false)
        by (unfold in_month; rewrite (proj2 (Z.eqb_neq _ _) Hy); reflexivity).
      rewrite Hin, !andb_false_r. apply IH. }
  assert (Hin : in_month y m t = Z.eqb (dt_month (tx_date t)) m)
    by (unfold in_month; rewrite Hy, Z.eqb_refl; reflexivity).
  rewrite !Hin.
  destruct (is_income t) eqn:Hi; simpl.
  - rewrite (is_income_not_expense t Hi). simpl.
    destruct (IH (dict_set Z.eq_dec mi (dt_month (tx_date t))
                    (dict_get_default Z.eq_dec mi (dt_month (tx_date t)) 0 + tx_amount t)) me)
      as [IH1 IH2].
    split; [|exact IH2]. rewrite IH1, dict_add_get.
    destruct (Z.eq_dec (dt_month (tx_date t)) m) as [Hm|Hm].
    + rewrite (proj2 (Z.eqb_eq _ _) Hm). reflexivity.
    + rewrite (proj2 (Z.eqb_neq _ _) Hm). reflexivity.
  - destruct (is_expense t) eqn:He; simpl; [|apply IH].
    destruct (IH mi (dict_set Z.eq_dec me (dt_month (tx_date t))
                    (dict_get_default Z.eq_dec me (dt_month (tx_date t)) 0 + tx_amount t)))
      as [IH1 IH2].
    split; [exact IH1|]. rewrite IH2, dict_add_get.
    destruct (Z.eq_dec (dt_month (tx_date t)) m) as [Hm|Hm].
    + rewrite (proj2 (Z.eqb_eq _ _) Hm). reflexivity.
    + rewrite (proj2 (Z.eqb_neq _ _) Hm). reflexivity.
Qed.
End AggregatorLemmas.

(** ** Theorems *)

(** The value a dictionary of the monthly summary holds for a set of
    transactions: absent when there are none. *)
Definition sum_if_any {A} `{Num A} (xs : list (Transaction A)) : option A :=
  match xs with
  | [] => None
  | _ :: _ => Some (fold_sum tx_amount xs)
  end.

(** A type the period totals recognise. *)
Definition is_typed {A} (t : Transaction A) : bool := is_income t || is_expense t.

Section DashboardTheorems.
Context {A : Type} `{Num A}.
Local Open Scope num_scope.

(** C1: when [filter_date] is absent, empty or a valid date, [dashboard]
    succeeds; [today_income] and [today_expense] are Python's sums, in
    store order, of the amounts of the income (expense) transactions of
    the period, [today_balance] is their difference, the payment totals
    sum the [Cash] and [UPI] transactions, and the other arguments are the
    monthly, running-balance and recent computations.  This holds for any
    amount type, binary floats included. *)
Theorem dashboard_view_ok (txs : list (Transaction A)) fd pd y :
  parse_filter fd = PyOk pd ->
  let ti := py_sum tx_amount (filter (fun t => is_income t && in_period pd t) txs) in
  let te := py_sum tx_amount (filter (fun t => is_expense t && in_period pd t) txs) in
  let cash := py_sum tx_amount (filter (paid_with "Cash") txs) in
  let upi := py_sum tx_amount (filter (paid_with "UPI") txs) in
  dashboard_view txs fd y
  = PyOk (mk_view fd ti te (ti - te) cash upi (cash + upi) y
            (fst (monthly_totals y txs)) (snd (monthly_totals y txs))
            (running_balance txs) (recent_transactions (running_balance txs))).
Proof.
  intros Hp. unfold dashboard_view, today_income, today_expense.
  rewrite !(period_total_parsed _ _ _ _ Hp). destruct (monthly_totals y txs); reflexivity.
Qed.

(** C2: [dashboard] raises exactly when [filter_date] is a non-empty
    string that [strptime] rejects and some transaction has type income
    or expense; the error is [strptime]'s.  With a malformed
    [filter_date] and no such transaction the page renders. *)
Theorem dashboard_view_error (txs : list (Transaction A)) fd y e :
  dashboard_view txs fd y = PyErr e
  <-> parse_filter fd = PyErr e /\ existsb is_typed txs = true.
Proof.
  unfold dashboard_view, today_income, today_expense, is_typed.
  rewrite existsb_orb_distr.
  destruct (parse_filter fd) as [pd|e'] eqn:Hp.
  - rewrite !(period_total_parsed _ _ _ _ Hp). destruct (monthly_totals y txs).
    split; [discriminate | intros [? _]; discriminate].
  - rewrite !(period_total_raise _ _ _ _ Hp).
    assert (Hraise : forall (X : Type) (x : py_result X),
               x = PyErr e' -> x = PyErr e <-> @PyErr (option date) e' = PyErr e /\ true = true)
      by (intros X x ->; split; [intros Hx; split; [congruence | reflexivity]
                                             | intros [Hx _]; congruence]).
    destruct (existsb is_income txs); simpl; [apply Hraise; reflexivity|].
    destruct (existsb is_expense txs); simpl; [apply Hraise; reflexivity|].
    destruct (monthly_totals y txs). split; [discriminate | intros [_ Hx]; discriminate].
Qed.

(** [monthly_income[m]] is the running total the loop's
    [monthly_income.get(month, 0) + t.amount] builds over the amounts of the
    income transactions of month [m] of [current_year], in store order; [m]
    is absent when there is none; the same for [monthly_expense]. *)
Theorem monthly_totals_spec (txs : list (Transaction A)) y m :
  dict_get Z.eq_dec (fst (monthly_totals y txs)) m
    = sum_if_any (filter (fun t => is_income t && in_month y m t) txs)
  /\ dict_get Z.eq_dec (snd (monthly_totals y txs)) m
    = sum_if_any (filter (fun t => is_expense t && in_month y m t) txs).
Proof.
  unfold monthly_totals. destruct (fold_monthly_step y txs [] [] m) as [H1 H2].
  rewrite H1, H2. simpl. rewrite !extend_sum_None. split; reflexivity.
Qed.

(** C5: [running_balance] pairs every transaction of the date-sorted list,
    in that order, with the balance after it: the loop's fold over the
    prefix that ends with it. *)
Theorem running_balance_spec (txs : list (Transaction A)) :
  map fst (running_balance txs) = sort_by_date txs
  /\ forall i, nth_error (running_balance txs) i
       = option_map (fun t => (t, fold_left balance_step (firstn (S i) (sort_by_date txs)) 0))
                    (nth_error (sort_by_date txs) i).
Proof.
  rewrite running_balance_scan. split; [apply map_fst_scan_balance | apply nth_error_scan_balance].
Qed.

(** [recent_transactions] is the last five transactions of the
    date-sorted list, latest first (all of them when there are fewer). *)
Theorem recent_transactions_spec (txs : list (Transaction A)) :
  recent_transactions (running_balance txs) = firstn 5 (rev (sort_by_date txs)).
Proof.
  unfold recent_transactions. rewrite rev_py_last, <- firstn_map, map_rev.
  rewrite running_balance_scan, map_fst_scan_balance. reflexivity.
Qed.
End DashboardTheorems.

(** The signed amount the running balance applies: every type other than
    income counts as an expense. *)
Definition signed_amount {A} `{Num A} (t : Transaction A) : A :=
  if is_income t then tx_amount t else num_sub num_zero (tx_amount t).

Lemma filter_and_none {X} (f g : X -> bool) (l : list X) :
  existsb f l = false -> filter (fun x => f x && g x) l = [].
Proof.
  induction l as [|x l IH]; simpl; [reflexivity|].
  destruct (f x); simpl; [discriminate | exact IH].
Qed.

(** Whatever [filter_date] is, a rendered dashboard shows period sums. *)
Lemma dashboard_view_totals {A} `{Num A} (txs : list (Transaction A)) fd y v :
  dashboard_view txs fd y = PyOk v ->
  exists pd,
    v_today_income v = py_sum tx_amount (filter (fun t => is_income t && in_period pd t) txs)
    /\ v_today_expense v = py_sum tx_amount (filter (fun t => is_expense t && in_period pd t) txs).
Proof.
  destruct (parse_filter fd) as [pd|e] eqn:Hp.
  - unfold dashboard_view, today_income, today_expense. rewrite !(period_total_parsed _ _ _ _ Hp).
    destruct (monthly_totals y txs). intros Hv. injection Hv as <-.
    exists pd. split; reflexivity.
  - unfold dashboard_view, today_income, today_expense. rewrite !(period_total_raise _ _ _ _ Hp).
    destruct (existsb is_income txs) eqn:Ei; [discriminate|].
    destruct (existsb is_expense txs) eqn:Ee; [discriminate|].
    destruct (monthly_totals y txs). intros Hv. injection Hv as <-.
    exists None. simpl. rewrite !filter_and_none by assumption. split; reflexivity.
Qed.

(** A dashboard that raises raises [strptime]'s error on [filter_date]. *)
Lemma dashboard_view_raise {A} `{Num A} (txs : list (Transaction A)) fd y e :
  dashboard_view txs fd y = PyErr e -> parse_filter fd = PyErr e.
Proof.
  unfold dashboard_view, today_income, today_expense.
  destruct (parse_filter fd) as [pd|e'] eqn:Hp.
  - rewrite !(period_total_parsed _ _ _ _ Hp). destruct (monthly_totals y txs). discriminate.
  - rewrite !(period_total_raise _ _ _ _ Hp).
    destruct (existsb is_income txs); simpl; [congruence|].
    destruct (existsb is_expense txs); simpl; [congruence|].
    destruct (monthly_totals y txs). discriminate.
Qed.

Lemma paid_with_cash_not_upi {A} (t : Transaction A) :
  paid_with "Cash" t = true -> paid_with "UPI" t = false.
Proof.
  unfold paid_with. destruct (tx_payment_method t) as [pm|]; [|discriminate].
  intros Hc. apply String.eqb_eq in Hc. subst. reflexivity.
Qed.

Section ExactArithmetic.
Context {A : Type} `{NumLaws A}.
Local Open Scope num_scope.

Lemma fold_balance_step (l : list (Transaction A)) b :
  fold_left balance_step l b = b + py_sum signed_amount l.
Proof.
  revert b. induction l as [|t l IH]; intros b; simpl.
  - rewrite py_sum_nil, num_add_0_r. reflexivity.
  - rewrite IH, py_sum_cons, num_add_assoc. unfold balance_step, signed_amount.
    destruct (is_income t); [reflexivity|]. rewrite num_add_neg. reflexivity.
Qed.

Lemma py_sum_signed (txs : list (Transaction A)) :
  py_sum signed_amount txs
  = py_sum tx_amount (filter is_income txs)
    - py_sum tx_amount (filter (fun t => negb (is_income t)) txs).
Proof.
  induction txs as [|t txs IH]; simpl.
  - rewrite !py_sum_nil, num_sub_diag. reflexivity.
  - rewrite py_sum_cons, IH. unfold signed_amount.
    destruct (is_income t); simpl; rewrite py_sum_cons.
    + apply num_add_sub_assoc.
    + apply num_neg_add_sub.
Qed.

Lemma last_scan_balance (l : list (Transaction A)) b :
  last (map snd (scan_balance l b)) b = fold_left balance_step l b.
Proof.
  revert b. induction l as [|t l IH]; intros b; [reflexivity|].
  cbn [scan_balance map fold_left snd]. rewrite last_cons_default. apply IH.
Qed.

(** With exact amounts, the balance after the [i]-th transaction of
    the date-sorted list is the sum of the signed amounts up to it. *)
Theorem running_balance_prefix_sums (txs : list (Transaction A)) i t b :
  nth_error (running_balance txs) i = Some (t, b) ->
  b = py_sum signed_amount (firstn (S i) (sort_by_date txs)).
Proof.
  rewrite running_balance_scan, nth_error_scan_balance.
  destruct (nth_error (sort_by_date txs) i); simpl; [|discriminate].
  intros Hx. injection Hx as _ <-. rewrite fold_balance_step, num_add_0_l. reflexivity.
Qed.

Lemma last_running_balance (txs : list (Transaction A)) :
  last (map snd (running_balance txs)) 0 = py_sum signed_amount txs.
Proof.
  rewrite running_balance_scan, last_scan_balance, fold_balance_step, num_add_0_l.
  apply py_sum_perm, Permutation_sym, sort_by_perm.
Qed.

(** With exact amounts, the last running balance (0 when there is no
    transaction) is the total income minus the total of every other
    type, whatever order the store returns. *)
Theorem running_balance_final (txs : list (Transaction A)) :
  last (map snd (running_balance txs)) 0
  = py_sum tx_amount (filter is_income txs)
    - py_sum tx_amount (filter (fun t => negb (is_income t)) txs).
Proof.
  rewrite last_running_balance. apply py_sum_signed.
Qed.

(** With exact amounts, no [filter_date], and every transaction of
    type income or expense, the last running balance equals
    [today_balance]. *)
Theorem running_balance_matches_today (txs : list (Transaction A)) y v :
  forallb is_typed txs = true ->
  dashboard_view txs None y = PyOk v ->
  last (map snd (v_running_balance v)) 0 = v_today_balance v.
Proof.
  intros Hty Hv. unfold dashboard_view, today_income, today_expense in Hv.
  rewrite !(period_total_parsed _ None None _ eq_refl) in Hv. destruct (monthly_totals y txs).
  injection Hv as <-. simpl. rewrite last_running_balance, py_sum_signed.
  f_equal; f_equal; apply filter_ext_in; intros t Hin;
    rewrite forallb_forall in Hty; specialize (Hty t Hin); unfold is_typed in Hty;
    destruct (is_income t) eqn:Hi; simpl; rewrite ?andb_true_r; auto;
    rewrite (is_income_not_expense t Hi); reflexivity.
Qed.

(** With exact amounts, [total_amount] is the sum of the amounts
    paid with exactly [Cash] or [UPI]; every other payment method,
    [None] and other spellings included, is left out. *)
Theorem total_amount_spec (txs : list (Transaction A)) fd y v :
  dashboard_view txs fd y = PyOk v ->
  v_total_amount v
  = py_sum tx_amount (filter (fun t => paid_with "Cash" t || paid_with "UPI" t) txs).
Proof.
  unfold dashboard_view. destruct (today_income txs fd); [|discriminate].
  destruct (today_expense txs fd); [|discriminate]. destruct (monthly_totals y txs).
  intros Hv. injection Hv as <-. simpl. unfold total_by_method.
  induction txs as [|t txs IH]; cbn [filter].
  - rewrite !py_sum_nil, num_add_0_l. reflexivity.
  - destruct (paid_with "Cash" t) eqn:Hc.
    + rewrite (paid_with_cash_not_upi t Hc). cbn [orb].
      rewrite !py_sum_cons, <- IH. symmetry. apply num_add_assoc.
    + cbn [orb]. destruct (paid_with "UPI" t); [|exact IH].
      rewrite !py_sum_cons, <- IH, !num_add_assoc, (num_add_comm (tx_amount t)). reflexivity.
Qed.
Lemma extend_sum_None_perm (l l' : list (Transaction A)) :
  Permutation l l' -> extend_sum None l = extend_sum None l'.
Proof.
  intros Hp. rewrite !extend_sum_None.
  destruct l as [|t l], l' as [|t' l'].
  - reflexivity.
  - apply Permutation_nil in Hp. discriminate.
  - symmetry in Hp. apply Permutation_nil in Hp. discriminate.
  - f_equal. rewrite <- !py_sum_fold. apply py_sum_perm, Hp.
Qed.

Lemma monthly_totals_perm (txs txs' : list (Transaction A)) y m :
  Permutation txs txs' ->
  dict_get Z.eq_dec (fst (monthly_totals y txs)) m = dict_get Z.eq_dec (fst (monthly_totals y txs')) m
  /\ dict_get Z.eq_dec (snd (monthly_totals y txs)) m = dict_get Z.eq_dec (snd (monthly_totals y txs')) m.
Proof.
  intros Hp. unfold monthly_totals.
  destruct (fold_monthly_step y txs [] [] m) as [H1 H2].
  destruct (fold_monthly_step y txs' [] [] m) as [H1' H2'].
  rewrite H1, H2, H1', H2'. split; apply extend_sum_None_perm, filter_perm, Hp.
Qed.

(** With exact amounts and transactions at distinct times, the
    dashboard does not depend on the order in which the store returns
    the rows: period, payment and monthly totals, the running balance and
    the recent list are the same for every permutation of the input (the
    monthly dictionaries as mappings; their key order may differ). *)
Theorem dashboard_view_perm (txs txs' : list (Transaction A)) fd pd y :
  Permutation txs txs' -> NoDup (map tx_date txs) -> parse_filter fd = PyOk pd ->
  exists v v', dashboard_view txs fd y = PyOk v /\ dashboard_view txs' fd y = PyOk v'
    /\ v_today_income v = v_today_income v' /\ v_today_expense v = v_today_expense v'
    /\ v_today_balance v = v_today_balance v'
    /\ v_total_cash v = v_total_cash v' /\ v_total_upi v = v_total_upi v'
    /\ v_total_amount v = v_total_amount v'
    /\ (forall m, dict_get Z.eq_dec (v_monthly_income v) m = dict_get Z.eq_dec (v_monthly_income v') m
                 /\ dict_get Z.eq_dec (v_monthly_expense v) m = dict_get Z.eq_dec (v_monthly_expense v') m)
    /\ v_running_balance v = v_running_balance v'
    /\ v_recent_transactions v = v_recent_transactions v'.
Proof.
  intros Hp Hnd Hf.
  assert (Hrb : running_balance txs = running_balance txs')
    by (unfold running_balance, sort_by_date; rewrite (sort_by_perm_nodup tx_date dt_ltb txs txs' Hp Hnd);
        reflexivity).
  assert (Hs : forall f, py_sum tx_amount (filter f txs) = py_sum tx_amount (filter f txs'))
    by (intros f; apply py_sum_perm, filter_perm, Hp).
  pose proof (fun m => monthly_totals_perm txs txs' y m Hp) as Hm.
  unfold dashboard_view, today_income, today_expense, total_by_method.
  rewrite !(period_total_parsed _ _ _ _ Hf).
  destruct (monthly_totals y txs) as [mi me], (monthly_totals y txs') as [mi' me'].
  do 2 eexists. split; [reflexivity|]. split; [reflexivity|]. cbn -[py_sum].
  rewrite !Hs, Hrb. repeat split; try reflexivity; apply Hm.
Qed.
End ExactArithmetic.

(** With exact amounts, when every amount is non-negative, the
    dashboard's income and expense totals are non-negative.  (The handler
    [add_transaction] accepts negative amounts: see [App.v].) *)
Theorem today_totals_nonneg (txs : list (Transaction Z)) fd y v :
  (forall t, In t txs -> (0 <= tx_amount t)%Z) ->
  dashboard_view txs fd y = PyOk v ->
  (0 <= v_today_income v)%Z /\ (0 <= v_today_expense v)%Z.
Proof.
  intros Hpos Hv. destruct (dashboard_view_totals txs fd y v Hv) as (pd & -> & ->).
  split; apply py_sum_nonneg; intros t Ht; apply filter_In in Ht as [Ht _]; auto.
Qed.

(** Three income transactions of the same day: the stable sort keeps
    them in store order. *)
Definition float_same_day : list (Transaction float) :=
  [mk_transaction 1 "income" "salary" 1e16%float (midnight 2024 1 1) None 1 None;
   mk_transaction 2 "income" "gift" 1%float (midnight 2024 1 1) None 1 None;
   mk_transaction 3 "income" "gift" 1%float (midnight 2024 1 1) None 1 None].

(** With Python floats the dashboard's two balances disagree: [sum]
    (compensated since CPython 3.12) gives [today_balance] =
    10000000000000002, while the running balance, a loop of [+=], loses
    both 1.0 amounts (1e16 + 1 rounds back to 1e16). *)
Example float_balances_diverge :
  exists v, dashboard_view float_same_day None 2024 = PyOk v
    /\ v_today_balance v = 10000000000000002%float
    /\ last (map snd (v_running_balance v)) 0%float = 1e16%float.
Proof. eexists. split; [vm_compute; reflexivity | split; vm_compute; reflexivity]. Qed.

(** With Python floats the final running balance depends on the order
    the store returns same-day transactions in: the same three rows,
    returned in the opposite order, end at 1e16 and at
    10000000000000002. *)
Example float_final_balance_order_dependent :
  Permutation float_same_day (rev float_same_day)
  /\ last (map snd (running_balance float_same_day)) 0%float = 1e16%float
  /\ last (map snd (running_balance (rev float_same_day))) 0%float = 10000000000000002%float.
Proof. split; [apply Permutation_rev | split; vm_compute; reflexivity]. Qed.

(** ** Witnesses, on the scenario of the specification: income 100 on
    2024-01-05 in cash, expense 30 on 2024-01-06 by UPI, income 50 on
    2024-02-01 by bank transfer. *)

Definition scenario_store : list (Transaction Z) :=
  [mk_transaction 1 "income" "salary" 100%Z (midnight 2024 1 5) None 1 (Some "Cash"%string);
   mk_transaction 2 "expense" "food" 30%Z (midnight 2024 1 6) None 1 (Some "UPI"%string);
   mk_transaction 3 "income" "gift" 50%Z (midnight 2024 2 1) None 1 (Some "Bank"%string)].

Lemma dashboard_view_ok_witness :
  exists v, dashboard_view scenario_store (Some "2024-01-06"%string) 2024 = PyOk v
    /\ v_today_income v = 0%Z /\ v_today_expense v = 30%Z /\ v_today_balance v = (-30)%Z.
Proof.
  eexists. split.
  - apply (dashboard_view_ok scenario_store _ (Some (mk_date 2024 1 6)) 2024). reflexivity.
  - vm_compute. auto.
Defined.



(** The payment scenario of the specification. *)
Definition payment_store : list (Transaction Z) :=
  [mk_transaction 1 "income" "salary" 100%Z (midnight 2024 3 1) None 1 (Some "Cash"%string);
   mk_transaction 2 "income" "refund" 50%Z (midnight 2024 3 2) None 1 (Some "UPI"%string);
   mk_transaction 3 "income" "interest" 20%Z (midnight 2024 3 3) None 1 (Some "Bank"%string)].

(** The scenarios of the specification's testable properties hold
    of the model: on the three transactions of [scenario_store] the
    monthly totals for 2024 are {1: 100, 2: 50} and {1: 30}, the running
    balances 100, 70, 120, and the recent list is the three transactions
    latest first; with [filter_date=2024-01-06] income is 0, expense 30,
    balance -30; payments Cash 100, UPI 50, Bank 20 give 100, 50 and 150. *)
Theorem spec_scenarios :
  (exists v, dashboard_view scenario_store None 2024 = PyOk v
     /\ v_monthly_income v = [(1, 100); (2, 50)]%Z /\ v_monthly_expense v = [(1, 30)]%Z
     /\ map snd (v_running_balance v) = [100; 70; 120]%Z
     /\ v_recent_transactions v = rev scenario_store)
  /\ (exists v, dashboard_view scenario_store (Some "2024-01-06"%string) 2024 = PyOk v
     /\ v_today_income v = 0%Z /\ v_today_expense v = 30%Z /\ v_today_balance v = (-30)%Z)
  /\ (exists v, dashboard_view payment_store None 2024 = PyOk v
     /\ v_total_cash v = 100%Z /\ v_total_upi v = 50%Z /\ v_total_amount v = 150%Z).
Proof.
  split; [|split]; eexists; (split; [vm_compute; reflexivity|]); repeat split; vm_compute; reflexivity.
Qed.
