(* ===== verification/Store.v ===== *)
(** The record store as [src/app.py] uses it through SQLAlchemy over
    SQLite: the tables [users] and [transactions] as lists of rows in rowid
    order (the order a table scan returns them), the lookups the handlers
    make ([db.session.get], [filter_by(...).first()], [filter_by(...).count()],
    the relationship [user.transactions]), and the writes ([db.session.add]
    then [commit], attribute updates then [commit], [db.session.delete]).
    An [INTEGER PRIMARY KEY] column without [AUTOINCREMENT] gets one more
    than the largest rowid in the table, so the id of a deleted last
    transaction is given again.  The well-formedness [db_wf] collects what
    the handlers maintain: distinct ids, distinct emails (the [unique=True]
    column) and every transaction owned by an existing user.  The section
    [RowidReuse] shows that a deleted last id is given again. *)

From Stdlib Require Import Bool Arith ZArith Lia String List.
From S2P Require Import Prelude StableSort Dates Models.
Import ListNotations.

Section Store.
Context {A : Type}.
Abbreviation Tx := (Transaction A).

Record Db := mk_db {
  db_users : list User;
  db_txs : list Tx
}.

Definition empty_db : Db := mk_db [] [].

Definition max_id (ids : list nat) : nat := fold_right Nat.max 0 ids.

(** The rowid SQLite gives a new row. *)
Definition next_rowid (ids : list nat) : nat := S (max_id ids).

(** [db.session.get(User, uid)] *)
Definition user_get (db : Db) (uid : nat) : option User :=
  find (fun u => Nat.eqb u.(user_id) uid) db.(db_users).

(** [User.query.filter_by(email=email).first()] *)
Definition user_by_email (db : Db) (email : string) : option User :=
  find (fun u => String.eqb u.(user_email) email) db.(db_users).

(** [user.transactions] and [Transaction.query.filter_by(user_id=uid)] *)
Definition txs_of_user (db : Db) (uid : nat) : list Tx :=
  filter (fun t => Nat.eqb t.(tx_user_id) uid) db.(db_txs).

(** [Transaction.query.get(id)] *)
Definition tx_get (db : Db) (id : nat) : option Tx :=
  find (fun t => Nat.eqb t.(tx_id) id) db.(db_txs).

(** [db.session.add(User(name=..., email=..., password=...))] and commit:
    the new row and its id. *)
Definition insert_user (db : Db) (name : option string) (email password : string) : Db * User :=
  let u := mk_user (next_rowid (map user_id db.(db_users))) name email password in
  (mk_db (db.(db_users) ++ [u]) db.(db_txs), u).

(** [db.session.add(Transaction(...))] and commit; [mk] builds the row
    from its id. *)
Definition insert_tx (db : Db) (mk : nat -> Tx) : Db * Tx :=
  let t := mk (next_rowid (map tx_id db.(db_txs))) in
  (mk_db db.(db_users) (db.(db_txs) ++ [t]), t).

(** Attribute assignments on the row [id], then commit. *)
Definition update_tx (db : Db) (id : nat) (f : Tx -> Tx) : Db :=
  mk_db db.(db_users) (map (fun t => if Nat.eqb t.(tx_id) id then f t else t) db.(db_txs)).

(** [db.session.delete(transaction)] and commit. *)
Definition delete_tx (db : Db) (id : nat) : Db :=
  mk_db db.(db_users) (filter (fun t => negb (Nat.eqb t.(tx_id) id)) db.(db_txs)).

(** [order_by(Transaction.date.desc())]: later dates first; rows with
    the same date stay in rowid order. *)
Definition by_date_desc (txs : list Tx) : list Tx :=
  sort_by tx_date (fun a b => dt_ltb b a) txs.

(** ** Well-formedness of the store *)

Definition owner_exists (db : Db) (t : Tx) : Prop :=
  exists u, In u db.(db_users) /\ u.(user_id) = t.(tx_user_id).

Record db_wf (db : Db) : Prop := {
  wf_user_ids : NoDup (map user_id db.(db_users));
  wf_emails : NoDup (map user_email db.(db_users));
  wf_tx_ids : NoDup (map tx_id db.(db_txs));
  wf_owners : forall t, In t db.(db_txs) -> owner_exists db t
}.

(** ** Lemmas *)

Lemma max_id_ge ids i : In i ids -> i <= max_id ids.
Proof.
  induction ids as [|j ids IH]; simpl; [intros []|].
  intros [->|Hin]; [lia|]. specialize (IH Hin). lia.
Qed.

Lemma next_rowid_fresh ids : ~ In (next_rowid ids) ids.
Proof. intros Hin. apply max_id_ge in Hin. unfold next_rowid in Hin. lia. Qed.

Lemma NoDup_snoc {X} (l : list X) x : NoDup l -> ~ In x l -> NoDup (l ++ [x]).
Proof.
  intros Hnd Hnin. apply NoDup_app; auto using NoDup_cons, NoDup_nil.
  intros y Hy [<-|[]]. contradiction.
Qed.

Lemma find_some_in {X} (f : X -> bool) l x : find f l = Some x -> In x l /\ f x = true.
Proof. intros H. split; [eapply find_some; eauto | eapply find_some; eauto]. Qed.

Lemma user_get_some db uid u : user_get db uid = Some u -> In u db.(db_users) /\ u.(user_id) = uid.
Proof.
  unfold user_get. intros H. apply find_some_in in H as [Hin Hid].
  apply Nat.eqb_eq in Hid. auto.
Qed.

(** [find] by a key that is unique in the list finds the element with
    that key. *)
Lemma find_unique_key {X K} (key : X -> K) (eqb : K -> K -> bool) l x :
  (forall a b, eqb a b = true <-> a = b) -> NoDup (map key l) -> In x l ->
  find (fun y => eqb (key y) (key x)) l = Some x.
Proof.
  intros Heq Hnd Hin. induction l as [|v l IH]; [destruct Hin|]. cbn in *.
  inversion Hnd as [|? ? Hnin Hnd']; subst.
  destruct Hin as [<-|Hin]; [rewrite (proj2 (Heq _ _) eq_refl); reflexivity|].
  destruct (eqb (key v) (key x)) eqn:E; [|auto].
  exfalso. apply Hnin. apply Heq in E. rewrite E. apply in_map, Hin.
Qed.

Lemma user_get_in db u : NoDup (map user_id db.(db_users)) -> In u db.(db_users) ->
  user_get db u.(user_id) = Some u.
Proof. apply find_unique_key, Nat.eqb_eq. Qed.

Lemma user_by_email_in db u : NoDup (map user_email db.(db_users)) -> In u db.(db_users) ->
  user_by_email db u.(user_email) = Some u.
Proof. apply find_unique_key, String.eqb_eq. Qed.

Lemma user_by_email_some db e u :
  user_by_email db e = Some u -> In u db.(db_users) /\ u.(user_email) = e.
Proof.
  unfold user_by_email. intros H. apply find_some_in in H as [Hin He].
  apply String.eqb_eq in He. auto.
Qed.

Lemma user_by_email_none db e : user_by_email db e = None -> ~ In e (map user_email db.(db_users)).
Proof.
  unfold user_by_email. intros Hn Hin. apply in_map_iff in Hin as [u [He Hu]].
  apply (find_none _ _ Hn) in Hu. rewrite He, String.eqb_refl in Hu. discriminate.
Qed.

Lemma tx_get_some db id t : tx_get db id = Some t -> In t db.(db_txs) /\ t.(tx_id) = id.
Proof.
  unfold tx_get. intros H. apply find_some_in in H as [Hin Hid].
  apply Nat.eqb_eq in Hid. auto.
Qed.

Lemma NoDup_map_filter {X Y} (g : X -> Y) (p : X -> bool) l :
  NoDup (map g l) -> NoDup (map g (filter p l)).
Proof.
  induction l as [|x l IH]; simpl; intros Hnd; [constructor|].
  inversion Hnd as [|? ? Hnin Hnd']; subst.
  destruct (p x); simpl; auto. constructor; auto.
  intros Hin. apply Hnin. apply in_map_iff in Hin as (y & Hy & Hiny).
  apply filter_In in Hiny as [Hiny _]. rewrite <- Hy. apply in_map, Hiny.
Qed.

Lemma find_app_some {X} (f : X -> bool) l1 l2 x :
  find f l1 = Some x -> find f (l1 ++ l2) = Some x.
Proof.
  induction l1 as [|y l1 IH]; simpl; [discriminate|].
  destruct (f y); [auto | exact IH].
Qed.

(** Lookups of users that existed survive the writes of the handlers. *)
Lemma user_get_insert_user db name email pw uid u :
  user_get db uid = Some u -> user_get (fst (insert_user db name email pw)) uid = Some u.
Proof.
  unfold user_get, insert_user. simpl. apply find_app_some.
Qed.

Lemma insert_user_get db name email pw :
  NoDup (map user_id db.(db_users)) ->
  user_get (fst (insert_user db name email pw)) (snd (insert_user db name email pw)).(user_id)
  = Some (snd (insert_user db name email pw)).
Proof.
  intros Hnd. apply user_get_in; simpl.
  - rewrite map_app. apply NoDup_snoc; [exact Hnd | apply next_rowid_fresh].
  - apply in_or_app. right. left. reflexivity.
Qed.

Lemma insert_user_wf db name email pw :
  db_wf db -> user_by_email db email = None -> db_wf (fst (insert_user db name email pw)).
Proof.
  intros [Hu He Ht Ho] Hnone. unfold insert_user. split; simpl.
  - rewrite map_app. apply NoDup_snoc; [exact Hu | apply next_rowid_fresh].
  - rewrite map_app. apply NoDup_snoc; [exact He | apply user_by_email_none, Hnone].
  - exact Ht.
  - intros t Hin. destruct (Ho t Hin) as (u & Hu' & Hid). exists u. split; [|exact Hid].
    apply in_or_app. left. exact Hu'.
Qed.

Lemma insert_tx_wf db mk :
  db_wf db ->
  (mk (next_rowid (map tx_id db.(db_txs)))).(tx_id) = next_rowid (map tx_id db.(db_txs)) ->
  owner_exists db (mk (next_rowid (map tx_id db.(db_txs)))) ->
  db_wf (fst (insert_tx db mk)).
Proof.
  intros [Hu He Ht Ho] Hid Hown. unfold insert_tx. split; simpl; auto.
  - rewrite map_app. simpl. rewrite Hid. apply NoDup_snoc; [exact Ht | apply next_rowid_fresh].
  - intros t Hin. apply in_app_or in Hin as [Hin|[<-|[]]]; [apply Ho, Hin | exact Hown].
Qed.

Lemma update_tx_wf db id f :
  db_wf db ->
  (forall t, (f t).(tx_id) = t.(tx_id) /\ (f t).(tx_user_id) = t.(tx_user_id)) ->
  db_wf (update_tx db id f).
Proof.
  intros [Hu He Ht Ho] Hf. unfold update_tx. split; simpl; auto.
  - rewrite map_map.
    erewrite map_ext; [exact Ht|]. intros t. destruct (Nat.eqb _ _); [apply Hf | reflexivity].
  - intros t Hin. apply in_map_iff in Hin as (t0 & <- & Hin0).
    destruct (Ho t0 Hin0) as (u & Hu' & Hid). exists u. split; [exact Hu'|].
    destruct (Nat.eqb _ _); [rewrite (proj2 (Hf t0)) |]; exact Hid.
Qed.

(** The row [id] after an update is the updated row. *)
Lemma tx_get_update db id f t :
  (forall t, (f t).(tx_id) = t.(tx_id)) -> tx_get db id = Some t -> tx_get (update_tx db id f) id = Some (f t).
Proof.
  unfold tx_get, update_tx. cbn [db_txs]. intros Hf.
  induction (db_txs db) as [|t0 ts IH]; cbn; [discriminate|].
  destruct (Nat.eqb (tx_id t0) id) eqn:E; cbn.
  - intros Ht. injection Ht as <-. rewrite Hf, E. reflexivity.
  - rewrite E. exact IH.
Qed.

Lemma delete_tx_wf db id : db_wf db -> db_wf (delete_tx db id).
Proof.
  intros [Hu He Ht Ho]. unfold delete_tx. split; simpl; auto.
  - apply NoDup_map_filter, Ht.
  - intros t Hin. apply filter_In in Hin as [Hin _]. apply Ho, Hin.
Qed.
End Store.

Arguments Db : clear implicits.

Section RowidReuse.
Context {A : Type}.

Lemma next_rowid_gt ids i : In i ids -> i < next_rowid ids.
Proof. intros Hin. apply max_id_ge in Hin. unfold next_rowid. lia. Qed.

Lemma filter_all_kept {X} (p : X -> bool) l : (forall x, In x l -> p x = true) -> filter p l = l.
Proof.
  induction l as [|x l IH]; simpl; intros Hp; [reflexivity|].
  rewrite (Hp x (or_introl eq_refl)), IH by auto. reflexivity.
Qed.

(** C26: transaction ids are reused: the table has no [AUTOINCREMENT], so
    when the row just inserted (the one with the largest id) is deleted,
    the next insert gets its id again. *)
Theorem rowid_reused_after_delete (db : Db A) mk mk' :
  (mk (next_rowid (map tx_id db.(db_txs)))).(tx_id) = next_rowid (map tx_id db.(db_txs)) ->
  snd (insert_tx (delete_tx (fst (insert_tx db mk)) (snd (insert_tx db mk)).(tx_id)) mk')
  = mk' (snd (insert_tx db mk)).(tx_id).
Proof.
  intros Hid. unfold insert_tx, delete_tx. simpl. rewrite filter_app. simpl.
  rewrite Hid, Nat.eqb_refl. simpl. rewrite app_nil_r, filter_all_kept; [reflexivity|].
  intros t Hin. apply negb_true_iff, Nat.eqb_neq. intros Heq.
  assert (Hlt := next_rowid_gt (map tx_id db.(db_txs)) (tx_id t) (in_map _ _ _ Hin)). lia.
Qed.
End RowidReuse.

(** ** Witness *)

Definition reuse_tx (note : string) (id : nat) : Transaction Z :=
  mk_transaction id "expense"%string "food"%string 5%Z (midnight 2024 1 1) (Some note) 1
    (Some "Cash"%string).

Definition reuse_db : Db Z := mk_db [] [reuse_tx "old" 1].

Lemma rowid_reused_after_delete_witness :
  snd (insert_tx (delete_tx (fst (insert_tx reuse_db (reuse_tx "first"))) 2) (reuse_tx "second"))
  = reuse_tx "second" 2.
Proof.
  apply (rowid_reused_after_delete reuse_db (reuse_tx "first") (reuse_tx "second")). reflexivity.
Defined.
