(* ===== verification/App.v ===== *)
(** The request handlers of [src/app.py].  A handler reads the request and
    the client's session, reads and writes the store, and answers with flash
    messages and a response (a redirect, a rendered page or an HTTP error).
    The libraries the handlers only call are parameters of the section:
    Python's [float()] is [parse_float] ([None] for its [ValueError]) and
    werkzeug's password hashing is a [Hasher] (the values
    [generate_password_hash] draws at random for its salt are an input of
    [register]; [Hash.v] models werkzeug and discharges the laws).

    Exceptions: [request.form['k']] on a missing key raises werkzeug's
    [BadRequestKeyError], answered with status 400; any other exception
    ([ValueError], [AttributeError] on [None]) is answered with 500.  In
    both cases nothing was committed, and Flask-SQLAlchemy discards the
    session's pending changes, so the store is unchanged ([run]). *)

From Stdlib Require Import Bool Arith ZArith Lia Ascii String List.
From S2P Require Import Prelude Num PyStr StableSort Dates Models Dashboard Store.
Import ListNotations.
Local Open Scope string_scope.

(** The random values a call draws ([secrets.choice] in werkzeug's
    [gen_salt]): the [i]-th draw. *)
Definition Draws := nat -> nat.

(** werkzeug.security: [generate_password_hash(password)], which draws
    its salt, and [check_password_hash(pwhash, password)]; both may raise
    (the key derivation failing, a stored hash naming an unknown method). *)
Record Hasher := mk_hasher {
  generate_password_hash : Draws -> string -> py_result string;
  check_password_hash : string -> string -> py_result bool
}.

(** What the handlers rely on: a hash that was generated accepts its own
    password and no other. *)
Record HasherLaws (h : Hasher) : Prop := {
  check_generated : forall rnd p hp,
    h.(generate_password_hash) rnd p = PyOk hp -> h.(check_password_hash) hp p = PyOk true;
  check_other : forall rnd p q hp, h.(generate_password_hash) rnd p = PyOk hp -> p <> q ->
    h.(check_password_hash) hp q = PyOk false
}.

Inductive Method := GET | POST.

(** [request.method], [request.form], [request.args] *)
Record Request := mk_request {
  rq_method : Method;
  rq_form : list (string * string);
  rq_args : list (string * string)
}.

(** [request.form['k']]: the first value, or [BadRequestKeyError]. *)
Definition form_req (rq : Request) (k : string) : py_result string :=
  py_of_option (KeyError k) (dict_get string_dec rq.(rq_form) k).

(** [request.form.get(k, default)] *)
Definition form_get (rq : Request) (k dflt : string) : string :=
  dict_get_default string_dec rq.(rq_form) k dflt.

(** [request.args.get(k)] *)
Definition args_get (rq : Request) (k : string) : option string :=
  dict_get string_dec rq.(rq_args) k.

(** Flask's [session]: the key [user_id] and the flag [session.permanent]. *)
Record Session := mk_session {
  sess_user : option nat;
  sess_permanent : bool
}.

Definition empty_session : Session := mk_session None false.

(** [session['user_id'] = uid] *)
Definition sess_login (s : Session) (uid : nat) : Session := mk_session (Some uid) s.(sess_permanent).

(** The endpoints the handlers redirect to ([url_for(...)]). *)
Inductive Route := RHome | RRegister | RLogin | RAddTransaction | RDashboard | RViewTransactions.

Section Handlers.
Context {A : Type} `{Num A} (parse_float : string -> option A) (hasher : Hasher).
Abbreviation Tx := (Transaction A).

(** The templates and the arguments they receive. *)
Inductive Page :=
| PHome (user : option User) (transactions_count : nat)
| PRegister
| PLogin
| PAddTransaction
| PDashboard (user : User) (view : @DashboardView A)
| PViewTransactions (transactions : list Tx)
| PEditTransaction (transaction : Tx).

Inductive Response :=
| Redirect (r : Route)
| Render (p : Page)
| HttpError (status : nat).

(** The flashed (message, category) pairs and the response. *)
Record Reply := mk_reply {
  rp_flashes : list (string * string);
  rp_response : Response
}.

Definition redirect (fl : list (string * string)) (r : Route) : Reply := mk_reply fl (Redirect r).
Definition render (p : Page) : Reply := mk_reply [] (Render p).

Abbreviation Outcome := (py_result (Db A * Session * Reply)).

Definition please_log_in : Reply := redirect [("Please log in first.", "warning")] RLogin.

(** [home] *)
Definition home (db : Db A) (s : Session) : Outcome :=
  match s.(sess_user) with
  | None => PyOk (db, s, render (PHome None 0))
  | Some uid =>
      match user_get db uid with
      | None => PyErr (AttributeError "'NoneType' object has no attribute 'id'")
      | Some u => PyOk (db, s, render (PHome (Some u) (length (txs_of_user db u.(user_id)))))
      end
  end.

(** [register] *)
Definition register (db : Db A) (s : Session) (rq : Request) (rnd : Draws) : Outcome :=
  match rq.(rq_method) with
  | GET => PyOk (db, s, render PRegister)
  | POST =>
      py_bind (form_req rq "name") (fun name =>
      py_bind (form_req rq "email") (fun email =>
      py_bind (form_req rq "password") (fun password =>
      py_bind (form_req rq "confirm_password") (fun confirm_password =>
      if negb (String.eqb password confirm_password) then
        PyOk (db, s, redirect [("Passwords do not match. Please try again.", "danger")] RRegister)
      else match user_by_email db email with
      | Some _ => PyOk (db, s, redirect [("Email already registered. Please login.", "warning")] RLogin)
      | None =>
          py_bind (hasher.(generate_password_hash) rnd password) (fun hashed =>
          let '(db', u) := insert_user db (Some name) email hashed in
          PyOk (db', sess_login s u.(user_id),
                redirect [("Registration successful! You are now logged in.", "success")] RLogin))
      end))))
  end.

(** [login] *)
Definition login (db : Db A) (s : Session) (rq : Request) : Outcome :=
  match rq.(rq_method) with
  | GET => PyOk (db, s, render PLogin)
  | POST =>
      py_bind (form_req rq "email") (fun email =>
      py_bind (form_req rq "password") (fun password =>
      let invalid := PyOk (db, s, mk_reply [("Invalid email or password", "danger")] (Render PLogin)) in
      match user_by_email db email with
      | Some u =>
          py_bind (hasher.(check_password_hash) u.(user_password) password) (fun ok =>
          if ok then
            let s' := mk_session (Some u.(user_id)) true in
            let fl := [("Login successful!", "success")] in
            if Nat.eqb (length (txs_of_user db u.(user_id))) 0
            then PyOk (db, s', redirect fl RHome)
            else PyOk (db, s', redirect fl RDashboard)
          else invalid)
      | None => invalid
      end))
  end.

(** The [db.session.commit()] of a transaction row with amount [a]:
    [sqlite3_bind_double] stores a NaN as NULL and the [amount] column is
    [nullable=False] ([src/models.py] line 19), so SQLite's NOT NULL
    constraint fails and SQLAlchemy raises [IntegrityError]. *)
Definition commit_amount (a : A) : py_result unit :=
  if num_null a
  then PyErr (IntegrityError "NOT NULL constraint failed: transactions.amount")
  else PyOk tt.

(** [add_transaction] *)
Definition add_transaction (db : Db A) (s : Session) (rq : Request) : Outcome :=
  match s.(sess_user) with
  | None => PyOk (db, s, please_log_in)
  | Some uid =>
  match rq.(rq_method) with
  | GET => PyOk (db, s, render PAddTransaction)
  | POST =>
      let t_type := py_lower (py_strip (form_get rq "type" "")) in
      let date_str := py_strip (form_get rq "date" "") in
      let category := py_strip (form_get rq "category" "") in
      let amount_str := py_strip (form_get rq "amount" "0") in
      let payment_method := py_strip (form_get rq "payment_method" "") in
      let notes := py_strip (form_get rq "notes" "") in
      match parse_float amount_str with
      | None => PyOk (db, s, redirect [("Invalid amount.", "danger")] RAddTransaction)
      | Some amount =>
      match strptime_ymd date_str with
      | PyErr _ => PyOk (db, s, redirect [("Invalid date format.", "danger")] RAddTransaction)
      | PyOk transaction_date =>
      match user_get db uid with
      | None => PyOk (db, s, redirect [("User not found.", "danger")] RLogin)
      | Some _ =>
          py_bind (commit_amount amount) (fun _ =>
          let '(db', _) := insert_tx db (fun id =>
                mk_transaction id t_type category amount transaction_date
                  (Some notes) uid (Some payment_method)) in
          PyOk (db', s, redirect [("Transaction added successfully!", "success")] RDashboard))
      end end end
  end
  end.

(** [dashboard], with the year of [datetime.now()]. *)
Definition dashboard (db : Db A) (s : Session) (rq : Request) (current_year : Z) : Outcome :=
  match s.(sess_user) with
  | None => PyOk (db, s, redirect [] RLogin)
  | Some uid =>
      match user_get db uid with
      | None => PyErr (AttributeError "'NoneType' object has no attribute 'transactions'")
      | Some u =>
          py_bind (dashboard_view (txs_of_user db u.(user_id)) (args_get rq "filter_date") current_year)
            (fun v => PyOk (db, s, render (PDashboard u v)))
      end
  end.

(** [logout]: [session.pop('user_id', None)]. *)
Definition logout (db : Db A) (s : Session) : Outcome :=
  PyOk (db, mk_session None s.(sess_permanent),
        redirect [("You have been logged out.", "success")] RHome).

(** [view_transactions] *)
Definition view_transactions (db : Db A) (s : Session) : Outcome :=
  match s.(sess_user) with
  | None => PyOk (db, s, please_log_in)
  | Some uid =>
      match user_get db uid with
      | None => PyOk (db, s, redirect [("User not found.", "danger")] RLogin)
      | Some u => PyOk (db, s, render (PViewTransactions (by_date_desc (txs_of_user db u.(user_id)))))
      end
  end.

(** [edit_transaction(id)]: no check that the row belongs to the session's
    user, and the new type is stored as typed (not stripped, not
    lowered). *)
Definition edit_transaction (db : Db A) (s : Session) (rq : Request) (id : nat) : Outcome :=
  match s.(sess_user) with
  | None => PyOk (db, s, please_log_in)
  | Some _ =>
  match tx_get db id with
  | None => PyOk (db, s, mk_reply [] (HttpError 404))
  | Some t =>
  match rq.(rq_method) with
  | GET => PyOk (db, s, render (PEditTransaction t))
  | POST =>
      py_bind (form_req rq "type") (fun ty =>
      py_bind (form_req rq "category") (fun category =>
      py_bind (form_req rq "note") (fun note =>
      py_bind (form_req rq "amount") (fun amount_s =>
      py_bind (py_of_option (ValueError "could not convert string to float") (parse_float amount_s))
        (fun amount =>
          py_bind (commit_amount amount) (fun _ =>
          let db' := update_tx db id (fun t0 =>
                mk_transaction t0.(tx_id) ty category amount t0.(tx_date) (Some note)
                  t0.(tx_user_id) t0.(tx_payment_method)) in
          PyOk (db', s, redirect [("Transaction updated successfully!", "success")] RViewTransactions)))))))
  end
  end
  end.

(** [delete_transaction(id)]: no ownership check either. *)
Definition delete_transaction (db : Db A) (s : Session) (id : nat) : Outcome :=
  match s.(sess_user) with
  | None => PyOk (db, s, please_log_in)
  | Some _ =>
      match tx_get db id with
      | None => PyOk (db, s, mk_reply [] (HttpError 404))
      | Some _ => PyOk (delete_tx db id, s,
                        redirect [("Transaction deleted successfully!", "success")] RViewTransactions)
      end
  end.

(** The status Flask gives an exception that escapes a view. *)
Definition status_of_exc (e : py_exc) : nat :=
  match e with
  | KeyError _ => 400
  | _ => 500
  end.

(** Run a view: an escaping exception leaves the store and the session as
    they were. *)
Definition run (db : Db A) (s : Session) (o : Outcome) : Db A * Session * Reply :=
  match o with
  | PyOk r => r
  | PyErr e => (db, s, mk_reply [] (HttpError (status_of_exc e)))
  end.

(** One request of a client, by endpoint. *)
Inductive Action :=
| AHome
| ARegister (rq : Request) (rnd : Draws)
| ALogin (rq : Request)
| AAddTransaction (rq : Request)
| ADashboard (rq : Request) (current_year : Z)
| ALogout
| AViewTransactions
| AEditTransaction (rq : Request) (id : nat)
| ADeleteTransaction (id : nat).

(** The URL map of [src/app.py]. *)
Definition dispatch (db : Db A) (s : Session) (a : Action) : Outcome :=
  match a with
  | AHome => home db s
  | ARegister rq rnd => register db s rq rnd
  | ALogin rq => login db s rq
  | AAddTransaction rq => add_transaction db s rq
  | ADashboard rq y => dashboard db s rq y
  | ALogout => logout db s
  | AViewTransactions => view_transactions db s
  | AEditTransaction rq id => edit_transaction db s rq id
  | ADeleteTransaction id => delete_transaction db s id
  end.

Definition handle (db : Db A) (s : Session) (a : Action) : Db A * Session * Reply :=
  run db s (dispatch db s a).
End Handlers.

(** ** Theorems *)

(** Reduce an [Outcome] equation: the handler returned the unchanged
    state, or name the pieces. *)
Ltac outcome_cases :=
  repeat match goal with
  | Hx : py_bind ?c _ = PyOk _ |- _ =>
      destruct c eqn:?; cbn [py_bind] in Hx; [|discriminate Hx]
  | Hx : PyOk _ = PyOk _ |- _ => injection Hx as <- <- <-
  | Hx : PyErr _ = PyOk _ |- _ => discriminate Hx
  | Hx : (if ?b then _ else _) = PyOk _ |- _ => destruct b eqn:?
  | Hx : match ?o with Some _ => _ | None => _ end = PyOk _ |- _ => destruct o eqn:?
  | Hx : match ?o with PyOk _ => _ | PyErr _ => _ end = PyOk _ |- _ => destruct o eqn:?
  | Hx : match ?m with GET => _ | POST => _ end = PyOk _ |- _ => destruct m eqn:?
  end.

Section HandlerTheorems.
Context {A : Type} `{Num A} (parse_float : string -> option A) (hasher : Hasher).

(** A registration whose two passwords differ creates no user and
    logs nobody in, whatever else the form holds. *)
Theorem register_mismatch_no_user (db : Db A) s rq rnd p q db' s' r :
  form_req rq "password" = PyOk p -> form_req rq "confirm_password" = PyOk q -> p <> q ->
  handle parse_float hasher db s (ARegister rq rnd) = (db', s', r) -> db' = db /\ s' = s.
Proof.
  intros Hp Hq Hne. unfold handle, run, dispatch, register.
  destruct (rq_method rq); [intros Hx; injection Hx as <- <- _; auto|].
  destruct (form_req rq "name"); cbn [py_bind]; [|intros Hx; injection Hx as <- <- _; auto].
  destruct (form_req rq "email"); cbn [py_bind]; [|intros Hx; injection Hx as <- <- _; auto].
  rewrite Hp, Hq. cbn [py_bind]. apply String.eqb_neq in Hne. rewrite Hne. cbn [negb].
  intros Hx. injection Hx as <- <- _. auto.
Qed.

(** C9: [login] checks the password against the stored hash: with a hash
    generated from [p], any other password leaves the session unchanged
    and re-renders the form, and [p] itself logs the user in with a
    permanent session. *)
Theorem login_checks_password (db : Db A) s rq e q u rnd p :
  HasherLaws hasher -> rq.(rq_method) = POST ->
  form_req rq "email" = PyOk e -> form_req rq "password" = PyOk q ->
  user_by_email db e = Some u ->
  hasher.(generate_password_hash) rnd p = PyOk u.(user_password) ->
  (q <> p -> login hasher db s rq
             = PyOk (db, s, mk_reply [("Invalid email or password", "danger")] (Render PLogin)))
  /\ (q = p -> exists r, login hasher db s rq = PyOk (db, mk_session (Some u.(user_id)) true, r)).
Proof.
  intros Hlaws Hm He Hq Hu Hpw. unfold login. rewrite Hm, He, Hq. cbn [py_bind].
  rewrite Hu. split.
  - intros Hne. rewrite (check_other hasher Hlaws rnd p q _ Hpw (not_eq_sym Hne)). reflexivity.
  - intros ->. rewrite (check_generated hasher Hlaws rnd p _ Hpw). cbn [py_bind].
    destruct (Nat.eqb _ 0); eauto.
Qed.

(** A valid POST to [add_transaction] whose amount SQLite can store
    appends one row with the next rowid, the type stripped and lower-cased,
    the stripped category, notes and payment method, the parsed amount (of
    either sign) and date, owned by the session's user. *)
Lemma add_transaction_stores (db : Db A) s rq uid u a d :
  s.(sess_user) = Some uid -> rq.(rq_method) = POST ->
  parse_float (py_strip (form_get rq "amount" "0")) = Some a -> num_null a = false ->
  strptime_ymd (py_strip (form_get rq "date" "")) = PyOk d ->
  user_get db uid = Some u ->
  add_transaction parse_float db s rq
  = PyOk (fst (insert_tx db (fun id =>
              mk_transaction id (py_lower (py_strip (form_get rq "type" "")))
                (py_strip (form_get rq "category" "")) a d
                (Some (py_strip (form_get rq "notes" ""))) uid
                (Some (py_strip (form_get rq "payment_method" ""))))),
          s, redirect [("Transaction added successfully!", "success")] RDashboard).
Proof.
  intros Hs Hm Ha Hn Hd Hu. unfold add_transaction. rewrite Hs, Hm, Ha, Hd, Hu.
  unfold commit_amount. rewrite Hn. reflexivity.
Qed.

(** A POST to [add_transaction] whose amount [float()] rejects, or
    whose date [strptime] rejects, writes nothing and sends the client back
    to the form. *)
Theorem add_transaction_rejects (db : Db A) s rq uid :
  s.(sess_user) = Some uid -> rq.(rq_method) = POST ->
  parse_float (py_strip (form_get rq "amount" "0")) = None
  \/ (exists e, strptime_ymd (py_strip (form_get rq "date" "")) = PyErr e) ->
  exists r, add_transaction parse_float db s rq = PyOk (db, s, r)
            /\ r.(rp_response) = Redirect RAddTransaction.
Proof.
  intros Hs Hm Hbad. unfold add_transaction. rewrite Hs, Hm.
  destruct (parse_float _) eqn:Ha; [|eauto].
  destruct Hbad as [Hn|[e He]]; [discriminate|]. rewrite He. eauto.
Qed.

(** A POST to [edit_transaction(id)] by any logged-in client whose
    amount SQLite can store overwrites type, category, note and amount of
    row [id] with the form's values as typed (the type neither stripped
    nor lower-cased), whoever owns the row. *)
Lemma edit_transaction_stores (db : Db A) s rq id uid t ty cat note am a :
  s.(sess_user) = Some uid -> tx_get db id = Some t -> rq.(rq_method) = POST ->
  form_req rq "type" = PyOk ty -> form_req rq "category" = PyOk cat ->
  form_req rq "note" = PyOk note -> form_req rq "amount" = PyOk am -> parse_float am = Some a ->
  num_null a = false ->
  exists r, edit_transaction parse_float db s rq id
    = PyOk (update_tx db id (fun t0 => mk_transaction t0.(tx_id) ty cat a t0.(tx_date) (Some note)
                                         t0.(tx_user_id) t0.(tx_payment_method)), s, r).
Proof.
  intros Hs Ht Hm Hty Hc Hn Ham Ha Hnull. unfold edit_transaction.
  rewrite Hs, Ht, Hm, Hty, Hc, Hn, Ham. cbn [py_bind]. unfold py_of_option. rewrite Ha.
  cbn [py_bind]. unfold commit_amount. rewrite Hnull. eexists. reflexivity.
Qed.

(** The row [insert_tx] appends is among its owner's transactions. *)
Lemma insert_tx_in_txs_of_user (db : Db A) mk uid :
  (snd (insert_tx db mk)).(tx_user_id) = uid ->
  In (snd (insert_tx db mk)) (txs_of_user (fst (insert_tx db mk)) uid).
Proof.
  intros Hu. unfold txs_of_user. apply filter_In. cbn [insert_tx fst snd db_txs] in *.
  split; [apply in_or_app; right; left; reflexivity | apply Nat.eqb_eq, Hu].
Qed.

(** C7: [add_transaction] and [edit_transaction] disagree on the type
    they store: the first strips and lower-cases it, the second keeps it as
    typed.  With a type such as [" Income"] an added row is an income for
    the dashboard, while a row edited with the same type is neither income
    nor expense: it leaves both period totals, and the running balance
    subtracts its amount as if it were an expense. *)
Theorem type_normalised_by_add_only (db : Db A) s rq rq' uid u ty d a id t cat note am' a' b :
  s.(sess_user) = Some uid -> user_get db uid = Some u ->
  py_lower (py_strip ty) = "income" -> py_lower ty <> "income" -> py_lower ty <> "expense" ->
  rq.(rq_method) = POST -> form_get rq "type" "" = ty ->
  parse_float (py_strip (form_get rq "amount" "0")) = Some a -> num_null a = false ->
  strptime_ymd (py_strip (form_get rq "date" "")) = PyOk d ->
  tx_get db id = Some t -> rq'.(rq_method) = POST -> form_req rq' "type" = PyOk ty ->
  form_req rq' "category" = PyOk cat -> form_req rq' "note" = PyOk note ->
  form_req rq' "amount" = PyOk am' -> parse_float am' = Some a' -> num_null a' = false ->
  (exists db1 t1, add_transaction parse_float db s rq
                  = PyOk (db1, s, redirect [("Transaction added successfully!", "success")] RDashboard)
     /\ In t1 (txs_of_user db1 uid) /\ t1.(tx_amount) = a /\ is_income t1 = true)
  /\ (exists db2 t2 r, edit_transaction parse_float db s rq' id = PyOk (db2, s, r)
     /\ tx_get db2 id = Some t2 /\ t2.(tx_amount) = a'
     /\ is_income t2 = false /\ is_expense t2 = false /\ balance_step b t2 = (b - a')%num).
Proof.
  intros Hs Hu Hlow Hni Hne Hm Hty Ha Hna Hd Ht Hm' Hty' Hc Hn Ham Ha' Hna'. split.
  - rewrite (add_transaction_stores db s rq uid u a d Hs Hm Ha Hna Hd Hu).
    do 2 eexists. split; [reflexivity|].
    split; [apply insert_tx_in_txs_of_user; reflexivity|]. split; [reflexivity|].
    unfold is_income. cbn. rewrite Hty, py_lower_idem, Hlow. reflexivity.
  - destruct (edit_transaction_stores db s rq' id uid t ty cat note am' a' Hs Ht Hm' Hty' Hc Hn Ham Ha' Hna')
      as [r Hr].
    do 3 eexists. split; [exact Hr|].
    split; [apply tx_get_update; [reflexivity | exact Ht]|]. cbn [tx_amount].
    assert (Hi : is_income (mk_transaction t.(tx_id) ty cat a' t.(tx_date) (Some note)
                              t.(tx_user_id) t.(tx_payment_method)) = false)
      by (apply String.eqb_neq, Hni).
    split; [reflexivity|]. split; [exact Hi|].
    split; [apply String.eqb_neq, Hne|]. unfold balance_step. rewrite Hi. reflexivity.
Qed.

(** [view_transactions] lists exactly the session user's
    transactions, latest date first. *)
Theorem view_transactions_spec (db : Db A) s uid u :
  s.(sess_user) = Some uid -> user_get db uid = Some u ->
  exists l, view_transactions db s = PyOk (db, s, render (PViewTransactions l))
    /\ (forall t, In t l <-> In t db.(db_txs) /\ t.(tx_user_id) = uid)
    /\ sorted_by tx_date (fun a b => dt_ltb b a) l.
Proof.
  intros Hs Hu. unfold view_transactions. rewrite Hs, Hu.
  apply user_get_some in Hu as [_ Hid]. rewrite Hid.
  eexists. split; [reflexivity|]. split.
  - intros t. unfold by_date_desc. split.
    + intros Hin. apply (Permutation.Permutation_in _ (Permutation.Permutation_sym (sort_by_perm _ _ _))) in Hin.
      apply filter_In in Hin as [Hin Heq]. apply Nat.eqb_eq in Heq. auto.
    + intros [Hin Heq]. apply (Permutation.Permutation_in _ (sort_by_perm _ _ _)).
      apply filter_In. split; [exact Hin | apply Nat.eqb_eq, Heq].
  - apply sort_by_sorted. split.
    + intros a0. apply lt_irrefl.
    + intros a0 b c Hab Hbc. exact (lt_trans _ _ _ Hbc Hab).
    + intros a0 b Hab Hba. apply lt_total; assumption.
Qed.
(** How a handler changes the session's user: it keeps it, clears it,
    registers a new user with the next rowid, or logs in a user whose
    stored hash accepts the password. *)
Lemma dispatch_session (db : Db A) s a db' s' r :
  dispatch parse_float hasher db s a = PyOk (db', s', r) ->
  s'.(sess_user) = s.(sess_user) \/ s'.(sess_user) = None
  \/ (exists rq rnd, a = ARegister rq rnd
        /\ s'.(sess_user) = Some (next_rowid (map user_id db.(db_users))))
  \/ (exists rq e q u, a = ALogin rq /\ form_req rq "email" = PyOk e
        /\ form_req rq "password" = PyOk q /\ user_by_email db e = Some u
        /\ s'.(sess_user) = Some u.(user_id)
        /\ hasher.(check_password_hash) u.(user_password) q = PyOk true).
Proof.
  destruct a; cbn [dispatch]; intros Hd.
  - unfold home in Hd. outcome_cases; auto.
  - unfold register, insert_user in Hd. outcome_cases; auto. right; right; left; eauto.
  - unfold login in Hd. outcome_cases; auto; right; right; right; do 4 eexists;
      repeat split; eassumption || reflexivity.
  - unfold add_transaction in Hd. outcome_cases; auto. destruct (insert_tx _ _).
    injection Hd as _ <- _. auto.
  - unfold dashboard in Hd. outcome_cases; auto.
  - unfold logout in Hd. injection Hd as _ <- _. auto.
  - unfold view_transactions in Hd. outcome_cases; auto.
  - unfold edit_transaction in Hd. outcome_cases; auto.
  - unfold delete_transaction in Hd. outcome_cases; auto.
Qed.
(** C4: a request changes a client's session to a user [uid] it did not
    name only in two ways: a registration, which creates [uid] as the
    next rowid, or a login with the email of user [uid] and a password
    that [check_password_hash] accepts against that user's stored hash.
    A failed exception (400 or 500) leaves the session as it was. *)
Theorem session_only_by_credentials (db : Db A) s a db' s' r uid :
  handle parse_float hasher db s a = (db', s', r) ->
  s'.(sess_user) = Some uid -> s.(sess_user) <> Some uid ->
  (exists rq rnd, a = ARegister rq rnd /\ uid = next_rowid (map user_id db.(db_users)))
  \/ (exists rq e q u, a = ALogin rq /\ form_req rq "email" = PyOk e
        /\ form_req rq "password" = PyOk q /\ user_by_email db e = Some u /\ u.(user_id) = uid
        /\ hasher.(check_password_hash) u.(user_password) q = PyOk true).
Proof.
  unfold handle, run. intros Hh Hu Hne.
  destruct (dispatch parse_float hasher db s a) as [[[db1 s1] r1]|e] eqn:Hd;
    injection Hh as <- <- <-; [|contradiction].
  destruct (dispatch_session db s a db1 s1 r1 Hd)
    as [Hs|[Hs|[(rq & rnd & -> & Hs)|(rq & e & q & u & -> & He & Hq & Hb & Hs & Hc)]]];
    rewrite Hu in Hs.
  - symmetry in Hs. contradiction.
  - discriminate.
  - left. injection Hs as ->. eauto.
  - right. injection Hs as Hid. exists rq, e, q, u. repeat split; auto.
Qed.

(** C8: a client whose session names no user changes nothing in the
    store, whatever it requests, except by registering: every handler
    that writes checks [session['user_id']] first. *)
Theorem anonymous_cannot_write (db : Db A) s a db' s' r :
  s.(sess_user) = None -> (forall rq rnd, a <> ARegister rq rnd) ->
  handle parse_float hasher db s a = (db', s', r) -> db' = db.
Proof.
  unfold handle, run. intros Hs Hreg Hh.
  destruct (dispatch parse_float hasher db s a) as [[[db1 s1] r1]|e] eqn:Hd;
    injection Hh as <- _ _; [|reflexivity].
  destruct a; cbn [dispatch] in Hd;
    [ unfold home in Hd | destruct (Hreg rq rnd eq_refl) | unfold login in Hd
    | unfold add_transaction in Hd | unfold dashboard in Hd | unfold logout in Hd
    | unfold view_transactions in Hd | unfold edit_transaction in Hd
    | unfold delete_transaction in Hd ];
    rewrite ?Hs in Hd; outcome_cases; reflexivity.
Qed.

(** A registration with matching passwords and a new email stores one
    user with the next rowid, the form's name and email and the hash of
    the password, sets [session['user_id']] without making the session
    permanent (only [login] sets [session.permanent]), and redirects to the
    login page. *)
Theorem register_creates_user (db : Db A) s rq rnd name e p hp :
  rq.(rq_method) = POST ->
  form_req rq "name" = PyOk name -> form_req rq "email" = PyOk e ->
  form_req rq "password" = PyOk p -> form_req rq "confirm_password" = PyOk p ->
  user_by_email db e = None -> hasher.(generate_password_hash) rnd p = PyOk hp ->
  register hasher db s rq rnd
  = PyOk (mk_db (db.(db_users) ++ [mk_user (next_rowid (map user_id db.(db_users))) (Some name) e
                                      hp]) db.(db_txs),
          mk_session (Some (next_rowid (map user_id db.(db_users)))) s.(sess_permanent),
          redirect [("Registration successful! You are now logged in.", "success")] RLogin).
Proof.
  intros Hm Hn He Hp Hq Hb Hg. unfold register. rewrite Hm, Hn, He, Hp, Hq. cbn [py_bind].
  rewrite String.eqb_refl, Hb, Hg. reflexivity.
Qed.
(** A successful login redirects to the home page when the user has
    no transaction yet and to the dashboard otherwise, with the flash
    ['Login successful!']. *)
Theorem login_redirect_by_history (db : Db A) s rq e u rnd p :
  HasherLaws hasher -> rq.(rq_method) = POST ->
  form_req rq "email" = PyOk e -> form_req rq "password" = PyOk p ->
  user_by_email db e = Some u ->
  hasher.(generate_password_hash) rnd p = PyOk u.(user_password) ->
  login hasher db s rq
  = PyOk (db, mk_session (Some u.(user_id)) true,
          redirect [("Login successful!", "success")]
            (match txs_of_user db u.(user_id) with [] => RHome | _ :: _ => RDashboard end)).
Proof.
  intros Hlaws Hm He Hp Hu Hpw. unfold login. rewrite Hm, He, Hp. cbn [py_bind].
  rewrite Hu, (check_generated hasher Hlaws rnd p _ Hpw).
  destruct (txs_of_user db (user_id u)); reflexivity.
Qed.

(** Editing or deleting an id that is not in the store answers 404
    and changes nothing, for any logged-in client and any form. *)
Theorem missing_transaction_not_found (db : Db A) s uid rq id :
  s.(sess_user) = Some uid -> tx_get db id = None ->
  handle parse_float hasher db s (AEditTransaction rq id) = (db, s, mk_reply [] (HttpError 404))
  /\ handle parse_float hasher db s (ADeleteTransaction id) = (db, s, mk_reply [] (HttpError 404)).
Proof.
  intros Hs Ht. unfold handle, run, dispatch, edit_transaction, delete_transaction.
  rewrite Hs, Ht. split; reflexivity.
Qed.
End HandlerTheorems.

(** ** Concrete instances for the witnesses *)

(** [float()] on the strings of an optional minus sign and decimal digits,
    with amounts in whole units. *)
Fixpoint digits_value (l : list ascii) (acc : Z) : option Z :=
  match l with
  | [] => Some acc
  | c :: r => if is_digit c then digits_value r (10 * acc + digit_val c)%Z else None
  end.

Definition parse_int_amount (s : string) : option Z :=
  match list_ascii_of_string s with
  | [] => None
  | c :: r =>
      if Ascii.eqb c "-"%char
      then match r with [] => None | _ => option_map Z.opp (digits_value r 0%Z) end
      else digits_value (c :: r) 0%Z
  end.

(** A hasher that keeps the password: enough to exercise the handlers. *)
Definition plain_hasher : Hasher := mk_hasher (fun _ p => PyOk p) (fun h p => PyOk (String.eqb h p)).

Lemma plain_hasher_laws : HasherLaws plain_hasher.
Proof.
  split; simpl.
  - intros rnd p hp H. injection H as <-. f_equal. apply String.eqb_refl.
  - intros rnd p q hp H Hne. injection H as <-. f_equal. apply String.eqb_neq, Hne.
Qed.

Definition post (form : list (string * string)) : Request := mk_request POST form [].

Definition alice : User := mk_user 1 (Some "Alice") "alice@example.com" "pw".

Definition alice_db : Db Z :=
  mk_db [alice]
    [mk_transaction 1 "income" "salary" 100%Z (midnight 2024 1 5) (Some "") 1 (Some "Cash")].

(** ** Witnesses *)

Lemma login_checks_password_witness :
  login plain_hasher alice_db empty_session
    (post [("email", "alice@example.com"); ("password", "guess")])
  = PyOk (alice_db, empty_session,
           mk_reply [("Invalid email or password", "danger")] (Render PLogin)).
Proof.
  apply (login_checks_password plain_hasher alice_db empty_session
           (post [("email", "alice@example.com"); ("password", "guess")]) "alice@example.com" "guess"
           alice (fun _ => 0) "pw" plain_hasher_laws eq_refl eq_refl eq_refl eq_refl eq_refl).
  discriminate.
Defined.


Definition alice_login : Request := post [("email", "alice@example.com"); ("password", "pw")].

Lemma session_only_by_credentials_witness :
  (exists rq rnd, ALogin alice_login = ARegister rq rnd
                   /\ 1 = next_rowid (map user_id alice_db.(db_users)))
  \/ (exists rq e q u, ALogin alice_login = ALogin rq /\ form_req rq "email" = PyOk e
        /\ form_req rq "password" = PyOk q /\ user_by_email alice_db e = Some u /\ u.(user_id) = 1
        /\ plain_hasher.(check_password_hash) u.(user_password) q = PyOk true).
Proof.
  apply (session_only_by_credentials parse_int_amount plain_hasher alice_db empty_session
           (ALogin alice_login) alice_db (mk_session (Some 1) true)
           (redirect [("Login successful!", "success")] RDashboard) 1);
    [reflexivity | reflexivity | discriminate].
Defined.

(** Alice adds a row, then edits row 1, both with the type [" Income"]. *)
Lemma type_normalised_by_add_only_witness :
  (exists db1 t1, add_transaction parse_int_amount alice_db (mk_session (Some 1) true)
                    (post [("type", " Income"); ("date", "2024-03-01"); ("amount", "5")])
                  = PyOk (db1, mk_session (Some 1) true,
                          redirect [("Transaction added successfully!", "success")] RDashboard)
     /\ In t1 (txs_of_user db1 1) /\ t1.(tx_amount) = 5%Z /\ is_income t1 = true)
  /\ (exists db2 t2 r, edit_transaction parse_int_amount alice_db (mk_session (Some 1) true)
                         (post [("type", " Income"); ("category", "salary"); ("note", ""); ("amount", "100")]) 1
                       = PyOk (db2, mk_session (Some 1) true, r)
     /\ tx_get db2 1 = Some t2 /\ t2.(tx_amount) = 100%Z
     /\ is_income t2 = false /\ is_expense t2 = false /\ balance_step 0%Z t2 = (-100)%Z).
Proof.
  exact (type_normalised_by_add_only parse_int_amount alice_db (mk_session (Some 1) true)
           (post [("type", " Income"); ("date", "2024-03-01"); ("amount", "5")])
           (post [("type", " Income"); ("category", "salary"); ("note", ""); ("amount", "100")])
           1 alice " Income" (midnight 2024 3 1) 5%Z 1
           (mk_transaction 1 "income" "salary" 100%Z (midnight 2024 1 5) (Some "") 1 (Some "Cash"))
           "salary" "" "100" 100%Z 0%Z
           eq_refl eq_refl ltac:(vm_compute; reflexivity) ltac:(vm_compute; discriminate)
           ltac:(vm_compute; discriminate) eq_refl ltac:(vm_compute; reflexivity)
           ltac:(vm_compute; reflexivity) eq_refl ltac:(vm_compute; reflexivity)
           ltac:(vm_compute; reflexivity) eq_refl ltac:(vm_compute; reflexivity)
           ltac:(vm_compute; reflexivity) ltac:(vm_compute; reflexivity)
           ltac:(vm_compute; reflexivity) ltac:(vm_compute; reflexivity) eq_refl).
Defined.

Lemma anonymous_cannot_write_witness :
  fst (fst (handle parse_int_amount plain_hasher alice_db empty_session (ADeleteTransaction 1)))
  = alice_db.
Proof.
  destruct (handle _ _ _ _ _) as [[db' s'] r] eqn:Hh.
  exact (anonymous_cannot_write parse_int_amount plain_hasher alice_db empty_session
           (ADeleteTransaction 1) db' s' r eq_refl (fun rq rnd => ltac:(discriminate)) Hh).
Defined.


