(* ===== verification/Reach.v ===== *)
(** The application as a state machine.  A world is the store and the
    session of every client (clients are numbered; each starts with an
    empty cookie).  A step is one request of one client, handled by the
    URL map of [App.v]: the store and that client's session change, the
    others' do not.  A client may also lose its cookie (a new browser, or
    a cookie older than [permanent_session_lifetime]; [Expiry.v] adds the
    clock and shows that its runs are runs of this model).  Sessions are
    only those the server issued: cookies signed by anyone else with the
    constant [secret_key] are not modelled.

    The invariant [world_inv] of every reachable world: the store is
    well formed ([Store.db_wf]: distinct ids and emails, every transaction
    owned by an existing user) and every session's [user_id] names an
    existing user.  It is proved by induction on reachability
    ([reachable_ind_inv]), one lemma per handler that writes; the same
    lemmas show that users are kept along any run. *)

From Stdlib Require Import Bool Arith ZArith Lia String List Relation_Operators.
From S2P Require Import Prelude Num PyStr StableSort Dates Models Dashboard Store App.
Import ListNotations.
Local Open Scope string_scope.

Section World.
Context {A : Type} `{Num A} (parse_float : string -> option A) (hasher : Hasher).

Record World := mk_world {
  w_db : Db A;
  w_sess : nat -> Session
}.

Definition init_world : World := mk_world empty_db (fun _ => empty_session).

(** The cookie of client [c] is replaced. *)
Definition set_sess (f : nat -> Session) (c : nat) (s : Session) : nat -> Session :=
  fun c' => if Nat.eqb c' c then s else f c'.

Inductive step : World -> World -> Prop :=
| step_request w c a db' s' r :
    handle parse_float hasher w.(w_db) (w.(w_sess) c) a = (db', s', r) ->
    step w (mk_world db' (set_sess w.(w_sess) c s'))
| step_drop_cookie w c :
    step w (mk_world w.(w_db) (set_sess w.(w_sess) c empty_session)).

Inductive reachable : World -> Prop :=
| reach_init : reachable init_world
| reach_step w w' : reachable w -> step w w' -> reachable w'.

(** A session names an existing user, if any. *)
Definition session_ok (db : Db A) (s : Session) : Prop :=
  forall uid, s.(sess_user) = Some uid -> exists u, user_get db uid = Some u.

(** Every user found before is found after. *)
Definition users_kept (db db' : Db A) : Prop :=
  forall uid u, user_get db uid = Some u -> user_get db' uid = Some u.

Definition world_inv (w : World) : Prop :=
  db_wf w.(w_db) /\ forall c, session_ok w.(w_db) (w.(w_sess) c).

(** ** Per-handler lemmas *)

Lemma users_kept_refl db : users_kept db db.
Proof. intros uid u H0. exact H0. Qed.

Lemma users_kept_same_users (db db' : Db A) :
  db'.(db_users) = db.(db_users) -> users_kept db db'.
Proof. intros Hu uid u. unfold user_get. rewrite Hu. auto. Qed.

Lemma session_ok_kept db db' s : users_kept db db' -> session_ok db s -> session_ok db' s.
Proof. intros Hk Hs uid Huid. destruct (Hs uid Huid) as [u Hu]. eauto. Qed.

Lemma session_ok_empty db : session_ok db empty_session.
Proof. intros uid H0. discriminate. Qed.

Lemma session_ok_logout db s : session_ok db (mk_session None s.(sess_permanent)).
Proof. intros uid H0. discriminate. Qed.

(** The conclusion every handler establishes. *)
Definition preserved (db : Db A) (s : Session) (db' : Db A) (s' : Session) : Prop :=
  db_wf db' /\ session_ok db' s' /\ users_kept db db'.

Lemma preserved_same db s : db_wf db -> session_ok db s -> preserved db s db s.
Proof. intros Hwf Hs. split; [exact Hwf | split; [exact Hs | apply users_kept_refl]]. Qed.

Lemma register_preserves db s rq rnd db' s' r :
  db_wf db -> session_ok db s -> register hasher db s rq rnd = PyOk (db', s', r) ->
  preserved db s db' s'.
Proof.
  intros Hwf Hs Hr. unfold register in Hr. outcome_cases; try (apply preserved_same; assumption).
  lazymatch type of Hr with
  | context [insert_user db ?nm ?em ?pw] =>
      pose proof (insert_user_get db nm em pw (wf_user_ids db Hwf)) as Hget;
      pose proof (insert_user_wf db nm em pw Hwf ltac:(assumption)) as Hwf1;
      pose proof (fun uid v => user_get_insert_user db nm em pw uid v) as Hk;
      destruct (insert_user db nm em pw) as [db1 u]; simpl in Hget, Hwf1, Hk
  end.
  injection Hr as <- <- <-. split; [exact Hwf1|split; [|exact Hk]].
  intros uid Huid. injection Huid as <-. eauto.
Qed.

Lemma login_preserves db s rq db' s' r :
  db_wf db -> session_ok db s -> login hasher db s rq = PyOk (db', s', r) ->
  preserved db s db' s'.
Proof.
  intros Hwf Hs Hr. unfold login in Hr. outcome_cases; try (apply preserved_same; assumption);
    (split; [exact Hwf | split; [|apply users_kept_refl]]);
    intros uid Huid; injection Huid as <-;
    match goal with Hb : user_by_email _ _ = Some ?u |- _ =>
      exists u; apply user_by_email_some in Hb as [Hin _] end;
    apply user_get_in; auto using wf_user_ids.
Qed.

Lemma add_transaction_preserves db s rq db' s' r :
  db_wf db -> session_ok db s -> add_transaction parse_float db s rq = PyOk (db', s', r) ->
  preserved db s db' s'.
Proof.
  intros Hwf Hs Hr. unfold add_transaction in Hr. outcome_cases; try (apply preserved_same; assumption).
  lazymatch type of Hr with
  | context [insert_tx db ?mk] =>
      assert (Hwf1 : db_wf (fst (insert_tx db mk)));
      [apply insert_tx_wf; [exact Hwf | reflexivity |]
      | destruct (insert_tx db mk) as [db1 t] eqn:Hins]
  end.
  - match goal with Hu : user_get db ?uid = Some ?u |- _ =>
      apply user_get_some in Hu as [Hin Hid]; exists u; split; [exact Hin | exact Hid] end.
  - injection Hr as <- <- <-. simpl in Hwf1.
    assert (Hk : users_kept db db1)
      by (apply users_kept_same_users; unfold insert_tx in Hins; injection Hins as <- _; reflexivity).
    split; [exact Hwf1 | split; [apply (session_ok_kept db); assumption | exact Hk]].
Qed.

Lemma edit_transaction_preserves db s rq id db' s' r :
  db_wf db -> session_ok db s -> edit_transaction parse_float db s rq id = PyOk (db', s', r) ->
  preserved db s db' s'.
Proof.
  intros Hwf Hs Hr. unfold edit_transaction in Hr.
  outcome_cases; try (apply preserved_same; assumption).
  lazymatch goal with
  | |- preserved _ _ (update_tx db id ?f) _ =>
      assert (Hk : users_kept db (update_tx db id f)) by (apply users_kept_same_users; reflexivity);
      split; [apply update_tx_wf; [exact Hwf | intros t0; split; reflexivity]|];
      split; [apply (session_ok_kept db); assumption | exact Hk]
  end.
Qed.

Lemma delete_transaction_preserves db s id db' s' r :
  db_wf db -> session_ok db s -> delete_transaction db s id = PyOk (db', s', r) ->
  preserved db s db' s'.
Proof.
  intros Hwf Hs Hr. unfold delete_transaction in Hr.
  outcome_cases; try (apply preserved_same; assumption).
  assert (Hk : users_kept db (delete_tx db id)) by (apply users_kept_same_users; reflexivity).
  split; [apply delete_tx_wf, Hwf|].
  split; [apply (session_ok_kept db); assumption | exact Hk].
Qed.

Lemma dispatch_preserves db s a db' s' r :
  db_wf db -> session_ok db s -> dispatch parse_float hasher db s a = PyOk (db', s', r) ->
  preserved db s db' s'.
Proof.
  intros Hwf Hs. destruct a; cbn [dispatch].
  - unfold home. intros Hr. outcome_cases; apply preserved_same; assumption.
  - apply register_preserves; assumption.
  - apply login_preserves; assumption.
  - apply add_transaction_preserves; assumption.
  - unfold dashboard. intros Hr. outcome_cases; apply preserved_same; assumption.
  - unfold logout. intros Hr. injection Hr as <- <- <-.
    split; [exact Hwf | split; [apply session_ok_logout | apply users_kept_refl]].
  - unfold view_transactions. intros Hr. outcome_cases; apply preserved_same; assumption.
  - apply edit_transaction_preserves; assumption.
  - apply delete_transaction_preserves; assumption.
Qed.

Lemma step_preserves w w' : world_inv w -> step w w' -> world_inv w'.
Proof.
  intros [Hwf Hs] Hst. destruct Hst as [w c a db' s' r Hh | w c].
  - unfold handle, run in Hh. destruct (dispatch parse_float hasher _ _ a) as [[[db1 s1] r1]|e] eqn:Hd.
    + injection Hh as -> -> ->.
      destruct (dispatch_preserves _ _ _ _ _ _ Hwf (Hs c) Hd) as (Hwf' & Hs' & Hk).
      split; [exact Hwf'|]. intros c'. simpl. unfold set_sess.
      destruct (Nat.eqb c' c); [exact Hs' | apply (session_ok_kept (w_db w)); auto].
    + injection Hh as <- <- <-. split; [exact Hwf|]. intros c'. simpl. unfold set_sess.
      destruct (Nat.eqb c' c) eqn:Hc; [apply Nat.eqb_eq in Hc; subst; apply Hs | apply Hs].
  - split; [exact Hwf|]. intros c'. simpl. unfold set_sess.
    destruct (Nat.eqb c' c); [apply session_ok_empty | apply Hs].
Qed.

Lemma init_world_inv : world_inv init_world.
Proof.
  split; [split; simpl; try constructor; intros t []|]. intros c. apply session_ok_empty.
Qed.

(** Every stored password is a hash the hasher generated. *)
Definition passwords_hashed (db : Db A) : Prop :=
  forall u, In u db.(db_users) -> exists rnd p, hasher.(generate_password_hash) rnd p = PyOk u.(user_password).

Lemma passwords_hashed_same (db db' : Db A) :
  db'.(db_users) = db.(db_users) -> passwords_hashed db -> passwords_hashed db'.
Proof. intros Hu Hp u Hin. rewrite Hu in Hin. apply Hp, Hin. Qed.

Lemma dispatch_passwords_hashed db s a db' s' r :
  passwords_hashed db -> dispatch parse_float hasher db s a = PyOk (db', s', r) ->
  passwords_hashed db'.
Proof.
  intros Hp. destruct a; cbn [dispatch];
    unfold home, register, login, add_transaction, dashboard, logout, view_transactions,
      edit_transaction, delete_transaction;
    intros Hr; outcome_cases; try (apply (passwords_hashed_same db); [reflexivity | exact Hp]).
  - (* register: the new row's password is the generated hash *)
    unfold insert_user in Hr. cbn in Hr. injection Hr as <- _ _.
    intros u Hin. apply in_app_or in Hin as [Hin|[<-|[]]]; [apply Hp, Hin | simpl; eauto].
  - (* add_transaction *)
    unfold insert_tx in Hr. cbn in Hr. injection Hr as <- _ _.
    apply (passwords_hashed_same db); [reflexivity | exact Hp].
Qed.

Lemma step_passwords_hashed w w' :
  passwords_hashed w.(w_db) -> step w w' -> passwords_hashed w'.(w_db).
Proof.
  intros Hp Hst. destruct Hst as [w c a db' s' r Hh | w c]; simpl; [|exact Hp].
  unfold handle, run in Hh. destruct (dispatch parse_float hasher _ _ a) as [[[db1 s1] r1]|e] eqn:Hd.
  - injection Hh as <- _ _. eapply dispatch_passwords_hashed; eauto.
  - injection Hh as <- _ _. exact Hp.
Qed.






(** Rule induction on runs: a property of the fresh world that every
    step keeps holds in every reachable world. *)
Lemma reachable_ind_inv (P : World -> Prop) :
  P init_world -> (forall w w', P w -> step w w' -> P w') -> forall w, reachable w -> P w.
Proof. intros H0 Hs w Hr. induction Hr; eauto. Qed.

Lemma reachable_session_ok w c : reachable w -> session_ok w.(w_db) (w.(w_sess) c).
Proof.
  intros Hr. apply (proj2 (reachable_ind_inv world_inv init_world_inv step_preserves w Hr)).
Qed.

Lemma step_users_kept w w' : world_inv w -> step w w' -> users_kept w.(w_db) w'.(w_db).
Proof.
  intros [Hwf Hs] Hst. destruct Hst as [w c a db' s' r Hh | w c]; simpl; [|apply users_kept_refl].
  unfold handle, run in Hh. destruct (dispatch parse_float hasher _ _ a) as [[[db1 s1] r1]|e] eqn:Hd.
  - injection Hh as -> _ _. exact (proj2 (proj2 (dispatch_preserves _ _ _ _ _ _ Hwf (Hs c) Hd))).
  - injection Hh as <- _ _. apply users_kept_refl.
Qed.

(** ** Theorems *)

(** In every reachable world the [password] column of every user holds
    a value that [generate_password_hash] produced (from some rnd and
    password); the handlers never store what the client typed as is. *)
Theorem reachable_passwords_hashed w : reachable w -> passwords_hashed w.(w_db).
Proof.
  apply (reachable_ind_inv (fun w => passwords_hashed w.(w_db))); [intros u [] | exact step_passwords_hashed].
Qed.


(** C3: in every reachable world the store is well formed (user ids,
    emails and transaction ids are distinct, every transaction belongs to
    an existing user) and every client's session names an existing
    user. *)
Theorem reachable_invariant w : reachable w -> world_inv w.
Proof.
  apply reachable_ind_inv; [exact init_world_inv | exact step_preserves].
Qed.

(** A user row, once in the store of a reachable world, is found
    unchanged (name, email, password hash) in every world a run of
    requests and lost cookies reaches from there: no handler updates or
    deletes users. *)
Theorem users_never_change w w' uid u :
  reachable w -> clos_refl_trans_1n World step w w' ->
  user_get w.(w_db) uid = Some u -> user_get w'.(w_db) uid = Some u.
Proof.
  intros Hr Hrun. revert Hr. induction Hrun as [w|w w1 w' Hst _ IH]; intros Hr Hu; [exact Hu|].
  apply IH; [exact (reach_step w w1 Hr Hst)|].
  apply (step_users_kept w w1); [|exact Hst|exact Hu].
  exact (reachable_ind_inv world_inv init_world_inv step_preserves w Hr).
Qed.

(** In a reachable world [home] never raises: a logged-in client's
    user exists, so [user.id] is defined. *)
Theorem home_never_fails w c :
  reachable w -> exists r, home w.(w_db) (w.(w_sess) c) = PyOk (w.(w_db), w.(w_sess) c, r).
Proof.
  intros Hr. pose proof (reachable_session_ok w c Hr) as Hs. unfold home.
  destruct (sess_user (w_sess w c)) as [uid|] eqn:Hu; [|eauto].
  destruct (Hs uid Hu) as [u Hget]. rewrite Hget. eauto.
Qed.

(** In a reachable world [dashboard] raises only when [filter_date]
    does not parse, and then with [strptime]'s error. *)
Theorem dashboard_fails_only_on_filter w c rq y e :
  reachable w ->
  dashboard w.(w_db) (w.(w_sess) c) rq y = PyErr e ->
  parse_filter (args_get rq "filter_date") = PyErr e.
Proof.
  intros Hr. pose proof (reachable_session_ok w c Hr) as Hs. unfold dashboard.
  destruct (sess_user (w_sess w c)) as [uid|] eqn:Hu; [|discriminate].
  destruct (Hs uid Hu) as [u Hget]. rewrite Hget.
  destruct (dashboard_view _ _ _) as [v|e'] eqn:Hv; cbn [py_bind]; [discriminate|].
  intros He. injection He as <-. exact (dashboard_view_raise _ _ _ _ Hv).
Qed.

(** The run of the ownership counterexample: client 0 registers as user 1
    and records a transaction; client 1 registers as user 2. *)
Definition gap_db1 (h1 : string) : Db A :=
  mk_db [mk_user 1 (Some "A") "a@x" h1] [].

Definition gap_db2 (a : A) (h1 : string) : Db A :=
  mk_db (gap_db1 h1).(db_users)
    [mk_transaction 1 "income" "" a (midnight 2024 1 5) (Some "") 1 (Some "")].

Definition gap_db3 (a : A) (h1 h2 : string) : Db A :=
  mk_db ((gap_db1 h1).(db_users) ++ [mk_user 2 (Some "B") "b@x" h2])
    (gap_db2 a h1).(db_txs).

Definition gap_sess0 : Session := mk_session (Some 1) false.
Definition gap_sess1 : Session := mk_session (Some 2) false.

Definition signup (name email pw : string) : Request :=
  post [("name", name); ("email", email); ("password", pw); ("confirm_password", pw)].

Definition income_form : Request :=
  post [("type", "income"); ("date", "2024-01-05"); ("amount", "100")].

Lemma gap_reachable a h1 h2 :
  parse_float "100" = Some a -> num_null a = false ->
  hasher.(generate_password_hash) (fun _ => 1) "pw" = PyOk h1 ->
  hasher.(generate_password_hash) (fun _ => 2) "qw" = PyOk h2 ->
  reachable (mk_world (gap_db3 a h1 h2)
               (set_sess (set_sess (set_sess (fun _ => empty_session) 0 gap_sess0) 0 gap_sess0)
                  1 gap_sess1)).
Proof.
  intros Hp Hn Hg1 Hg2.
  eapply reach_step; [eapply reach_step; [eapply reach_step; [apply reach_init|]|]|].
  - apply (step_request init_world 0 (ARegister (signup "A" "a@x" "pw") (fun _ => 1)) (gap_db1 h1) gap_sess0
             (redirect [("Registration successful! You are now logged in.", "success")] RLogin)).
    unfold handle, run, dispatch, register. cbn -[generate_password_hash]. rewrite Hg1. reflexivity.
  - apply (step_request (mk_world (gap_db1 h1) (set_sess (fun _ => empty_session) 0 gap_sess0)) 0
             (AAddTransaction income_form) (gap_db2 a h1) gap_sess0
             (redirect [("Transaction added successfully!", "success")] RDashboard)).
    unfold handle, run, dispatch, add_transaction. cbv zeta.
    change (py_strip (form_get income_form "amount" "0")) with "100". rewrite Hp. cbv zeta. unfold commit_amount. rewrite Hn. reflexivity.
  - apply (step_request (mk_world (gap_db2 a h1) (set_sess (set_sess (fun _ => empty_session) 0 gap_sess0)
             0 gap_sess0)) 1 (ARegister (signup "B" "b@x" "qw") (fun _ => 2)) (gap_db3 a h1 h2) gap_sess1
             (redirect [("Registration successful! You are now logged in.", "success")] RLogin)).
    unfold handle, run, dispatch, register. cbn -[generate_password_hash]. rewrite Hg2. reflexivity.
Qed.

(** C6: the missing ownership check is reachable: in a world the
    application reaches, client 1, logged in as user 2, deletes
    transaction 1, which belongs to user 1. *)
Theorem delete_other_users_transaction a h1 h2 :
  parse_float "100" = Some a -> num_null a = false ->
  hasher.(generate_password_hash) (fun _ => 1) "pw" = PyOk h1 ->
  hasher.(generate_password_hash) (fun _ => 2) "qw" = PyOk h2 ->
  exists w, reachable w
    /\ w.(w_sess) 1 = gap_sess1 /\ gap_sess1.(sess_user) = Some 2
    /\ (exists t, tx_get w.(w_db) 1 = Some t /\ t.(tx_user_id) = 1)
    /\ exists r, handle parse_float hasher w.(w_db) (w.(w_sess) 1) (ADeleteTransaction 1)
                 = (delete_tx w.(w_db) 1, w.(w_sess) 1, r)
       /\ tx_get (delete_tx w.(w_db) 1) 1 = None.
Proof.
  intros Hp Hn Hg1 Hg2. eexists. split; [apply (gap_reachable a h1 h2 Hp Hn Hg1 Hg2)|].
  split; [reflexivity|]. split; [reflexivity|]. split; [eexists; split; reflexivity|].
  eexists. split; reflexivity.
Qed.
(** C12: no user is ever locked out: in every reachable world, any
    client can get a permanent session as any stored user with one login
    request carrying that user's email and the password its hash was
    generated from; the store is left as it is. *)
Theorem users_can_always_log_in w u c :
  HasherLaws hasher -> reachable w -> In u w.(w_db).(db_users) ->
  exists p (r : @Reply A),
    handle parse_float hasher w.(w_db) (w.(w_sess) c)
      (ALogin (post [("email", u.(user_email)); ("password", p)]))
    = (w.(w_db), mk_session (Some u.(user_id)) true, r)
    /\ step w (mk_world w.(w_db) (set_sess w.(w_sess) c (mk_session (Some u.(user_id)) true))).
Proof.
  intros Hlaws Hr Hin.
  assert (Hp : passwords_hashed w.(w_db))
    by (apply (reachable_ind_inv (fun w => passwords_hashed w.(w_db))); [intros u' [] | exact step_passwords_hashed | exact Hr]).
  destruct (Hp u Hin) as (rnd & p & Hg).
  destruct (reachable_ind_inv world_inv init_world_inv step_preserves w Hr) as [Hwf _].
  assert (Hl : exists r : @Reply A, handle parse_float hasher w.(w_db) (w.(w_sess) c)
                 (ALogin (post [("email", u.(user_email)); ("password", p)]))
               = (w.(w_db), mk_session (Some u.(user_id)) true, r)).
  { assert (He : form_req (post [("email", u.(user_email)); ("password", p)]) "email" = PyOk u.(user_email))
      by reflexivity.
    assert (Hq : form_req (post [("email", u.(user_email)); ("password", p)]) "password" = PyOk p)
      by reflexivity.
    unfold handle, run, dispatch, login. cbn [rq_method post]. rewrite He, Hq. cbn [py_bind].
    rewrite (user_by_email_in _ _ (wf_emails _ Hwf) Hin), (check_generated hasher Hlaws rnd p _ Hg).
    cbn [py_bind]. destruct (Nat.eqb _ 0); eexists; reflexivity. }
  destruct Hl as [r Hl]. exists p, r. split; [exact Hl|].
  exact (step_request w c _ _ _ r Hl).
Qed.

End World.

(** ** Witnesses, on the run of [gap_reachable] with the concrete
    instances of [App.v]. *)

Definition gap_world : World :=
  mk_world (gap_db3 100%Z "pw" "qw")
    (set_sess (set_sess (set_sess (fun _ => empty_session) 0 gap_sess0) 0 gap_sess0) 1 gap_sess1).

Lemma gap_world_reachable : reachable parse_int_amount plain_hasher gap_world.
Proof. apply gap_reachable; reflexivity. Qed.


Lemma reachable_invariant_witness : session_ok gap_world.(w_db) (gap_world.(w_sess) 1).
Proof.
  exact (proj2 (reachable_invariant parse_int_amount plain_hasher gap_world gap_world_reachable) 1).
Defined.



Lemma users_can_always_log_in_witness :
  exists p (r : @Reply Z),
    handle parse_int_amount plain_hasher gap_world.(w_db) (gap_world.(w_sess) 5)
      (ALogin (post [("email", "a@x"); ("password", p)]))
    = (gap_world.(w_db), mk_session (Some 1) true, r)
    /\ step parse_int_amount plain_hasher gap_world
         (mk_world gap_world.(w_db) (set_sess gap_world.(w_sess) 5 (mk_session (Some 1) true))).
Proof.
  exact (users_can_always_log_in parse_int_amount plain_hasher gap_world (mk_user 1 (Some "A") "a@x" "pw") 5
           plain_hasher_laws gap_world_reachable (or_introl eq_refl)).
Defined.

Lemma delete_other_users_transaction_witness :
  exists w, reachable parse_int_amount plain_hasher w /\ tx_get w.(w_db) 1 <> None.
Proof.
  destruct (@delete_other_users_transaction Z Num_Z parse_int_amount plain_hasher 100%Z "pw" "qw" eq_refl eq_refl eq_refl eq_refl)
    as (w & Hr & _ & _ & (t & Ht & _) & _).
  exists w. split; [exact Hr | rewrite Ht; discriminate].
Defined.
