(* ===== verification/Redirects.v ===== *)
(** Following redirects.  Every redirect of [src/app.py] is
    [redirect(url_for(...))], a 302 the browser follows with a [GET] of
    the endpoint, without form or query string.  [follow] runs that loop
    with fuel: the replies of the chain, or [None] when the fuel runs out
    before a page or an error.  The chains end: a [GET] of an endpoint
    renders, fails, or redirects to [login], whose [GET] renders, so two
    requests suffice and every chain has at most three replies
    ([redirects_terminate]); the [GET]s write nothing. *)

From Stdlib Require Import Bool Arith ZArith Lia String List.
From S2P Require Import Prelude Num PyStr StableSort Dates Models Dashboard Store App.
Import ListNotations.
Local Open Scope string_scope.

Section Redirects.
Context {A : Type} `{Num A} (parse_float : string -> option A) (hasher : Hasher).

(** The request a browser sends for a redirect. *)
Definition get_rq : Request := mk_request GET [] [].

(** The endpoint of [url_for(r)], requested with [GET]; [datetime.now()]
    of the dashboard is [current_year]. *)
Definition route_action (current_year : Z) (r : Route) : Action :=
  match r with
  | RHome => AHome
  | RRegister => ARegister get_rq (fun _ => 0)
  | RLogin => ALogin get_rq
  | RAddTransaction => AAddTransaction get_rq
  | RDashboard => ADashboard get_rq current_year
  | RViewTransactions => AViewTransactions
  end.

Definition is_redirect (r : @Reply A) : bool :=
  match r.(rp_response) with Redirect _ => true | _ => false end.

(** The browser's loop: follow the redirect of [r], at most [fuel] times;
    the final store and session and the replies of the chain. *)
Fixpoint follow (fuel : nat) (current_year : Z) (db : Db A) (s : Session) (r : @Reply A)
  : option (Db A * Session * list (@Reply A)) :=
  match r.(rp_response) with
  | Redirect rt =>
      match fuel with
      | 0 => None
      | S f =>
          let '(db', s', r') := handle parse_float hasher db s (route_action current_year rt) in
          option_map (fun '(db'', s'', rs) => (db'', s'', r :: rs)) (follow f current_year db' s' r')
      end
  | _ => Some (db, s, [r])
  end.

(** ** Lemmas *)

(** A [GET] of an endpoint writes nothing and answers a page, an error,
    or a redirect to [login]. *)
Lemma get_route (db : Db A) s y rt :
  exists r, handle parse_float hasher db s (route_action y rt) = (db, s, r)
    /\ (r.(rp_response) = Redirect RLogin \/ is_redirect r = false).
Proof.
  destruct rt; cbn [route_action]; unfold handle, run, dispatch.
  - unfold home. destruct (sess_user s); [destruct (user_get db _)|]; eexists; split; (reflexivity || auto).
  - eexists; split; [reflexivity | auto].
  - eexists; split; [reflexivity | auto].
  - unfold add_transaction. destruct (sess_user s); eexists; split; (reflexivity || auto).
  - unfold dashboard. destruct (sess_user s) as [uid|]; [|eexists; split; [reflexivity | auto]].
    destruct (user_get db uid) as [u|]; [|eexists; split; [reflexivity | auto]].
    unfold dashboard_view, today_income, today_expense. cbn [args_get get_rq rq_args dict_get].
    rewrite !(period_total_parsed _ None None _ eq_refl). destruct (monthly_totals _ _).
    eexists; split; [reflexivity | auto].
  - unfold view_transactions. destruct (sess_user s); [destruct (user_get db _)|];
      eexists; split; (reflexivity || auto).
Qed.

Lemma login_get (db : Db A) s : handle parse_float hasher db s (ALogin get_rq) = (db, s, render PLogin).
Proof. reflexivity. Qed.

(** A page or an error ends the chain, whatever the fuel. *)
Lemma follow_final fuel y (db : Db A) s r :
  is_redirect r = false -> follow fuel y db s r = Some (db, s, [r]).
Proof.
  unfold is_redirect. intros Hr. destruct fuel; cbn [follow];
    destruct (rp_response r); (discriminate || reflexivity).
Qed.

(** ** Theorems *)

(** C23: following redirects terminates: from any store, session and
    reply, the chain has at most three replies and ends in a page or an
    error, it writes nothing, and every fuel of at least 2 gives this same
    chain. *)
Theorem redirects_terminate (db : Db A) s r y :
  exists rs, length rs <= 3 /\ is_redirect (last rs r) = false
    /\ forall fuel, 2 <= fuel -> follow fuel y db s r = Some (db, s, rs).
Proof.
  destruct (rp_response r) as [rt| |] eqn:Hr;
    [|exists [r]; split; [cbn; lia|]; split; [cbn [last]; unfold is_redirect; rewrite Hr; reflexivity|];
      intros [|f] _; cbn [follow]; rewrite Hr; reflexivity ..].
  destruct (get_route db s y rt) as (r1 & Hh1 & [Hl|Hn]).
  - exists [r; r1; render PLogin]. split; [cbn; lia|]. split; [reflexivity|].
    intros [|[|f]] Hf; [lia | lia|]. cbn [follow]. rewrite Hr, Hh1, Hl.
    cbn [route_action]. rewrite login_get. cbv beta iota.
    rewrite (follow_final f y db s (render PLogin) eq_refl). reflexivity.
  - exists [r; r1]. split; [cbn; lia|]. split; [exact Hn|].
    intros [|[|f]] Hf; [lia | lia|]. cbn [follow]. rewrite Hr, Hh1.
    cbv beta iota. unfold is_redirect in Hn.
    destruct (rp_response r1); [discriminate | reflexivity ..].
Qed.
End Redirects.

(** ** Witness: an anonymous client sent to the login page. *)

Lemma redirects_terminate_witness :
  follow parse_int_amount plain_hasher 5 2024 empty_db empty_session please_log_in
  = Some (empty_db, empty_session, [please_log_in; render PLogin]).
Proof.
  destruct (redirects_terminate parse_int_amount plain_hasher empty_db empty_session please_log_in 2024)
    as (rs & _ & _ & Hf).
  rewrite (Hf 5 ltac:(lia)), <- (Hf 2 (le_n 2)). vm_compute. reflexivity.
Defined.
