(* ===== verification/Hash.v ===== *)
(** werkzeug's password hashing ([werkzeug/security.py], release 3), the
    library [register] and [login] of [src/app.py] call through
    [generate_password_hash] and [check_password_hash].  A stored hash is
    [method$salt$digest]: [method] names the key derivation and its
    parameters ([scrypt:32768:8:1] by default), [salt] is 16 characters
    drawn from [SALT_CHARS], [digest] the hex of the derived key.

    The two key derivations of OpenSSL, [hashlib.scrypt] and
    [hashlib.pbkdf2_hmac], are variables of the section: bytes in, bytes
    out or an exception.  Everything around them is written out:
    [str.split], [gen_salt], [str.encode] (UTF-8), [bytes.hex],
    [hmac.compare_digest] on two [str] and the method parsing of
    [_hash_internal].  [werkzeug_hasher] is the [Hasher] of [App.v]; it
    satisfies [HasherLaws] when scrypt never raises at the default
    parameters and never maps two passwords to the same key
    ([werkzeug_laws]). *)

From Stdlib Require Import Bool Arith ZArith Lia Ascii String List Strings.Byte DecimalString.
From S2P Require Import Prelude Num PyStr PyNum Models Store App.
Import ListNotations.
Local Open Scope string_scope.

(** ** [str.split(sep, maxsplit)] with a one-character separator *)

(** [maxsplit = None] is [-1], no limit. *)
Fixpoint split_on (sep : ascii) (maxsplit : option nat) (l : list ascii) : list (list ascii) :=
  match l with
  | [] => [[]]
  | c :: r =>
      if Ascii.eqb c sep then
        match maxsplit with
        | Some 0 => [l]
        | Some (S k) => [] :: split_on sep (Some k) r
        | None => [] :: split_on sep None r
        end
      else match split_on sep maxsplit r with
           | w :: ws => (c :: w) :: ws
           | [] => [[c]]
           end
  end.

Definition py_split (sep : ascii) (maxsplit : option nat) (s : string) : list string :=
  map string_of_list_ascii (split_on sep maxsplit (list_ascii_of_string s)).

(** [str(n)] for an [int]. *)
Definition py_str_int (n : Z) : string := NilZero.string_of_int (Z.to_int n).

(** ** Salt *)

Definition SALT_CHARS : string :=
  "abcdefghijklmnopqrstuvwxyzABCDEFGHIJKLMNOPQRSTUVWXYZ0123456789".

(** [gen_salt(length)]: [secrets.choice(SALT_CHARS)] [length] times, the
    [i]-th choice being [SALT_CHARS[rnd i mod 62]]. *)
Definition gen_salt (length : nat) (rnd : Draws) : py_result string :=
  match length with
  | 0 => PyErr (ValueError "Salt length must be at least 1.")
  | _ => PyOk (string_of_list_ascii
                 (map (fun i => nth (rnd i mod 62) (list_ascii_of_string SALT_CHARS) "a"%char)
                    (seq 0 length)))
  end.

(** ** Bytes *)

Definition byte_of (n : nat) : byte := byte_of_ascii (ascii_of_nat n).

(** [str.encode()], UTF-8, on the characters of the model (code points
    below 256: one byte below 128, two above). *)
Definition utf8_char (c : ascii) : list byte :=
  let n := nat_of_ascii c in
  if Nat.ltb n 128 then [byte_of n] else [byte_of (192 + n / 64); byte_of (128 + n mod 64)].

Definition encode (s : string) : list byte := flat_map utf8_char (list_ascii_of_string s).

Definition hex_digit (n : nat) : ascii := nth n (list_ascii_of_string "0123456789abcdef") "0"%char.

Definition hex_byte (b : byte) : list ascii :=
  [hex_digit (Byte.to_nat b / 16); hex_digit (Byte.to_nat b mod 16)].

(** [bytes.hex()] *)
Definition hex (bs : list byte) : string := string_of_list_ascii (flat_map hex_byte bs).

Definition is_ascii (s : string) : bool :=
  forallb (fun c => Nat.ltb (nat_of_ascii c) 128) (list_ascii_of_string s).

(** [hmac.compare_digest(a, b)] on two [str]: [TypeError] unless both are
    ASCII. *)
Definition compare_digest (a b : string) : py_result bool :=
  if is_ascii a && is_ascii b then PyOk (String.eqb a b)
  else PyErr (TypeError "comparing strings with non-ASCII characters is not supported").

(** The inverses the proofs use: [bytes.decode()] on the two forms
    [utf8_char] produces, and [bytes.fromhex]. *)
Fixpoint decode (l : list byte) : option (list ascii) :=
  match l with
  | [] => Some []
  | b :: r =>
      let n := Byte.to_nat b in
      if Nat.ltb n 128 then option_map (cons (ascii_of_nat n)) (decode r)
      else match r with
           | b2 :: r' =>
               if Nat.leb 192 n && Nat.ltb n 196
               then option_map (cons (ascii_of_nat ((n - 192) * 64 + (Byte.to_nat b2 - 128)))) (decode r')
               else None
           | [] => None
           end
  end.

Definition hex_val (c : ascii) : nat :=
  let n := nat_of_ascii c in if Nat.leb 97 n then n - 87 else n - 48.

Fixpoint unhex (l : list ascii) : list byte :=
  match l with
  | c1 :: c2 :: r => byte_of (16 * hex_val c1 + hex_val c2) :: unhex r
  | _ => []
  end.

(** No occurrence of [sep] in [l]. *)
Definition no_char (sep : ascii) (l : list ascii) : bool :=
  forallb (fun c => negb (Ascii.eqb c sep)) l.

(** ** Lemmas on strings, split, UTF-8 and hex *)

Lemma list_ascii_of_string_app (s1 s2 : string) :
  list_ascii_of_string (s1 ++ s2) = (list_ascii_of_string s1 ++ list_ascii_of_string s2)%list.
Proof. induction s1 as [|c s1 IH]; simpl; [reflexivity | rewrite IH; reflexivity]. Qed.

Lemma no_char_app sep l1 l2 : no_char sep (l1 ++ l2) = no_char sep l1 && no_char sep l2.
Proof. apply forallb_app. Qed.

Lemma split_on_nosep sep k w : no_char sep w = true -> split_on sep k w = [w].
Proof.
  induction w as [|c w IH]; simpl; [reflexivity|]. intros H. apply andb_prop in H as [H1 H2].
  apply negb_true_iff in H1. rewrite H1, (IH H2). reflexivity.
Qed.

(** The limit left after one cut. *)
Definition pred_max (k : option nat) : option nat := option_map pred k.

Lemma split_on_sep_app sep k w r :
  k <> Some 0 -> no_char sep w = true ->
  split_on sep k (w ++ sep :: r)%list = w :: split_on sep (pred_max k) r.
Proof.
  intros Hk. induction w as [|c w IH]; simpl; intros H.
  - rewrite Ascii.eqb_refl. destruct k as [[|k]|]; [contradiction Hk|..]; reflexivity.
  - apply andb_prop in H as [H1 H2]. apply negb_true_iff in H1. rewrite H1, (IH H2). reflexivity.
Qed.

Lemma split_on_zero sep l : split_on sep (Some 0) l = [l].
Proof.
  induction l as [|c l IH]; simpl; [reflexivity|].
  destruct (Ascii.eqb c sep); [reflexivity | rewrite IH; reflexivity].
Qed.

(** [split(sep, 2)] cuts at the first two separators. *)
Lemma split_on_3 sep m s h :
  no_char sep m = true -> no_char sep s = true ->
  split_on sep (Some 2) (m ++ sep :: s ++ sep :: h)%list = [m; s; h].
Proof.
  intros Hm Hs. rewrite split_on_sep_app by (discriminate || assumption). cbn [pred_max option_map pred].
  rewrite split_on_sep_app, split_on_zero by (discriminate || assumption). reflexivity.
Qed.

(** [split(sep, k)] returns one more piece than the separators it cuts at. *)
Lemma length_split_on sep k l :
  length (split_on sep (Some k) l) = S (Nat.min k (count_occ ascii_dec l sep)).
Proof.
  revert k. induction l as [|c l IH]; intros k; simpl; [rewrite Nat.min_0_r; reflexivity|].
  destruct (Ascii.eqb_spec c sep) as [->|Hne].
  - destruct (ascii_dec sep sep) as [_|[]]; [|reflexivity].
    destruct k as [|k]; simpl; [reflexivity | rewrite IH; reflexivity].
  - destruct (ascii_dec c sep) as [|_]; [contradiction|].
    specialize (IH k). destruct (split_on sep (Some k) l); [discriminate | exact IH].
Qed.

Lemma decode_utf8_char c r : decode (utf8_char c ++ r)%list = option_map (cons c) (decode r).
Proof. destruct c as [[] [] [] [] [] [] [] []]; reflexivity. Qed.

(** UTF-8 decoding undoes [str.encode()]. *)
Lemma decode_encode s : decode (encode s) = Some (list_ascii_of_string s).
Proof.
  unfold encode. induction (list_ascii_of_string s) as [|c l IH]; [reflexivity|].
  cbn [flat_map]. rewrite decode_utf8_char, IH. reflexivity.
Qed.

Lemma encode_inj s1 s2 : encode s1 = encode s2 -> s1 = s2.
Proof.
  intros H. rewrite <- (string_of_list_ascii_of_string s1), <- (string_of_list_ascii_of_string s2).
  f_equal. apply (f_equal decode) in H. rewrite !decode_encode in H. injection H as H. exact H.
Qed.

Lemma unhex_hex_byte b r : unhex (hex_byte b ++ r)%list = b :: unhex r.
Proof. destruct b; reflexivity. Qed.

Lemma hex_inj bs1 bs2 : hex bs1 = hex bs2 -> bs1 = bs2.
Proof.
  assert (Hu : forall bs, unhex (flat_map hex_byte bs) = bs).
  { induction bs as [|b bs IH]; [reflexivity|]. cbn [flat_map]. rewrite unhex_hex_byte, IH. reflexivity. }
  intros H. apply (f_equal (fun s => unhex (list_ascii_of_string s))) in H. unfold hex in H.
  rewrite !list_ascii_of_string_of_list_ascii, !Hu in H. exact H.
Qed.

Lemma hex_is_ascii bs : is_ascii (hex bs) = true.
Proof.
  unfold is_ascii, hex. rewrite list_ascii_of_string_of_list_ascii.
  induction bs as [|b bs IH]; [reflexivity|]. cbn [flat_map]. rewrite forallb_app, IH, andb_true_r.
  destruct b; reflexivity.
Qed.

Lemma py_ok_inj {X} (a b : X) : PyOk a = PyOk b -> a = b.
Proof. intros H. injection H as H. exact H. Qed.

Lemma string_length_of_list l : String.length (string_of_list_ascii l) = List.length l.
Proof. induction l as [|c l IH]; cbn; [reflexivity | rewrite IH; reflexivity]. Qed.

(** A salt of [length] characters, each of [SALT_CHARS]. *)
Lemma gen_salt_spec n rnd salt :
  gen_salt n rnd = PyOk salt ->
  String.length salt = n /\ forall c, In c (list_ascii_of_string salt) -> In c (list_ascii_of_string SALT_CHARS).
Proof.
  unfold gen_salt. destruct n as [|n]; [discriminate|]. intros H. apply py_ok_inj in H. subst salt.
  rewrite list_ascii_of_string_of_list_ascii. split.
  - rewrite string_length_of_list, length_map, length_seq. reflexivity.
  - intros c Hc. apply in_map_iff in Hc as (i & <- & _). apply nth_In.
    apply Nat.mod_upper_bound. discriminate.
Qed.

(** A salt holds no ['$']. *)
Lemma gen_salt_no_dollar n rnd salt :
  gen_salt n rnd = PyOk salt -> no_char "$" (list_ascii_of_string salt) = true.
Proof.
  intros H. apply gen_salt_spec in H as [_ Hin]. unfold no_char. apply forallb_forall. intros c Hc.
  assert (Hall : no_char "$" (list_ascii_of_string SALT_CHARS) = true) by reflexivity.
  unfold no_char in Hall. rewrite forallb_forall in Hall. exact (Hall c (Hin c Hc)).
Qed.

Lemma compare_digest_hex h h' : compare_digest (hex h) (hex h') = PyOk (String.eqb (hex h) (hex h')).
Proof. unfold compare_digest. rewrite !hex_is_ascii. reflexivity. Qed.

Module Werkzeug.
Section Werkzeug.
(** [hashlib.scrypt(password, salt=salt, n=n, r=r, p=p, maxmem=132*n*r*p)]
    and [hashlib.pbkdf2_hmac(hash_name, password, salt, iterations)]. *)
Variable scrypt : list byte -> list byte -> Z -> Z -> Z -> py_result (list byte).
Variable pbkdf2_hmac : string -> list byte -> list byte -> Z -> py_result (list byte).
(** [DEFAULT_PBKDF2_ITERATIONS], which each release raises. *)
Variable DEFAULT_PBKDF2_ITERATIONS : Z.

Definition invalid_method (method : string) : py_exc :=
  ValueError ("Invalid hash method '" ++ method ++ "'.").

(** [_hash_internal(method, salt, password)]: the hex digest and the
    method with its parameters. *)
Definition hash_internal (method salt password : string) : py_result (string * string) :=
  let salt_bytes := encode salt in
  let password_bytes := encode password in
  match py_split ":" None method with
  | [] => PyErr (invalid_method method)
  | method :: args =>
      if String.eqb method "scrypt" then
        py_bind (match args with
                 | [] => PyOk (32768, 8, 1)%Z
                 | _ => match map py_int args with
                        | [Some n; Some r; Some p] => PyOk (n, r, p)
                        | _ => PyErr (ValueError "'scrypt' takes 3 arguments.")
                        end
                 end) (fun '(n, r, p) =>
        py_bind (scrypt password_bytes salt_bytes n r p) (fun h =>
        PyOk (hex h, "scrypt:" ++ py_str_int n ++ ":" ++ py_str_int r ++ ":" ++ py_str_int p)))
      else if String.eqb method "pbkdf2" then
        py_bind (match args with
                 | [] => PyOk ("sha256", DEFAULT_PBKDF2_ITERATIONS)
                 | [hash_name] => PyOk (hash_name, DEFAULT_PBKDF2_ITERATIONS)
                 | [hash_name; it] =>
                     py_bind (py_of_option (ValueError "invalid literal for int() with base 10")
                                (py_int it)) (fun iterations => PyOk (hash_name, iterations))
                 | _ => PyErr (ValueError "'pbkdf2' takes 2 arguments.")
                 end) (fun '(hash_name, iterations) =>
        py_bind (pbkdf2_hmac hash_name password_bytes salt_bytes iterations) (fun h =>
        PyOk (hex h, "pbkdf2:" ++ hash_name ++ ":" ++ py_str_int iterations)))
      else PyErr (invalid_method method)
  end.

(** [generate_password_hash(password, method="scrypt", salt_length=16)] *)
Definition generate_password_hash (rnd : Draws) (password : string) : py_result string :=
  py_bind (gen_salt 16 rnd) (fun salt =>
  py_bind (hash_internal "scrypt" salt password) (fun '(h, actual_method) =>
  PyOk (actual_method ++ "$" ++ salt ++ "$" ++ h))).

(** [check_password_hash(pwhash, password)]: a hash without two ['$'] is
    no match; an unknown method raises. *)
Definition check_password_hash (pwhash password : string) : py_result bool :=
  match py_split "$" (Some 2) pwhash with
  | [method; salt; hashval] =>
      py_bind (hash_internal method salt password) (fun '(h, _) => compare_digest h hashval)
  | _ => PyOk false
  end.

Definition werkzeug_hasher : Hasher := mk_hasher generate_password_hash check_password_hash.

(** ** Lemmas *)

Lemma hash_internal_scrypt_default m salt pw :
  m = "scrypt" \/ m = "scrypt:32768:8:1" ->
  hash_internal m salt pw
  = py_bind (scrypt (encode pw) (encode salt) 32768 8 1) (fun h => PyOk (hex h, "scrypt:32768:8:1")).
Proof. intros [-> | ->]; reflexivity. Qed.

Lemma generate_shape rnd p hp :
  generate_password_hash rnd p = PyOk hp ->
  exists salt h, gen_salt 16 rnd = PyOk salt
    /\ scrypt (encode p) (encode salt) 32768 8 1 = PyOk h
    /\ hp = ("scrypt:32768:8:1$" ++ salt ++ "$" ++ hex h).
Proof.
  unfold generate_password_hash. destruct (gen_salt 16 rnd) as [salt|e] eqn:Hs; cbn [py_bind]; [|discriminate].
  rewrite hash_internal_scrypt_default by (left; reflexivity).
  destruct (scrypt _ _ _ _ _) as [h|e] eqn:Hh; cbn [py_bind]; [|discriminate].
  intros H. apply py_ok_inj in H. subst hp. exists salt, h. auto.
Qed.

(** [check_password_hash] on a hash of the form [generate_password_hash]
    stores: scrypt at the default parameters, compared with the digest. *)
Lemma check_scrypt_default salt hx pw :
  no_char "$" (list_ascii_of_string salt) = true ->
  check_password_hash ("scrypt:32768:8:1$" ++ salt ++ "$" ++ hx) pw
  = py_bind (scrypt (encode pw) (encode salt) 32768 8 1) (fun h => compare_digest (hex h) hx).
Proof.
  intros Hs. unfold check_password_hash, py_split.
  replace (list_ascii_of_string ("scrypt:32768:8:1$" ++ salt ++ "$" ++ hx))
    with (list_ascii_of_string "scrypt:32768:8:1"
            ++ "$"%char :: list_ascii_of_string salt ++ "$"%char :: list_ascii_of_string hx)%list
    by (rewrite !list_ascii_of_string_app; reflexivity).
  rewrite split_on_3 by (reflexivity || exact Hs). cbn [map]. rewrite !string_of_list_ascii_of_string.
  rewrite hash_internal_scrypt_default by (right; reflexivity).
  destruct (scrypt _ _ _ _ _); reflexivity.
Qed.

Lemma hash_internal_unknown method salt pw name args :
  py_split ":" None method = name :: args -> name <> "scrypt" -> name <> "pbkdf2" ->
  hash_internal method salt pw = PyErr (invalid_method name).
Proof.
  intros Hs H1 H2. unfold hash_internal. rewrite Hs.
  apply String.eqb_neq in H1, H2. rewrite H1, H2. reflexivity.
Qed.

(** ** Theorems *)

(** C13: werkzeug's hashing implements the interface the handlers are
    proved against: a hash [generate_password_hash] returns accepts its
    password and rejects every other one, provided scrypt at the default
    parameters never raises and never derives the same key from two
    passwords with the same salt. *)
Theorem werkzeug_laws :
  (forall pw salt, exists h, scrypt pw salt 32768 8 1 = PyOk h) ->
  (forall pw pw' salt h,
     scrypt pw salt 32768 8 1 = PyOk h -> scrypt pw' salt 32768 8 1 = PyOk h -> pw = pw') ->
  HasherLaws werkzeug_hasher.
Proof.
  intros Htot Hinj. split; cbn [werkzeug_hasher App.generate_password_hash App.check_password_hash].
  - intros rnd p hp Hg. destruct (generate_shape rnd p hp Hg) as (salt & h & Hs & Hh & ->).
    rewrite check_scrypt_default by exact (gen_salt_no_dollar _ _ _ Hs). rewrite Hh. cbn [py_bind].
    rewrite compare_digest_hex, String.eqb_refl. reflexivity.
  - intros rnd p q hp Hg Hne. destruct (generate_shape rnd p hp Hg) as (salt & h & Hs & Hh & ->).
    rewrite check_scrypt_default by exact (gen_salt_no_dollar _ _ _ Hs).
    destruct (Htot (encode q) (encode salt)) as [h' Hh']. rewrite Hh'. cbn [py_bind].
    rewrite compare_digest_hex. f_equal. apply String.eqb_neq. intros He. apply hex_inj in He. subst h'.
    exact (Hne (eq_sym (encode_inj _ _ (Hinj _ _ _ _ Hh' Hh)))).
Qed.

(** C17: a stored hash with fewer than two ['$'] (a password stored in
    clear, say) matches no password and raises nothing: the [ValueError]
    of the tuple unpacking is caught and [check_password_hash] returns
    [False]. *)
Theorem check_password_hash_malformed pwhash pw :
  count_occ ascii_dec (list_ascii_of_string pwhash) "$"%char < 2 ->
  check_password_hash pwhash pw = PyOk false.
Proof.
  intros Hc. unfold check_password_hash, py_split.
  pose proof (length_split_on "$" 2 (list_ascii_of_string pwhash)) as Hl.
  destruct (split_on _ _ _) as [|a [|b [|c [|d l]]]]; cbn [map]; try reflexivity.
  cbn [length] in Hl. lia.
Qed.

(** Hashes of the older [pbkdf2] method ([pbkdf2:sha256:600000$...],
    which werkzeug 2 generated) are still checked: the hash name and the
    iteration count are read back from the method and the digest is
    compared with pbkdf2's. *)
Theorem check_pbkdf2 hash_name its it salt pw h :
  no_char ":" (list_ascii_of_string hash_name) = true ->
  no_char "$" (list_ascii_of_string hash_name) = true ->
  no_char ":" (list_ascii_of_string its) = true -> no_char "$" (list_ascii_of_string its) = true ->
  no_char "$" (list_ascii_of_string salt) = true ->
  py_int its = Some it ->
  pbkdf2_hmac hash_name (encode pw) (encode salt) it = PyOk h ->
  forall hx, check_password_hash ("pbkdf2:" ++ hash_name ++ ":" ++ its ++ "$" ++ salt ++ "$" ++ hx) pw
             = compare_digest (hex h) hx.
Proof.
  intros Hn1 Hn2 Hi1 Hi2 Hs Hit Hh hx. unfold check_password_hash, py_split.
  set (m := ("pbkdf2:" ++ hash_name ++ ":" ++ its)).
  replace (list_ascii_of_string ("pbkdf2:" ++ hash_name ++ ":" ++ its ++ "$" ++ salt ++ "$" ++ hx))
    with (list_ascii_of_string m
            ++ "$"%char :: list_ascii_of_string salt ++ "$"%char :: list_ascii_of_string hx)%list
    by (unfold m; rewrite !list_ascii_of_string_app, <- !app_assoc; reflexivity).
  rewrite split_on_3 by (try exact Hs; unfold m; rewrite !list_ascii_of_string_app, !no_char_app, Hn2, Hi2;
                         reflexivity).
  cbn [map]. rewrite !string_of_list_ascii_of_string. unfold hash_internal, py_split.
  replace (list_ascii_of_string m)
    with (list_ascii_of_string "pbkdf2" ++ ":"%char :: list_ascii_of_string hash_name
            ++ ":"%char :: list_ascii_of_string its)%list
    by (unfold m; rewrite !list_ascii_of_string_app; reflexivity).
  rewrite split_on_sep_app by (discriminate || reflexivity).
  rewrite split_on_sep_app, split_on_nosep by (discriminate || assumption).
  cbn [map]. rewrite !string_of_list_ascii_of_string. cbv [String.eqb Ascii.eqb Bool.eqb].
  rewrite Hit. cbn [py_of_option py_bind]. rewrite Hh. reflexivity.
Qed.
End Werkzeug.
End Werkzeug.

(** ** [login] with werkzeug's hashing *)

Section LoginWithWerkzeug.
Context {A : Type} `{Num A} (parse_float : string -> option A).
Variable scrypt : list byte -> list byte -> Z -> Z -> Z -> py_result (list byte).
Variable pbkdf2_hmac : string -> list byte -> list byte -> Z -> py_result (list byte).
Variable DEFAULT_PBKDF2_ITERATIONS : Z.

(** C16: a stored hash naming a method werkzeug 3 no longer knows (the
    [sha1$salt$digest] of werkzeug 2, say) makes [login] answer 500 for
    that email whatever the password: [check_password_hash] raises its
    [ValueError] outside the [try], instead of returning [False]. *)
Theorem login_unknown_method_500 (db : Db A) s rq e pw u m salt hv name args :
  rq.(rq_method) = POST -> form_req rq "email" = PyOk e -> form_req rq "password" = PyOk pw ->
  user_by_email db e = Some u ->
  py_split "$" (Some 2) u.(user_password) = [m; salt; hv] ->
  py_split ":" None m = name :: args -> name <> "scrypt" -> name <> "pbkdf2" ->
  handle parse_float (Werkzeug.werkzeug_hasher scrypt pbkdf2_hmac DEFAULT_PBKDF2_ITERATIONS) db s (ALogin rq)
  = (db, s, mk_reply [] (HttpError 500)).
Proof.
  intros Hm He Hp Hu Hs Hn H1 H2. unfold handle, run, dispatch, login. rewrite Hm, He, Hp. cbn [py_bind].
  rewrite Hu. cbn [Werkzeug.werkzeug_hasher App.check_password_hash].
  unfold Werkzeug.check_password_hash. rewrite Hs.
  rewrite (Werkzeug.hash_internal_unknown scrypt pbkdf2_hmac DEFAULT_PBKDF2_ITERATIONS m salt pw name args Hn H1 H2).
  reflexivity.
Qed.
End LoginWithWerkzeug.

(** ** Witnesses, with stand-ins for the key derivations: the password's
    bytes followed by the salt's. *)

Definition toy_scrypt (pw salt : list byte) (n r p : Z) : py_result (list byte) := PyOk (pw ++ salt)%list.
Definition toy_pbkdf2 (hash_name : string) (pw salt : list byte) (it : Z) : py_result (list byte) :=
  PyOk (pw ++ salt)%list.
Definition toy_hasher : Hasher := Werkzeug.werkzeug_hasher toy_scrypt toy_pbkdf2 600000.

Lemma werkzeug_laws_witness :
  HasherLaws toy_hasher
  /\ exists hp, toy_hasher.(App.generate_password_hash) (fun i => i) "pw" = PyOk hp
              /\ toy_hasher.(App.check_password_hash) hp "pw" = PyOk true.
Proof.
  assert (L : HasherLaws toy_hasher).
  { apply Werkzeug.werkzeug_laws.
    - intros pw salt. eexists. reflexivity.
    - intros pw pw' salt h H1 H2. injection H1 as <-. injection H2 as H2.
      exact (eq_sym (app_inv_tail _ _ _ H2)). }
  split; [exact L|]. eexists. split; [reflexivity|].
  apply (check_generated _ L (fun i => i) "pw"). reflexivity.
Defined.

Lemma check_password_hash_malformed_witness :
  Werkzeug.check_password_hash toy_scrypt toy_pbkdf2 600000 "hunter2" "hunter2" = PyOk false.
Proof. apply Werkzeug.check_password_hash_malformed. vm_compute. lia. Defined.


Definition legacy_db : Db Z :=
  mk_db [mk_user 1 (Some "Alice") "alice@example.com" "sha1$abc$0123"] [].

Lemma login_unknown_method_500_witness :
  handle parse_int_amount toy_hasher legacy_db empty_session
    (ALogin (post [("email", "alice@example.com"); ("password", "pw")]))
  = (legacy_db, empty_session, mk_reply [] (HttpError 500)).
Proof.
  apply (login_unknown_method_500 parse_int_amount toy_scrypt toy_pbkdf2 600000 legacy_db empty_session
           _ "alice@example.com" "pw" (mk_user 1 (Some "Alice") "alice@example.com" "sha1$abc$0123")
           "sha1" "abc" "0123" "sha1" []); (reflexivity || discriminate).
Defined.
