(* ===== verification/Amounts.v ===== *)
(** Amounts as CPython reads them.  The handlers of [App.v] are run with
    binary64 amounts ([float], the [Num] instance of [Num.v]) and with
    [py_float], the model of [float()] of [PyNum.v], for [parse_float].
    [add_transaction] and [edit_transaction] only reject an amount
    [float()] cannot read, so [nan] (in any case, with surrounding
    whitespace) passes the validation; SQLite binds it as NULL and the
    commit fails on the [NOT NULL] column, an HTTP 500 instead of the
    'Invalid amount.' message.  With finite amounts no sum of the
    dashboard reaches NaN, though it may overflow to an infinity; the
    difference of two overflowed totals is NaN. *)

From Stdlib Require Import Bool Arith ZArith Lia String List PrimFloat.
From S2P Require Import Prelude Num PyStr PyNum StableSort Dates Models Dashboard Store App.
Import ListNotations.
Local Open Scope string_scope.

Section NanAmount.
Variable hasher : Hasher.

Lemma commit_amount_nan : commit_amount nan = PyErr (IntegrityError "NOT NULL constraint failed: transactions.amount").
Proof. reflexivity. Qed.

(** C10: an amount [nan], in any case and with any surrounding
    whitespace, passes the [float()] validation of [add_transaction] and
    of [edit_transaction] but not the commit: SQLite stores the NaN as
    NULL, the NOT NULL constraint of [amount] fails, and the
    [IntegrityError] escapes the view.  The client gets HTTP 500 instead
    of ['Invalid amount.'], and the store and the session are unchanged. *)
Theorem nan_amount_500 (db : Db float) s uid u :
  s.(sess_user) = Some uid -> user_get db uid = Some u ->
  (forall rq d,
     rq.(rq_method) = POST -> py_lower (py_strip (form_get rq "amount" "0")) = "nan" ->
     strptime_ymd (py_strip (form_get rq "date" "")) = PyOk d ->
     handle py_float hasher db s (AAddTransaction rq) = (db, s, mk_reply [] (HttpError 500)))
  /\ (forall rq id t ty cat note am,
     tx_get db id = Some t -> rq.(rq_method) = POST ->
     form_req rq "type" = PyOk ty -> form_req rq "category" = PyOk cat ->
     form_req rq "note" = PyOk note -> form_req rq "amount" = PyOk am ->
     py_lower (py_strip am) = "nan" ->
     handle py_float hasher db s (AEditTransaction rq id) = (db, s, mk_reply [] (HttpError 500))).
Proof.
  intros Hs Hu. split.
  - intros rq d Hm Hnan Hd. unfold handle, run, dispatch, add_transaction. rewrite Hs, Hm. cbv zeta.
    rewrite (py_float_nan _ Hnan), Hd, Hu, commit_amount_nan. reflexivity.
  - intros rq id t ty cat note am Ht Hm Hty Hc Hn Ham Hnan.
    unfold handle, run, dispatch, edit_transaction. rewrite Hs, Ht, Hm, Hty, Hc, Hn, Ham. cbn [py_bind].
    unfold py_of_option. rewrite (py_float_nan_any am Hnan). cbn [py_bind].
    rewrite commit_amount_nan. reflexivity.
Qed.
End NanAmount.

(** ** Overflow: finite amounts keep every dashboard sum off NaN

    An amount [float()] reads from a decimal literal is finite unless
    the literal overflows binary64.  Each sum the dashboard computes by
    adding finite amounts to a running total stays a number or
    overflows to an infinity; only the difference of two totals that
    both overflowed, [today_balance] or [total_amount], can be NaN. *)

Section Overflow.
Local Abbreviation finite_amounts txs := (forall t, In t txs -> float_isfinite t.(tx_amount) = true).
Local Abbreviation not_nan_values d := (Forall (fun p => float_isnan (snd p) = false) d).

Lemma py_sum_not_nan {X} (f : X -> float) xs :
  (forall x, In x xs -> float_isfinite (f x) = true) -> float_isnan (py_sum f xs) = false.
Proof.
  intros Hf. unfold py_sum. apply float_sum_not_nan.
  intros y Hy. apply in_map_iff in Hy as (x & <- & Hx). exact (Hf x Hx).
Qed.

Lemma cond_sum_not_nan cond (txs : list (Transaction float)) v :
  finite_amounts txs -> cond_sum cond txs = PyOk v -> float_isnan v = false.
Proof.
  intros Hf. unfold cond_sum. destruct (cond_filter cond txs) as [l|e] eqn:Hl; [|discriminate].
  intros Hv. injection Hv as <-. apply py_sum_not_nan.
  intros t Ht. exact (Hf t (cond_filter_incl cond txs l Hl t Ht)).
Qed.

Lemma monthly_totals_not_nan y (txs : list (Transaction float)) :
  finite_amounts txs -> not_nan_values (fst (monthly_totals y txs)) /\ not_nan_values (snd (monthly_totals y txs)).
Proof.
  intros Hf. unfold monthly_totals.
  apply (fold_left_invariant (fun acc => not_nan_values (fst acc) /\ not_nan_values (snd acc)));
    [|split; constructor].
  intros [mi me] t Ht [Hmi Hme]. unfold monthly_step.
  assert (Hd : forall d, not_nan_values d -> not_nan_values
             (dict_set Z.eq_dec d t.(tx_date).(dt_month)
                (dict_get_default Z.eq_dec d t.(tx_date).(dt_month) 0 + t.(tx_amount))%num)).
  { intros d Hdv. apply (dict_set_values _ (fun a => float_isnan a = false)); [exact Hdv|].
    apply float_add_not_nan; [|exact (Hf t Ht)].
    apply (dict_get_default_values _ (fun a => float_isnan a = false)); [exact Hdv | exact float_zero_not_nan]. }
  destruct (Z.eqb _ _); [|auto]. destruct (is_income t); [|destruct (is_expense t)]; cbn; auto.
Qed.

Lemma running_balance_not_nan (txs : list (Transaction float)) :
  finite_amounts txs -> not_nan_values (running_balance txs).
Proof.
  intros Hf. unfold running_balance.
  enough (Hr : float_isnan (fst (fold_left running_step (sort_by_date txs) (0%num, [])))  = false
               /\ not_nan_values (snd (fold_left running_step (sort_by_date txs) (0%num, []))))
    by apply Hr.
  apply (fold_left_invariant (fun acc => float_isnan (fst acc) = false /\ not_nan_values (snd acc)));
    [|split; [exact float_zero_not_nan | constructor]].
  intros [b rb] t Ht [Hb Hrb]. unfold running_step. cbn [fst snd].
  assert (Hfin : float_isfinite t.(tx_amount) = true).
  { apply Hf, (Permutation.Permutation_in _ (Permutation.Permutation_sym (sort_by_perm tx_date dt_ltb txs))), Ht. }
  assert (Hb' : float_isnan (balance_step b t) = false).
  { unfold balance_step. destruct (is_income t); [apply float_add_not_nan | apply float_sub_not_nan]; auto. }
  split; [exact Hb' | apply Forall_app; split; [exact Hrb | constructor; [exact Hb' | constructor]]].
Qed.

(** C15: with float amounts that are all finite, the dashboard's income and
    expense totals of the period, its Cash and UPI totals, every monthly
    total and every running balance are never NaN: a sum of finite
    numbers can overflow to an infinity but, without a NaN or an infinity
    among its summands, never reaches NaN. *)
Theorem finite_amounts_totals_not_nan (txs : list (Transaction float)) fd y v :
  finite_amounts txs -> dashboard_view txs fd y = PyOk v ->
  float_isnan (v_today_income v) = false /\ float_isnan (v_today_expense v) = false
  /\ float_isnan (v_total_cash v) = false /\ float_isnan (v_total_upi v) = false
  /\ not_nan_values (v_monthly_income v) /\ not_nan_values (v_monthly_expense v)
  /\ not_nan_values (v_running_balance v).
Proof.
  intros Hf Hv. unfold dashboard_view in Hv.
  destruct (today_income txs fd) as [ti|] eqn:Hi; [|discriminate].
  destruct (today_expense txs fd) as [te|] eqn:He; [|discriminate].
  destruct (monthly_totals_not_nan y txs Hf) as [Hmi Hme].
  destruct (monthly_totals y txs) as [mi me]. injection Hv as <-.
  cbn [v_today_income v_today_expense v_total_cash v_total_upi v_monthly_income v_monthly_expense
       v_running_balance].
  assert (Hm : forall label, float_isnan (total_by_method label txs) = false).
  { intros label. apply py_sum_not_nan. intros t Ht. apply filter_In in Ht as [Ht _]. exact (Hf t Ht). }
  split; [exact (cond_sum_not_nan _ _ _ Hf Hi)|].
  split; [exact (cond_sum_not_nan _ _ _ Hf He)|].
  split; [apply (Hm "Cash")|]. split; [apply (Hm "UPI")|].
  split; [exact Hmi|]. split; [exact Hme|].
  apply running_balance_not_nan, Hf.
Qed.
End Overflow.

(** ** Witness: Alice's store with float amounts. *)

Definition alice_float_db : Db float :=
  mk_db [alice] [mk_transaction 1 "income" "salary" 100%float (midnight 2024 1 5) (Some "") 1 (Some "Cash")].

Definition nan_form : Request :=
  post [("type", "Expense"); ("date", "2024-01-06"); ("amount", " NaN ")].

Lemma nan_amount_500_witness :
  handle py_float plain_hasher alice_float_db (mk_session (Some 1) true) (AAddTransaction nan_form)
  = (alice_float_db, mk_session (Some 1) true, mk_reply [] (HttpError 500)).
Proof.
  exact (proj1 (nan_amount_500 plain_hasher alice_float_db (mk_session (Some 1) true) 1 alice
                  eq_refl eq_refl) nan_form (midnight 2024 1 6) eq_refl eq_refl eq_refl).
Defined.

(** ** Overflow on Alice's store *)

(** An amount of [1e308], finite and below the largest binary64 number. *)
Definition big_form (ty : string) : Request :=
  post [("type", ty); ("date", "2024-01-05"); ("amount", "1e308")].

(** Alice records two incomes and two expenses of [1e308]. *)
Definition overflow_db : Db float :=
  fold_left (fun db rq => fst (fst (handle py_float plain_hasher db (mk_session (Some 1) true) (AAddTransaction rq))))
    [big_form "income"; big_form "income"; big_form "expense"; big_form "expense"] alice_float_db.

(** Amounts that [float()] reads as finite numbers still make the
    dashboard show a NaN balance: four amounts of [1e308] are all
    accepted and finite, but the two incomes sum to +inf, the two
    expenses to +inf, and [today_balance = today_income - today_expense]
    is NaN, while the last running balance, which alternates additions
    and subtractions in date order, is +inf. *)
Theorem finite_amounts_balance_nan :
  length overflow_db.(db_txs) = 5
  /\ forallb (fun t => float_isfinite t.(tx_amount)) overflow_db.(db_txs) = true
  /\ exists v, handle py_float plain_hasher overflow_db (mk_session (Some 1) true)
                 (ADashboard (mk_request GET [] []) 2024%Z)
               = (overflow_db, mk_session (Some 1) true, render (PDashboard alice v))
     /\ v_today_income v = infinity /\ v_today_expense v = infinity
     /\ float_isnan (v_today_balance v) = true
     /\ last (map snd (v_running_balance v)) num_zero = infinity.
Proof.
  split; [vm_compute; reflexivity|]. split; [vm_compute; reflexivity|].
  eexists. split.
  - match goal with |- ?l = _ => let l' := eval vm_compute in l in change l with l' end. reflexivity.
  - vm_compute. repeat split.
Qed.

(** Alice's amounts are finite, so her income total is a number (+inf). *)
Lemma finite_amounts_totals_not_nan_witness :
  exists v, dashboard_view (txs_of_user overflow_db 1) None 2024%Z = PyOk v
    /\ float_isnan (v_today_income v) = false.
Proof.
  assert (Hf : forall t, In t (txs_of_user overflow_db 1) -> float_isfinite t.(tx_amount) = true).
  { apply forallb_forall. vm_compute. reflexivity. }
  destruct (dashboard_view (txs_of_user overflow_db 1) None 2024%Z) as [v|e] eqn:Hv.
  - exists v. split; [reflexivity|].
    exact (proj1 (finite_amounts_totals_not_nan _ None 2024%Z v Hf Hv)).
  - exfalso. vm_compute in Hv. discriminate.
Defined.
