(* ===== verification/Expiry.v ===== *)
(** Session lifetime.  Flask keeps the session in a cookie that
    itsdangerous signs with a timestamp.  [open_session] rejects a cookie
    whose signature is older than [permanent_session_lifetime] (15 minutes,
    line 17 of [src/app.py]), permanent or not, and the request then sees an
    empty session.  [save_session] signs the cookie again, with the current
    time, only when the session was modified during the request (a key set
    or removed, a message flashed) or when it is permanent
    ([SESSION_REFRESH_EACH_REQUEST]).  A flashed message stays in the
    cookie ([_flashes]) until a template calls [get_flashed_messages],
    which pops it and so modifies the session again; the templates are not
    part of [src/], so which pages show the messages is the parameter
    [shows_flashes].  The session that [login] makes permanent slides with
    every request; the one [register] leaves non-permanent is signed again
    only by a request that changes it, flashes, or pops pending messages.

    A timed world is a world of [Reach.v], the clock in seconds, the time
    each client's cookie was last signed, and whether it holds messages
    not yet shown.  A timed step is a tick of the clock, a request (an
    expired cookie is discarded first), or a lost cookie.  Every timed run
    projects onto a run of [Reach.v] ([treachable_refines]), so the
    invariants proved there hold with the clock too. *)

From Stdlib Require Import Bool Arith ZArith Lia String List Relation_Operators.
From S2P Require Import Prelude Num PyStr StableSort Dates Models Dashboard Store App Reach.
Import ListNotations.
Local Open Scope string_scope.

(** [app.permanent_session_lifetime = timedelta(minutes=15)], in seconds. *)
Definition LIFETIME : nat := 15 * 60.

(** itsdangerous' [TimestampSigner.unsign]: [age > max_age] raises
    [SignatureExpired], which [open_session] turns into an empty session. *)
Definition cookie_valid (now signed : nat) : bool := Nat.leb (now - signed) LIFETIME.

Definition session_eqb (s1 s2 : Session) : bool :=
  match s1.(sess_user), s2.(sess_user) with
  | Some a, Some b => Nat.eqb a b
  | None, None => true
  | _, _ => false
  end && Bool.eqb s1.(sess_permanent) s2.(sess_permanent).

Section Timed.
Context {A : Type} `{Num A} (parse_float : string -> option A) (hasher : Hasher).

(** Whether the template of a page calls [get_flashed_messages]. *)
Variable shows_flashes : @Page A -> bool.

(** The reply renders a template that pops [session['_flashes']]. *)
Definition pops_flashes (r : @Reply A) : bool :=
  match r.(rp_response) with
  | Render p => shows_flashes p
  | _ => false
  end.

Definition flashes_any (r : @Reply A) : bool :=
  match r.(rp_flashes) with [] => false | _ :: _ => true end.

(** [SecureCookieSessionInterface.should_set_cookie]: the session was
    modified (its keys changed, a message was flashed, or pending messages
    were popped), or it is permanent and refreshed on each request. *)
Definition should_set_cookie (s_in s_out : Session) (pending : bool) (r : @Reply A) : bool :=
  negb (session_eqb s_in s_out) || flashes_any r || (pending && pops_flashes r)
  || s_out.(sess_permanent).

(** [_flashes] after the request: popped by a page that shows them, else
    the pending ones and the new ones. *)
Definition flashes_after (pending : bool) (r : @Reply A) : bool :=
  if pops_flashes r then false else pending || flashes_any r.

Record TWorld := mk_tworld {
  tw_world : @World A;
  tw_now : nat;
  tw_signed : nat -> nat;
  tw_flashed : nat -> bool
}.

Definition set_signed {X} (f : nat -> X) (c : nat) (t : X) : nat -> X :=
  fun c' => if Nat.eqb c' c then t else f c'.

Definition init_tworld : TWorld := mk_tworld init_world 0 (fun _ => 0) (fun _ => false).

(** The world the server sees at a request of client [c]: an expired
    cookie is discarded. *)
Definition expire (tw : TWorld) (c : nat) : @World A :=
  if cookie_valid tw.(tw_now) (tw.(tw_signed) c) then tw.(tw_world)
  else mk_world tw.(tw_world).(w_db) (set_sess tw.(tw_world).(w_sess) c empty_session).

(** The session [open_session] returns to a request of [c]. *)
Definition open_session (tw : TWorld) (c : nat) : Session := (expire tw c).(w_sess) c.

(** The cookie the request opens holds messages not yet shown. *)
Definition open_flashed (tw : TWorld) (c : nat) : bool :=
  cookie_valid tw.(tw_now) (tw.(tw_signed) c) && tw.(tw_flashed) c.

(** After the request of [c] answered with [db'], [s'] and [r]: the new
    store and cookie, signed again if [should_set_cookie]; a cookie not
    sent again keeps what the client holds. *)
Definition after_request (tw : TWorld) (c : nat) (db' : Db A) (s' : Session) (r : @Reply A) : TWorld :=
  let pending := open_flashed tw c in
  mk_tworld (mk_world db' (set_sess (expire tw c).(w_sess) c s')) tw.(tw_now)
    (if should_set_cookie (open_session tw c) s' pending r
     then set_signed tw.(tw_signed) c tw.(tw_now) else tw.(tw_signed))
    (set_signed tw.(tw_flashed) c (flashes_after pending r)).

Definition tick (tw : TWorld) (d : nat) : TWorld :=
  mk_tworld tw.(tw_world) (tw.(tw_now) + d) tw.(tw_signed) tw.(tw_flashed).

Inductive tstep : TWorld -> TWorld -> Prop :=
| tstep_tick tw d : tstep tw (tick tw d)
| tstep_request tw c a db' s' r :
    handle parse_float hasher (expire tw c).(w_db) (open_session tw c) a = (db', s', r) ->
    tstep tw (after_request tw c db' s' r)
| tstep_drop_cookie tw c :
    tstep tw (mk_tworld (mk_world tw.(tw_world).(w_db) (set_sess tw.(tw_world).(w_sess) c empty_session))
                tw.(tw_now) tw.(tw_signed) (set_signed tw.(tw_flashed) c false)).

Inductive treachable : TWorld -> Prop :=
| treach_init : treachable init_tworld
| treach_step tw tw' : treachable tw -> tstep tw tw' -> treachable tw'.

(** ** Lemmas *)

Lemma reachable_steps w w' :
  reachable parse_float hasher w -> clos_refl_trans_1n _ (step parse_float hasher) w w' ->
  reachable parse_float hasher w'.
Proof.
  intros Hr Hrun. induction Hrun as [w|w w1 w' Hst _ IH]; [exact Hr|].
  exact (IH (reach_step _ _ w w1 Hr Hst)).
Qed.

(** Discarding an expired cookie is the lost-cookie step of [Reach.v]. *)
Lemma expire_steps tw c : clos_refl_trans_1n _ (step parse_float hasher) tw.(tw_world) (expire tw c).
Proof.
  unfold expire. destruct (cookie_valid _ _); [apply rt1n_refl|].
  eapply rt1n_trans; [apply step_drop_cookie | apply rt1n_refl].
Qed.

Lemma tstep_refines tw tw' :
  reachable parse_float hasher tw.(tw_world) -> tstep tw tw' -> reachable parse_float hasher tw'.(tw_world).
Proof.
  intros Hr Hst. destruct Hst as [tw d | tw c a db' s' r Hh | tw c]; simpl.
  - exact Hr.
  - apply (reach_step _ _ (expire tw c)); [exact (reachable_steps _ _ Hr (expire_steps tw c))|].
    exact (step_request _ _ (expire tw c) c a db' s' r Hh).
  - exact (reach_step _ _ _ _ Hr (step_drop_cookie _ _ (tw_world tw) c)).
Qed.

(** ** Theorems *)

(** The timed model refines the untimed one: the world of every
    timed run is a reachable world of [Reach.v] (a request on an expired
    cookie is a lost cookie followed by the request), so its store is
    well formed and every session names an existing user. *)
Theorem treachable_refines tw :
  treachable tw -> reachable parse_float hasher tw.(tw_world) /\ world_inv tw.(tw_world).
Proof.
  intros Ht. assert (Hr : reachable parse_float hasher tw.(tw_world)).
  { induction Ht as [|tw tw' _ IH Hst]; [constructor | exact (tstep_refines tw tw' IH Hst)]. }
  split; [exact Hr|].
  exact (reachable_ind_inv parse_float hasher world_inv init_world_inv
           (step_preserves parse_float hasher) _ Hr).
Qed.
End Timed.
