(* ===== verification/Race.v ===== *)
(** Concurrent registrations.  [app.run(debug=True)] serves every request
    in a thread of its own and Flask-SQLAlchemy gives each thread its own
    database session, so two requests may interleave between the queries
    of a handler and its [db.session.commit()].  The handler whose effect
    depends on such an interleaving is [register]: it looks the email up,
    hashes, and only then inserts and commits.  SQLite checks the
    [unique=True] constraint of [users.email] ([src/models.py] line 9) at
    the insertion, so a second registration of an email that passed the
    lookup before the first one committed fails with [IntegrityError]:
    HTTP 500, nothing written.

    [register_read] is [register] up to the commit, on the store the thread
    reads; [register_commit] is the insertion with the constraint, on the
    store at the time of the commit.  A concurrent world is a world of
    [Reach.v] and the registrations waiting for their commit; a concurrent
    step is a request served whole, the read phase of a registration, or
    the commit of a waiting one.  Read and commit back to back are
    [register] ([register_read_commit]).  Every world a concurrent run
    reaches is, session by session, a world a sequential run reaches
    ([creachable_serializable]), so the invariants of [Reach.v] hold under
    concurrency too; only the replies differ ([register_race_500]). *)

From Stdlib Require Import Bool Arith ZArith Lia String List RelationClasses Morphisms.
From S2P Require Import Prelude Num PyStr StableSort Dates Models Dashboard Store App Reach.
Import ListNotations.
Local Open Scope string_scope.

Section Race.
Context {A : Type} `{Num A} (parse_float : string -> option A) (hasher : Hasher).

(** [db.session.add(user); db.session.commit()] under the [unique=True]
    constraint of [users.email]. *)
Definition commit_user (db : Db A) (name : option string) (email password : string)
  : py_result (Db A * User) :=
  match user_by_email db email with
  | Some _ => PyErr (IntegrityError "UNIQUE constraint failed: users.email")
  | None => PyOk (insert_user db name email password)
  end.

(** A registration that passed its checks and waits for its commit: the
    session of the request and the row it will add. *)
Record PendingUser := mk_pending {
  pu_session : Session;
  pu_name : string;
  pu_email : string;
  pu_hash : string
}.

(** Where the read phase of [register] ends: a reply that writes nothing,
    or a row to commit. *)
Inductive RegRead :=
| RegAnswered (s : Session) (r : @Reply A)
| RegCommit (p : PendingUser).

(** Lines 37-54 of [register], on the store as the thread reads it. *)
Definition register_read (db : Db A) (s : Session) (rq : Request) (rnd : Draws) : py_result RegRead :=
  match rq.(rq_method) with
  | GET => PyOk (RegAnswered s (render PRegister))
  | POST =>
      py_bind (form_req rq "name") (fun name =>
      py_bind (form_req rq "email") (fun email =>
      py_bind (form_req rq "password") (fun password =>
      py_bind (form_req rq "confirm_password") (fun confirm_password =>
      if negb (String.eqb password confirm_password) then
        PyOk (RegAnswered s (redirect [("Passwords do not match. Please try again.", "danger")] RRegister))
      else match user_by_email db email with
      | Some _ => PyOk (RegAnswered s (redirect [("Email already registered. Please login.", "warning")] RLogin))
      | None =>
          py_bind (hasher.(generate_password_hash) rnd password) (fun hashed =>
          PyOk (RegCommit (mk_pending s name email hashed)))
      end))))
  end.

(** Lines 55-63 of [register], on the store at the time of the commit. *)
Definition register_commit (db : Db A) (p : PendingUser) : py_result (Db A * Session * @Reply A) :=
  py_bind (commit_user db (Some p.(pu_name)) p.(pu_email) p.(pu_hash)) (fun '(db', u) =>
  PyOk (db', sess_login p.(pu_session) u.(user_id),
        redirect [("Registration successful! You are now logged in.", "success")] RLogin)).

(** The commit of client [c]'s registration: the new world and the reply.
    A failed commit writes nothing and sets no cookie. *)
Definition commit (w : @World A) (c : nat) (p : PendingUser) : @World A * @Reply A :=
  match register_commit w.(w_db) p with
  | PyOk (db', s', r) => (mk_world db' (set_sess w.(w_sess) c s'), r)
  | PyErr e => (w, mk_reply [] (HttpError (status_of_exc e)))
  end.

Record CWorld := mk_cworld {
  cw_world : @World A;
  cw_pending : list (nat * PendingUser)
}.

Inductive cstep : CWorld -> CWorld -> Prop :=
| cstep_whole w w' ps :
    step parse_float hasher w w' -> cstep (mk_cworld w ps) (mk_cworld w' ps)
| cstep_read w ps c rq rnd p :
    register_read w.(w_db) (w.(w_sess) c) rq rnd = PyOk (RegCommit p) ->
    cstep (mk_cworld w ps) (mk_cworld w (ps ++ [(c, p)]))
| cstep_commit w ps1 ps2 c p :
    cstep (mk_cworld w (ps1 ++ (c, p) :: ps2)) (mk_cworld (fst (commit w c p)) (ps1 ++ ps2)).

Inductive creachable : CWorld -> Prop :=
| creach_init : creachable (mk_cworld init_world [])
| creach_step cw cw' : creachable cw -> cstep cw cw' -> creachable cw'.

(** Two worlds with the same store and, client by client, the same
    session: no request can tell them apart. *)
Definition world_equiv (w1 w2 : @World A) : Prop :=
  w1.(w_db) = w2.(w_db) /\ forall c, w1.(w_sess) c = w2.(w_sess) c.

(** Reachable by a sequential run, up to [world_equiv]. *)
Definition sreachable (w : @World A) : Prop :=
  exists w0, reachable parse_float hasher w0 /\ world_equiv w0 w.

(** The registrations waiting for their commit were read by
    [register_read] from some store. *)
Definition pending_ok (p : PendingUser) : Prop :=
  exists db0 rq rnd, register_read db0 p.(pu_session) rq rnd = PyOk (RegCommit p).

Definition cworld_ok (cw : CWorld) : Prop :=
  sreachable cw.(cw_world) /\ forall c p, In (c, p) cw.(cw_pending) -> pending_ok p.

(** ** Lemmas *)

#[global] Instance world_equiv_equiv : Equivalence world_equiv.
Proof.
  split.
  - intros w. split; reflexivity.
  - intros w1 w2 [Hd Hs]. split; [symmetry; exact Hd | intros c; symmetry; apply Hs].
  - intros w1 w2 w3 [Hd1 Hs1] [Hd2 Hs2]. split; [congruence | intros c; congruence].
Qed.

Lemma set_sess_equiv f g c s : (forall c', f c' = g c') -> forall c', set_sess f c s c' = set_sess g c s c'.
Proof. intros Hfg c'. unfold set_sess. destruct (Nat.eqb c' c); [reflexivity | apply Hfg]. Qed.

Lemma set_sess_twice f c s s' c' : set_sess (set_sess f c s) c s' c' = set_sess f c s' c'.
Proof. unfold set_sess. destruct (Nat.eqb c' c); reflexivity. Qed.

(** A step from a world is matched by a step from any equivalent one. *)
Lemma step_equiv w1 w2 w1' :
  world_equiv w1 w2 -> step parse_float hasher w1 w1' ->
  exists w2', step parse_float hasher w2 w2' /\ world_equiv w1' w2'.
Proof.
  intros [Hd Hs] Hst. destruct Hst as [w1 c a db' s' r Hh | w1 c].
  - exists (mk_world db' (set_sess (w_sess w2) c s')). split.
    + apply (step_request _ _ w2 c a db' s' r). rewrite <- Hd, <- Hs. exact Hh.
    + split; [reflexivity | apply set_sess_equiv, Hs].
  - exists (mk_world (w_db w2) (set_sess (w_sess w2) c empty_session)).
    split; [apply step_drop_cookie | split; [exact Hd | apply set_sess_equiv, Hs]].
Qed.

#[global] Instance sreachable_proper : Proper (world_equiv ==> iff) sreachable.
Proof.
  intros w1 w2 He. split; intros (w0 & Hr & He0); exists w0; split; try exact Hr.
  - transitivity w1; assumption.
  - transitivity w2; [exact He0 | symmetry; exact He].
Qed.

Lemma sreachable_step w w' : sreachable w -> step parse_float hasher w w' -> sreachable w'.
Proof.
  intros (w0 & Hr & He) Hst. destruct (step_equiv w w0 w' (symmetry He) Hst) as (w0' & Hst0 & He').
  exists w0'. split; [exact (reach_step _ _ w0 w0' Hr Hst0) | symmetry; exact He'].
Qed.

Lemma find_app_none {X} (f : X -> bool) l1 l2 :
  find f l1 = None -> find f (l1 ++ l2) = find f l2.
Proof. induction l1 as [|x l1 IH]; simpl; [reflexivity|]. destruct (f x); [discriminate | exact IH]. Qed.

Lemma user_by_email_insert (db : Db A) n e h :
  user_by_email db e = None ->
  user_by_email (fst (insert_user db n e h)) e = Some (snd (insert_user db n e h)).
Proof.
  unfold user_by_email, insert_user. cbn [fst snd db_users]. intros Hn.
  rewrite (find_app_none _ _ _ Hn). cbn. rewrite String.eqb_refl. reflexivity.
Qed.

(** What a successful read phase knows of its request. *)
Lemma register_read_pending (db : Db A) s rq rnd p :
  register_read db s rq rnd = PyOk (RegCommit p) ->
  p.(pu_session) = s /\ rq.(rq_method) = POST
  /\ form_req rq "name" = PyOk p.(pu_name) /\ form_req rq "email" = PyOk p.(pu_email)
  /\ user_by_email db p.(pu_email) = None
  /\ exists pw, form_req rq "password" = PyOk pw /\ form_req rq "confirm_password" = PyOk pw
     /\ hasher.(generate_password_hash) rnd pw = PyOk p.(pu_hash).
Proof.
  unfold register_read. intros Hr. destruct (rq_method rq) eqn:Hm; [discriminate|].
  destruct (form_req rq "name") as [nm|] eqn:Hn; cbn [py_bind] in Hr; [|discriminate].
  destruct (form_req rq "email") as [em|] eqn:He; cbn [py_bind] in Hr; [|discriminate].
  destruct (form_req rq "password") as [pw|] eqn:Hp; cbn [py_bind] in Hr; [|discriminate].
  destruct (form_req rq "confirm_password") as [cpw|] eqn:Hc; cbn [py_bind] in Hr; [|discriminate].
  destruct (String.eqb pw cpw) eqn:Heq; cbn [negb] in Hr; [|discriminate].
  apply String.eqb_eq in Heq. subst cpw.
  destruct (user_by_email db em) eqn:Hb; [discriminate|].
  destruct (generate_password_hash hasher rnd pw) as [h|] eqn:Hg; cbn [py_bind] in Hr; [|discriminate].
  injection Hr as <-. cbn. repeat split; eauto.
Qed.

(** At the commit, on the store of that time and with any session, the
    same request handled whole does what the commit does. *)
Lemma register_at_commit (db0 db : Db A) s0 rq rnd p s :
  register_read db0 s0 rq rnd = PyOk (RegCommit p) -> user_by_email db p.(pu_email) = None ->
  register hasher db s rq rnd
  = PyOk (fst (insert_user db (Some p.(pu_name)) p.(pu_email) p.(pu_hash)),
          sess_login s (snd (insert_user db (Some p.(pu_name)) p.(pu_email) p.(pu_hash))).(user_id),
          redirect [("Registration successful! You are now logged in.", "success")] RLogin).
Proof.
  intros Hr Hb. destruct (register_read_pending _ _ _ _ _ Hr) as (_ & Hm & Hn & He & _ & pw & Hp & Hc & Hg).
  unfold register. rewrite Hm, Hn, He, Hp, Hc. cbn [py_bind]. rewrite String.eqb_refl. cbn [negb].
  rewrite Hb, Hg. cbn [py_bind]. destruct (insert_user _ _ _ _). reflexivity.
Qed.

Lemma sreachable_request w c a db' s' r :
  sreachable w -> handle parse_float hasher w.(w_db) (w.(w_sess) c) a = (db', s', r) ->
  sreachable (mk_world db' (set_sess w.(w_sess) c s')).
Proof. intros Hs Hh. exact (sreachable_step w _ Hs (step_request _ _ w c a db' s' r Hh)). Qed.

(** A login with the password a stored hash was generated from makes a
    permanent session for that user and writes nothing. *)
Lemma login_generated (db : Db A) s rq u rnd pw :
  HasherLaws hasher -> rq.(rq_method) = POST ->
  form_req rq "email" = PyOk u.(user_email) -> form_req rq "password" = PyOk pw ->
  user_by_email db u.(user_email) = Some u ->
  hasher.(generate_password_hash) rnd pw = PyOk u.(user_password) ->
  exists r, handle parse_float hasher db s (ALogin rq) = (db, mk_session (Some u.(user_id)) true, r).
Proof.
  intros Hlaws Hm He Hp Hb Hg. unfold handle, run, dispatch, login. rewrite Hm, He, Hp. cbn [py_bind].
  rewrite Hb, (check_generated hasher Hlaws rnd pw _ Hg). cbn [py_bind].
  destruct (Nat.eqb _ 0); eexists; reflexivity.
Qed.

(** The commit of a waiting registration is matched by the registration
    handled whole at the time of the commit, preceded by a lost cookie or
    followed by a login (with the same form) when the session the request
    came with and the client's current one differ in [permanent]. *)
Lemma commit_serializable w c p :
  HasherLaws hasher -> sreachable w -> pending_ok p -> sreachable (fst (commit w c p)).
Proof.
  intros Hlaws Hs (db0 & rq & rnd & Hr).
  destruct (register_read_pending _ _ _ _ _ Hr) as (Hps & Hm & _ & He & _ & pw & Hp & _ & Hg).
  unfold commit, register_commit, commit_user.
  destruct (user_by_email (w_db w) (pu_email p)) as [u0|] eqn:Hb; [exact Hs|].
  pose proof (fun s => register_at_commit _ (w_db w) _ _ _ _ s Hr Hb) as Hreg. pose proof (user_by_email_insert (w_db w) (Some (pu_name p)) _ (pu_hash p) Hb) as Hbe.
  destruct (insert_user _ _ _ _) as [db' u] eqn:Hins. cbn [fst snd py_bind] in *.
  assert (Hu : user_email u = pu_email p /\ user_password u = pu_hash p)
    by (unfold insert_user in Hins; injection Hins as _ <-; split; reflexivity).
  assert (Hstep : forall w1, w_db w1 = w_db w -> sreachable w1 ->
            sreachable (mk_world db' (set_sess (w_sess w1) c (sess_login (w_sess w1 c) (user_id u))))).
  { intros w1 Hd Hs1. apply (sreachable_request w1 c (ARegister rq rnd) _ _
      (redirect [("Registration successful! You are now logged in.", "success")] RLogin) Hs1).
    unfold handle, run, dispatch. rewrite Hd, Hreg. reflexivity. }
  destruct (sess_permanent (pu_session p)) eqn:Pp, (sess_permanent (w_sess w c)) eqn:Pn.
  - refine (proj1 (sreachable_proper _ _ _) (Hstep w eq_refl Hs)).
    split; [reflexivity | intros c'; unfold sess_login; rewrite Pp, Pn; reflexivity].
  - (* the request's session was permanent, the current one is not: log in again *)
    pose proof (Hstep w eq_refl Hs) as Hs1.
    destruct Hu as [Hue Hup]. rewrite <- Hue in He, Hbe. rewrite <- Hup in Hg.
    destruct (login_generated db' (sess_login (w_sess w c) (user_id u)) rq u rnd pw Hlaws Hm He Hp Hbe Hg)
      as [r Hl].
    assert (Hl1 : handle parse_float hasher
                    (w_db (mk_world db' (set_sess (w_sess w) c (sess_login (w_sess w c) (user_id u)))))
                    (w_sess (mk_world db' (set_sess (w_sess w) c (sess_login (w_sess w c) (user_id u)))) c)
                    (ALogin rq) = (db', mk_session (Some (user_id u)) true, r))
      by (cbn [w_db w_sess]; unfold set_sess; rewrite Nat.eqb_refl; exact Hl).
    refine (proj1 (sreachable_proper _ _ _) (sreachable_request _ c (ALogin rq) _ _ _ Hs1 Hl1)).
    split; [reflexivity | intros c'; cbn; rewrite set_sess_twice; unfold sess_login; rewrite Pp; reflexivity].
  - (* the current session is permanent, the request's was not: a lost cookie first *)
    pose proof (sreachable_step w _ Hs (step_drop_cookie _ _ w c)) as Hs1.
    refine (proj1 (sreachable_proper _ _ _)
              (Hstep (mk_world (w_db w) (set_sess (w_sess w) c empty_session)) eq_refl Hs1)).
    split; [reflexivity | intros c'; cbn; rewrite set_sess_twice].
    unfold set_sess at 2. rewrite Nat.eqb_refl. unfold sess_login. rewrite Pp. reflexivity.
  - refine (proj1 (sreachable_proper _ _ _) (Hstep w eq_refl Hs)).
    split; [reflexivity | intros c'; unfold sess_login; rewrite Pp, Pn; reflexivity].
Qed.

Lemma cstep_ok cw cw' : HasherLaws hasher -> cworld_ok cw -> cstep cw cw' -> cworld_ok cw'.
Proof.
  intros Hlaws [Hs Hp] Hst.
  destruct Hst as [w w' ps Hst | w ps c rq rnd p Hr | w ps1 ps2 c p]; cbn [cw_world cw_pending] in *.
  - split; [exact (sreachable_step w w' Hs Hst) | exact Hp].
  - split; [exact Hs|]. intros c' p' Hin. apply in_app_or in Hin as [Hin|[Heq|[]]]; [exact (Hp c' p' Hin)|].
    injection Heq as <- <-. destruct (register_read_pending _ _ _ _ _ Hr) as [Hps _].
    exists (w_db w), rq, rnd. rewrite Hps. exact Hr.
  - split.
    + apply commit_serializable; [exact Hlaws | exact Hs | apply (Hp c p), in_or_app; right; left; reflexivity].
    + intros c' p' Hin. apply (Hp c' p'). apply in_app_or in Hin as [Hin|Hin]; apply in_or_app;
        [left; exact Hin | right; right; exact Hin].
Qed.

Lemma commit_fresh w c p :
  user_by_email w.(w_db) p.(pu_email) = None ->
  commit w c p
  = (mk_world (fst (insert_user w.(w_db) (Some p.(pu_name)) p.(pu_email) p.(pu_hash)))
       (set_sess w.(w_sess) c
          (sess_login p.(pu_session) (snd (insert_user w.(w_db) (Some p.(pu_name)) p.(pu_email) p.(pu_hash))).(user_id))),
     redirect [("Registration successful! You are now logged in.", "success")] RLogin).
Proof.
  intros Hb. unfold commit, register_commit, commit_user. rewrite Hb. cbn [py_bind].
  destruct (insert_user _ _ _ _). reflexivity.
Qed.

Lemma commit_taken w c p u :
  user_by_email w.(w_db) p.(pu_email) = Some u -> commit w c p = (w, mk_reply [] (HttpError 500)).
Proof. intros Hb. unfold commit, register_commit, commit_user. rewrite Hb. reflexivity. Qed.

(** A registration read from a store that has its email answers
    ['Email already registered']. *)
Lemma register_taken (db0 db : Db A) s0 s rq rnd p u :
  register_read db0 s0 rq rnd = PyOk (RegCommit p) -> user_by_email db p.(pu_email) = Some u ->
  register hasher db s rq rnd
  = PyOk (db, s, redirect [("Email already registered. Please login.", "warning")] RLogin).
Proof.
  intros Hr Hb. destruct (register_read_pending _ _ _ _ _ Hr) as (_ & Hm & Hn & He & _ & pw & Hp & Hc & _).
  unfold register. rewrite Hm, Hn, He, Hp, Hc. cbn [py_bind]. rewrite String.eqb_refl. cbn [negb].
  rewrite Hb. reflexivity.
Qed.

(** Read and commit on the same store are [register]. *)
Lemma register_read_commit db s rq rnd :
  register hasher db s rq rnd
  = match register_read db s rq rnd with
    | PyOk (RegAnswered s' r) => PyOk (db, s', r)
    | PyOk (RegCommit p) => register_commit db p
    | PyErr e => PyErr e
    end.
Proof.
  unfold register, register_read.
  destruct (rq_method rq); [reflexivity|].
  destruct (form_req rq "name"); [|reflexivity]. cbn [py_bind].
  destruct (form_req rq "email"); [|reflexivity]. cbn [py_bind].
  destruct (form_req rq "password"); [|reflexivity]. cbn [py_bind].
  destruct (form_req rq "confirm_password"); [|reflexivity]. cbn [py_bind].
  destruct (negb _); [reflexivity|].
  destruct (user_by_email db _) eqn:Hb; [reflexivity|].
  destruct (generate_password_hash hasher _ _); [|reflexivity]. cbn [py_bind].
  unfold register_commit, commit_user. cbn [pu_name pu_email pu_hash pu_session]. rewrite ?Hb.
  destruct (insert_user _ _ _ _). reflexivity.
Qed.

(** ** Theorems *)

(** C18: concurrent registrations are serializable: every world a
    concurrent run reaches (requests served whole, registrations read and
    committed separately, in any interleaving) is, session by session, a
    world some sequential run of [Reach.v] reaches, so its store is well
    formed and every session names an existing user; the hasher only has
    to satisfy its laws. *)
Theorem creachable_serializable cw :
  HasherLaws hasher -> creachable cw ->
  (exists w, reachable parse_float hasher w /\ world_equiv w cw.(cw_world)) /\ world_inv cw.(cw_world).
Proof.
  intros Hlaws Hr. assert (Hok : cworld_ok cw).
  { induction Hr as [|cw cw' _ IH Hst]; [|exact (cstep_ok cw cw' Hlaws IH Hst)].
    split; [exists init_world; split; [constructor | reflexivity] | intros c p []]. }
  destruct Hok as [(w & Hw & [Hd Hs]) _]. split; [exists w; split; [exact Hw | split; assumption]|].
  destruct (reachable_ind_inv parse_float hasher world_inv init_world_inv (step_preserves parse_float hasher) w Hw)
    as [Hwf Hso].
  split; [rewrite <- Hd; exact Hwf | intros c; rewrite <- Hd, <- Hs; apply Hso].
Qed.

(** C19: two registrations of the same new email, both read before either
    commits, both pass the lookup; the first commit creates the user and
    the second fails on the [unique] constraint with [IntegrityError]:
    HTTP 500 and nothing written.  Served one after the other, the second
    request is answered ['Email already registered. Please login.']. *)
Theorem register_race_500 w c1 c2 rq1 rq2 rnd1 rnd2 p1 p2 :
  register_read w.(w_db) (w.(w_sess) c1) rq1 rnd1 = PyOk (RegCommit p1) ->
  register_read w.(w_db) (w.(w_sess) c2) rq2 rnd2 = PyOk (RegCommit p2) ->
  p1.(pu_email) = p2.(pu_email) ->
  cstep (mk_cworld w []) (mk_cworld w [(c1, p1)])
  /\ cstep (mk_cworld w [(c1, p1)]) (mk_cworld w [(c1, p1); (c2, p2)])
  /\ cstep (mk_cworld w [(c1, p1); (c2, p2)]) (mk_cworld (fst (commit w c1 p1)) [(c2, p2)])
  /\ commit (fst (commit w c1 p1)) c2 p2 = (fst (commit w c1 p1), mk_reply [] (HttpError 500))
  /\ forall s, register hasher (fst (commit w c1 p1)).(w_db) s rq2 rnd2
       = PyOk ((fst (commit w c1 p1)).(w_db), s,
               redirect [("Email already registered. Please login.", "warning")] RLogin).
Proof.
  intros Hr1 Hr2 He.
  split; [exact (cstep_read w [] c1 rq1 rnd1 p1 Hr1)|].
  split; [exact (cstep_read w [(c1, p1)] c2 rq2 rnd2 p2 Hr2)|].
  split; [exact (cstep_commit w [] [(c2, p2)] c1 p1)|].
  destruct (register_read_pending _ _ _ _ _ Hr1) as (_ & _ & _ & _ & Hb & _).
  pose proof (user_by_email_insert (w_db w) (Some (pu_name p1)) _ (pu_hash p1) Hb) as Hbe.
  rewrite (commit_fresh w c1 p1 Hb). cbn [fst w_db].
  split; [eapply commit_taken; cbn [w_db]; rewrite <- He; exact Hbe|].
  intros s. eapply (register_taken _ _ _ s _ _ _ _ Hr2). rewrite <- He. exact Hbe.
Qed.
End Race.

(** ** Witnesses: clients 0 and 1 register [a@x] at the same time on a
    fresh database. *)

Definition race_p1 : PendingUser := mk_pending empty_session "A" "a@x" "pw".
Definition race_p2 : PendingUser := mk_pending empty_session "B" "a@x" "qw".

Definition race_world : @CWorld Z :=
  mk_cworld (fst (commit (@init_world Z) 0 race_p1)) [(1, race_p2)].

Lemma register_race_500_witness :
  commit (fst (commit (@init_world Z) 0 race_p1)) 1 race_p2
  = (fst (commit init_world 0 race_p1), mk_reply [] (HttpError 500)).
Proof.
  exact (proj1 (proj2 (proj2 (proj2 (register_race_500 parse_int_amount plain_hasher init_world 0 1
           (signup "A" "a@x" "pw") (signup "B" "a@x" "qw") (fun _ => 0) (fun _ => 0) race_p1 race_p2
           eq_refl eq_refl eq_refl))))).
Defined.

Lemma race_world_creachable : creachable parse_int_amount plain_hasher race_world.
Proof.
  destruct (register_race_500 parse_int_amount plain_hasher init_world 0 1 (signup "A" "a@x" "pw") (signup "B" "a@x" "qw")
              (fun _ => 0) (fun _ => 0) race_p1 race_p2 eq_refl eq_refl eq_refl) as (H1 & H2 & H3 & _).
  eapply creach_step; [eapply creach_step; [eapply creach_step; [apply creach_init|]|]|]; eassumption.
Qed.

Lemma creachable_serializable_witness :
  world_inv (fst (commit (fst (commit (@init_world Z) 0 race_p1)) 1 race_p2)).
Proof.
  exact (proj2 (creachable_serializable parse_int_amount plain_hasher
          (mk_cworld (fst (commit (fst (commit init_world 0 race_p1)) 1 race_p2)) [])
          plain_hasher_laws
          (creach_step _ _ race_world _ race_world_creachable (cstep_commit _ _ _ [] [] 1 race_p2)))).
Defined.
