(* ===== verification/Deploy.v ===== *)
(** The application as deployed: the runs of [Reach.v] with werkzeug's
    hashing of [Hash.v] as the hasher.  The invariant of [Reach.v] that
    every stored password is a value [generate_password_hash] returned
    becomes, through [Werkzeug.generate_shape], the exact format of the
    [password] column: [scrypt:32768:8:1$], a salt of 16 characters of
    [SALT_CHARS], ['$'] and the hex digest scrypt derived from the password
    and that salt. *)

From Stdlib Require Import Bool Arith ZArith Lia Ascii String List Strings.Byte.
From S2P Require Import Prelude Num PyStr PyNum Models Store App Hash Reach.
Import ListNotations.
Local Open Scope string_scope.

Section Deploy.
Context {A : Type} `{Num A} (parse_float : string -> option A).
Variable scrypt : list byte -> list byte -> Z -> Z -> Z -> py_result (list byte).
Variable pbkdf2_hmac : string -> list byte -> list byte -> Z -> py_result (list byte).
Variable DEFAULT_PBKDF2_ITERATIONS : Z.

(** C14: with werkzeug's hashing, in every reachable world the [password]
    column of every user holds [scrypt:32768:8:1$<salt>$<digest>], where
    the salt has 16 characters of [SALT_CHARS] and the digest is the hex
    of what scrypt derived, at the default parameters, from some password
    and that salt. *)
Theorem reachable_werkzeug_format w u :
  reachable parse_float (Werkzeug.werkzeug_hasher scrypt pbkdf2_hmac DEFAULT_PBKDF2_ITERATIONS) w ->
  In u w.(w_db).(db_users) ->
  exists p salt h,
    u.(user_password) = ("scrypt:32768:8:1$" ++ salt ++ "$" ++ hex h)
    /\ String.length salt = 16
    /\ (forall c, In c (list_ascii_of_string salt) -> In c (list_ascii_of_string SALT_CHARS))
    /\ scrypt (encode p) (encode salt) 32768 8 1 = PyOk h.
Proof.
  intros Hr Hin. set (hasher := Werkzeug.werkzeug_hasher scrypt pbkdf2_hmac DEFAULT_PBKDF2_ITERATIONS).
  assert (Hp : passwords_hashed hasher w.(w_db))
    by (apply (reachable_ind_inv parse_float hasher (fun w => passwords_hashed hasher w.(w_db)));
        [intros u' [] | exact (step_passwords_hashed parse_float hasher) | exact Hr]).
  destruct (Hp u Hin) as (rnd & p & Hg).
  destruct (Werkzeug.generate_shape scrypt pbkdf2_hmac DEFAULT_PBKDF2_ITERATIONS rnd p _ Hg)
    as (salt & h & Hs & Hh & Hpw).
  destruct (gen_salt_spec _ _ _ Hs) as [Hl Hc].
  exists p, salt, h. auto.
Qed.
End Deploy.

(** ** Witness: one registration with the stand-in key derivation of
    [Hash.v]. *)

Definition deploy_world : @World Z :=
  let '(db', s', _) := handle parse_int_amount toy_hasher empty_db empty_session
                         (ARegister (signup "A" "a@x" "pw") (fun i => i)) in
  mk_world db' (set_sess (fun _ => empty_session) 0 s').

Lemma deploy_world_reachable : reachable parse_int_amount toy_hasher deploy_world.
Proof.
  unfold deploy_world.
  destruct (handle parse_int_amount toy_hasher empty_db empty_session _) as [[db' s'] r] eqn:Hh.
  apply (reach_step _ _ init_world); [constructor | exact (step_request _ _ init_world 0 _ _ _ _ Hh)].
Qed.

Lemma reachable_werkzeug_format_witness :
  exists p salt h,
    (hd alice deploy_world.(w_db).(db_users)).(user_password) = ("scrypt:32768:8:1$" ++ salt ++ "$" ++ hex h)
    /\ String.length salt = 16
    /\ (forall c, In c (list_ascii_of_string salt) -> In c (list_ascii_of_string SALT_CHARS))
    /\ toy_scrypt (encode p) (encode salt) 32768 8 1 = PyOk h.
Proof.
  apply (reachable_werkzeug_format parse_int_amount toy_scrypt toy_pbkdf2 600000 deploy_world _
           deploy_world_reachable).
  vm_compute. left. reflexivity.
Defined.
