(* ===== verification/EditRace.v ===== *)
(** Concurrent edits and deletions of a transaction.  As in [Race.v],
    every request runs in a thread of its own with its own database
    session, so a request may interleave with others between the query of
    its handler and its [db.session.commit()].  [edit_transaction]
    ([src/app.py] lines 236-252) loads the row with [get_or_404], assigns
    the four columns from the form and commits; [delete_transaction]
    (lines 256-265) loads the row and deletes it.

    SQLAlchemy's unit of work writes, at the commit, an
    [UPDATE transactions SET <columns> WHERE id = ?] with only the columns
    whose new value differs by [==] from the loaded one, and raises
    [StaleDataError] when that UPDATE matches no row (the row was deleted
    meanwhile): HTTP 500.  A [DELETE] that matches no row only warns.
    When nothing changed no UPDATE is sent at all.  The reply of a
    successful commit carries a flash message, so Flask sends back the
    cookie of the session the request started with.

    [edit_read] and [delete_read] are the handlers up to the commit;
    [edit_commit] and [delete_commit] the commit on the store of that
    time.  An [EWorld] is a world of [Reach.v] with the writes waiting for
    their commit; [estep] serves a request whole, runs a read phase, or
    commits a waiting write.  Read and commit back to back are the
    handlers of [App.v] ([edit_read_commit], [delete_read_commit]).  The
    invariant of [Reach.v] holds in every world of a concurrent run
    ([ereachable_invariant]); an edit whose row was deleted after its read
    answers 500 where the sequential order answers 404
    ([edit_after_delete_500]); two edits that read the same row are merged
    column by column ([concurrent_edits_merge]).  The commit of an edit
    also refuses a NaN amount, which SQLite binds as NULL. *)

From Stdlib Require Import Bool Arith ZArith Lia String List.
From S2P Require Import Prelude Num PyStr StableSort Dates Models Dashboard Store App Reach.
Import ListNotations.
Local Open Scope string_scope.

Section EditRace.
Context {A : Type} `{Num A} (parse_float : string -> option A) (hasher : Hasher).

(** Python's [==] on two amounts, by which the unit of work decides that
    the [amount] attribute changed. *)
Variable amount_eqb : A -> A -> bool.

Abbreviation Tx := (Transaction A).

(** An edit that loaded its row and waits for its commit: the session of
    the request, the row's id, the row as loaded, and the four values
    assigned to it (lines 244-247). *)
Record PendingEdit := mk_edit {
  pe_session : Session;
  pe_id : nat;
  pe_loaded : Tx;
  pe_type : string;
  pe_category : string;
  pe_note : string;
  pe_amount : A
}.

(** A write waiting for its commit. *)
Inductive Write :=
| WEdit (p : PendingEdit)
| WDelete (s : Session) (id : nat).

(** The read phase answered the request, or left a write to commit. *)
Inductive WriteRead :=
| WAnswered (s : Session) (r : @Reply A)
| WPending (x : Write).

(** Lines 236-247 and 252 of [edit_transaction], on the store the thread
    reads: everything but the commit. *)
Definition edit_read (db : Db A) (s : Session) (rq : Request) (id : nat) : py_result WriteRead :=
  match s.(sess_user) with
  | None => PyOk (WAnswered s please_log_in)
  | Some _ =>
  match tx_get db id with
  | None => PyOk (WAnswered s (mk_reply [] (HttpError 404)))
  | Some t =>
  match rq.(rq_method) with
  | GET => PyOk (WAnswered s (render (PEditTransaction t)))
  | POST =>
      py_bind (form_req rq "type") (fun ty =>
      py_bind (form_req rq "category") (fun category =>
      py_bind (form_req rq "note") (fun note =>
      py_bind (form_req rq "amount") (fun amount_s =>
      py_bind (py_of_option (ValueError "could not convert string to float") (parse_float amount_s))
        (fun amount => PyOk (WPending (WEdit (mk_edit s id t ty category note amount))))))))
  end
  end
  end.

(** [==] on the [note] column, a nullable string. *)
Definition note_eqb (n1 n2 : option string) : bool :=
  match n1, n2 with
  | Some a, Some b => String.eqb a b
  | None, None => true
  | _, _ => false
  end.

(** The attribute histories the flush inspects: which columns changed
    from the loaded row. *)
Definition type_changed (p : PendingEdit) : bool := negb (String.eqb p.(pe_type) p.(pe_loaded).(tx_type)).
Definition category_changed (p : PendingEdit) : bool :=
  negb (String.eqb p.(pe_category) p.(pe_loaded).(tx_category)).
Definition note_changed (p : PendingEdit) : bool := negb (note_eqb (Some p.(pe_note)) p.(pe_loaded).(tx_note)).
Definition amount_changed (p : PendingEdit) : bool := negb (amount_eqb p.(pe_amount) p.(pe_loaded).(tx_amount)).

Definition edit_changed (p : PendingEdit) : bool :=
  type_changed p || category_changed p || note_changed p || amount_changed p.

(** The row after [UPDATE transactions SET <changed columns> WHERE id = ?]:
    the columns not in the statement keep the value the row has now. *)
Definition apply_edit (p : PendingEdit) (t0 : Tx) : Tx :=
  mk_transaction t0.(tx_id)
    (if type_changed p then p.(pe_type) else t0.(tx_type))
    (if category_changed p then p.(pe_category) else t0.(tx_category))
    (if amount_changed p then p.(pe_amount) else t0.(tx_amount))
    t0.(tx_date)
    (if note_changed p then Some p.(pe_note) else t0.(tx_note))
    t0.(tx_user_id) t0.(tx_payment_method).

(** Lines 248-250: the commit of an edit on the store at that time.  The
    UPDATE matches no row when the row was deleted meanwhile; otherwise
    SQLite binds a NaN amount as NULL and the [NOT NULL] column of
    [src/models.py] line 19 refuses it ([App.commit_amount]). *)
Definition edit_commit (db : Db A) (p : PendingEdit) : py_result (Db A * Session * @Reply A) :=
  let ok := redirect [("Transaction updated successfully!", "success")] RViewTransactions in
  if edit_changed p then
    match tx_get db p.(pe_id) with
    | None => PyErr (StaleDataError
        "UPDATE statement on table 'transactions' expected to update 1 row(s); 0 were matched.")
    | Some _ =>
        if amount_changed p && num_null p.(pe_amount) then
          PyErr (IntegrityError "NOT NULL constraint failed: transactions.amount")
        else PyOk (update_tx db p.(pe_id) (apply_edit p), p.(pe_session), ok)
    end
  else PyOk (db, p.(pe_session), ok).

(** Lines 256-261 of [delete_transaction], on the store the thread reads. *)
Definition delete_read (db : Db A) (s : Session) (id : nat) : WriteRead :=
  match s.(sess_user) with
  | None => WAnswered s please_log_in
  | Some _ =>
      match tx_get db id with
      | None => WAnswered s (mk_reply [] (HttpError 404))
      | Some _ => WPending (WDelete s id)
      end
  end.

(** Lines 262-265: [DELETE FROM transactions WHERE id = ?]; a row already
    gone only makes SQLAlchemy warn. *)
Definition delete_commit (db : Db A) (s : Session) (id : nat) : py_result (Db A * Session * @Reply A) :=
  PyOk (delete_tx db id, s, redirect [("Transaction deleted successfully!", "success")] RViewTransactions).

Definition write_commit (db : Db A) (x : Write) : py_result (Db A * Session * @Reply A) :=
  match x with
  | WEdit p => edit_commit db p
  | WDelete s id => delete_commit db s id
  end.

Definition write_session (x : Write) : Session :=
  match x with
  | WEdit p => p.(pe_session)
  | WDelete s _ => s
  end.

(** The commit of client [c]'s write: a failed commit writes nothing and
    sets no cookie. *)
Definition commit_write (w : @World A) (c : nat) (x : Write) : @World A * @Reply A :=
  match write_commit w.(w_db) x with
  | PyOk (db', s', r) => (mk_world db' (set_sess w.(w_sess) c s'), r)
  | PyErr e => (w, mk_reply [] (HttpError (status_of_exc e)))
  end.

Record EWorld := mk_eworld {
  ew_world : @World A;
  ew_pending : list (nat * Write)
}.

Inductive estep : EWorld -> EWorld -> Prop :=
| estep_whole w w' ps :
    step parse_float hasher w w' -> estep (mk_eworld w ps) (mk_eworld w' ps)
| estep_edit w ps c rq id x :
    edit_read w.(w_db) (w.(w_sess) c) rq id = PyOk (WPending x) ->
    estep (mk_eworld w ps) (mk_eworld w (ps ++ [(c, x)]))
| estep_delete w ps c id x :
    delete_read w.(w_db) (w.(w_sess) c) id = WPending x ->
    estep (mk_eworld w ps) (mk_eworld w (ps ++ [(c, x)]))
| estep_commit w ps1 ps2 c x :
    estep (mk_eworld w (ps1 ++ (c, x) :: ps2)) (mk_eworld (fst (commit_write w c x)) (ps1 ++ ps2)).

Inductive ereachable : EWorld -> Prop :=
| ereach_init : ereachable (mk_eworld init_world [])
| ereach_step ew ew' : ereachable ew -> estep ew ew' -> ereachable ew'.

(** The invariant of [Reach.v], and every waiting write carries a
    session that names an existing user. *)
Definition eworld_ok (ew : EWorld) : Prop :=
  world_inv ew.(ew_world)
  /\ forall c x, In (c, x) ew.(ew_pending) -> session_ok ew.(ew_world).(w_db) (write_session x).

(** ** Lemmas *)

Lemma note_eqb_true n1 n2 : note_eqb n1 n2 = true -> n1 = n2.
Proof. destruct n1, n2; cbn; try discriminate; [intros E; apply String.eqb_eq in E; congruence | auto]. Qed.

(** What a read phase that leaves an edit knows of it. *)
Lemma edit_read_pending db s rq id x :
  edit_read db s rq id = PyOk (WPending x) ->
  exists p, x = WEdit p /\ p.(pe_session) = s /\ p.(pe_id) = id
  /\ tx_get db id = Some p.(pe_loaded) /\ s.(sess_user) <> None.
Proof.
  unfold edit_read. intros Hr.
  destruct (sess_user s) as [uid|] eqn:Hu; [|discriminate].
  destruct (tx_get db id) as [t|] eqn:Ht; [|discriminate].
  destruct (rq_method rq); [discriminate|].
  repeat match goal with
  | Hx : py_bind ?c _ = PyOk _ |- _ => destruct c eqn:?; cbn [py_bind] in Hx; [|discriminate Hx]
  end.
  injection Hr as <-. eexists. repeat split; auto. congruence.
Qed.

Lemma delete_read_pending db s id x :
  delete_read db s id = WPending x ->
  x = WDelete s id /\ (exists t, tx_get db id = Some t) /\ s.(sess_user) <> None.
Proof.
  unfold delete_read. destruct (sess_user s) eqn:Hu; [|discriminate].
  destruct (tx_get db id) eqn:Ht; [|discriminate]. intros Hx. injection Hx as <-.
  repeat split; eauto. congruence.
Qed.

Lemma apply_edit_keys p t :
  (apply_edit p t).(tx_id) = t.(tx_id) /\ (apply_edit p t).(tx_user_id) = t.(tx_user_id).
Proof. split; reflexivity. Qed.

(** A successful commit keeps the users and a well formed store, and
    answers with the session its request started with. *)
Lemma write_commit_ok db x db' s' r :
  write_commit db x = PyOk (db', s', r) ->
  db'.(db_users) = db.(db_users) /\ s' = write_session x /\ (db_wf db -> db_wf db').
Proof.
  destruct x as [p | s id]; cbn [write_commit write_session].
  - unfold edit_commit. intros Hc.
    destruct (edit_changed p); try destruct (tx_get db (pe_id p));
      try destruct (amount_changed p && num_null (pe_amount p)); try discriminate Hc;
      injection Hc as <- <- <-; (split; [reflexivity | split; [reflexivity|]]);
      first [solve [auto] | intros Hwf; apply update_tx_wf; [exact Hwf | intros; apply apply_edit_keys]].
  - intros Hc. injection Hc as <- <- <-. split; [reflexivity | split; [reflexivity | apply delete_tx_wf]].
Qed.

(** The row a write is about. *)
Definition write_id (x : Write) : nat :=
  match x with
  | WEdit p => p.(pe_id)
  | WDelete _ id => id
  end.

Lemma commit_write_ok w c x :
  world_inv w -> session_ok w.(w_db) (write_session x) ->
  world_inv (fst (commit_write w c x)) /\ users_kept w.(w_db) (fst (commit_write w c x)).(w_db).
Proof.
  intros [Hwf Hs] Hx. unfold commit_write.
  destruct (write_commit (w_db w) x) as [[[db' s'] r]|e] eqn:Hc; cbn [fst w_db w_sess];
    [|split; [split; assumption | apply users_kept_refl]].
  destruct (write_commit_ok _ _ _ _ _ Hc) as (Hu & -> & Hw).
  assert (Hk : users_kept (w_db w) db') by (apply users_kept_same_users, Hu).
  split; [split; [exact (Hw Hwf) | intros c'] | exact Hk].
  cbn [w_db w_sess]. unfold set_sess. destruct (Nat.eqb c' c); apply (session_ok_kept _ _ _ Hk); auto.
Qed.

Lemma estep_ok ew ew' : eworld_ok ew -> estep ew ew' -> eworld_ok ew'.
Proof.
  intros [Hw Hp] Hst.
  destruct Hst as [w w' ps Hs | w ps c rq id x Hr | w ps c id x Hr | w ps1 ps2 c x];
    cbn [ew_world ew_pending] in *.
  - split; [exact (step_preserves _ _ _ _ Hw Hs)|]. intros c x Hin.
    apply (session_ok_kept (w_db w)); [exact (step_users_kept _ _ _ _ Hw Hs) | exact (Hp c x Hin)].
  - split; [exact Hw|]. intros c' x' Hin. apply in_app_or in Hin as [Hin | [Heq | []]]; [exact (Hp _ _ Hin)|].
    injection Heq as <- <-. destruct (edit_read_pending _ _ _ _ _ Hr) as (p & -> & Hps & _).
    cbn. rewrite Hps. apply (proj2 Hw).
  - split; [exact Hw|]. intros c' x' Hin. apply in_app_or in Hin as [Hin | [Heq | []]]; [exact (Hp _ _ Hin)|].
    injection Heq as <- <-. destruct (delete_read_pending _ _ _ _ Hr) as (-> & _ & _).
    apply (proj2 Hw).
  - destruct (commit_write_ok w c x Hw (Hp c x (in_elt _ _ _))) as [Hw' Hk]. split; [exact Hw'|].
    intros c' x' Hin. apply (session_ok_kept _ _ _ Hk), (Hp c').
    apply in_app_or in Hin as [H1|H1]; apply in_or_app; [left | right; right]; exact H1.
Qed.

(** Sequential runs are concurrent runs with no write waiting. *)
Lemma reachable_ereachable w : reachable parse_float hasher w -> ereachable (mk_eworld w []).
Proof.
  induction 1 as [|w w' _ IH Hs]; [exact ereach_init|].
  exact (ereach_step _ _ IH (estep_whole w w' [] Hs)).
Qed.

(** C20: Every world of a run that interleaves edits and deletions with
    other requests satisfies the invariant of [Reach.v] (well-formed
    store, every session naming an existing user), and every write
    waiting for its commit carries a session naming an existing user. *)
Theorem ereachable_invariant ew : ereachable ew -> eworld_ok ew.
Proof.
  induction 1 as [|ew ew' _ IH Hst]; [|exact (estep_ok ew ew' IH Hst)].
  split; [exact init_world_inv | intros c x []].
Qed.

(** ** Read and commit back to back are the handlers of [App.v] *)

Lemma update_tx_ext (db : Db A) id f g :
  (forall t, In t db.(db_txs) -> t.(tx_id) = id -> f t = g t) -> update_tx db id f = update_tx db id g.
Proof.
  intros Hfg. unfold update_tx. f_equal. apply map_ext_in. intros t Hin.
  destruct (Nat.eqb (tx_id t) id) eqn:E; [apply Hfg; [exact Hin | apply Nat.eqb_eq, E] | reflexivity].
Qed.

Lemma update_tx_same (db : Db A) id : update_tx db id (fun t => t) = db.
Proof.
  destruct db as [us ts]. unfold update_tx. cbn. f_equal.
  rewrite <- (map_id ts) at 2. apply map_ext. intros t. destruct (Nat.eqb (tx_id t) id); reflexivity.
Qed.

Lemma tx_get_unique (db : Db A) id t t' :
  db_wf db -> tx_get db id = Some t -> In t' db.(db_txs) -> t'.(tx_id) = id -> t' = t.
Proof.
  intros [_ _ Hnd _] Hg Hin <-. unfold tx_get in Hg.
  rewrite (find_unique_key tx_id Nat.eqb _ t' Nat.eqb_eq Hnd Hin) in Hg. congruence.
Qed.

(** The row [edit_transaction] writes is the row the unit of work leaves,
    when [==] on amounts is equality. *)
Lemma edit_row p t :
  (forall a b, amount_eqb a b = true -> a = b) -> p.(pe_loaded) = t ->
  mk_transaction t.(tx_id) p.(pe_type) p.(pe_category) p.(pe_amount) t.(tx_date) (Some p.(pe_note))
    t.(tx_user_id) t.(tx_payment_method)
  = if edit_changed p then apply_edit p t else t.
Proof.
  intros Heq <-. destruct p as [s i [i' ty ca am d no u pm] ty' ca' no' am'].
  unfold edit_changed, apply_edit, type_changed, category_changed, note_changed, amount_changed.
  cbn [pe_loaded pe_type pe_category pe_note pe_amount tx_id tx_type tx_category tx_amount tx_date
       tx_note tx_user_id tx_payment_method].
  destruct (String.eqb ty' ty) eqn:E1, (String.eqb ca' ca) eqn:E2, (amount_eqb am' am) eqn:E3,
    (note_eqb (Some no') no) eqn:E4; cbn;
  repeat match goal with
  | Hx : amount_eqb _ _ = true |- _ => apply Heq in Hx
  | Hx : note_eqb _ _ = true |- _ => apply note_eqb_true in Hx
  end; bool_to_prop; subst; reflexivity.
Qed.

(** Served without any request in between, the read phase of an
    edit followed by its commit is [edit_transaction] of [App.v]: the
    UPDATE of the changed columns leaves the row [edit_transaction]
    writes, and no UPDATE at all leaves the store as it is, when [==] on
    amounts is equality, a NULL-bound amount (NaN) equals nothing, and the
    store is well formed. *)
Lemma edit_read_commit (db : Db A) s rq id :
  (forall a b, amount_eqb a b = true -> a = b) ->
  (forall a b, num_null a = true -> amount_eqb a b = false) -> db_wf db ->
  edit_transaction parse_float db s rq id =
  match edit_read db s rq id with
  | PyOk (WAnswered s' r) => PyOk (db, s', r)
  | PyOk (WPending x) => write_commit db x
  | PyErr e => PyErr e
  end.
Proof.
  intros Heq Hnan Hwf. unfold edit_transaction, edit_read.
  destruct (sess_user s); [|reflexivity]. destruct (tx_get db id) as [t|] eqn:Ht; [|reflexivity].
  destruct (rq_method rq); [reflexivity|].
  destruct (form_req rq "type") as [ty|]; cbn [py_bind]; [|reflexivity].
  destruct (form_req rq "category") as [ca|]; cbn [py_bind]; [|reflexivity].
  destruct (form_req rq "note") as [no|]; cbn [py_bind]; [|reflexivity].
  destruct (form_req rq "amount") as [am_s|]; cbn [py_bind]; [|reflexivity].
  destruct (py_of_option _ (parse_float am_s)) as [am|]; cbn [py_bind]; [|reflexivity].
  set (p := mk_edit s id t ty ca no am). cbn [write_commit]. unfold edit_commit.
  change (pe_id p) with id. rewrite ?Ht. unfold commit_amount.
  destruct (num_null am) eqn:Hn.
  { assert (Ha : amount_changed p = true) by (unfold amount_changed; cbn; rewrite (Hnan _ _ Hn); reflexivity).
    unfold edit_changed. rewrite Ha, orb_true_r. cbn. rewrite Hn. reflexivity. }
  cbn [py_bind pe_amount p]. rewrite Hn, andb_false_r.
  rewrite (update_tx_ext db id _ (fun t0 => if edit_changed p then apply_edit p t0 else t0)).
  - destruct (edit_changed p); [reflexivity|]. rewrite update_tx_same. reflexivity.
  - intros t0 Hin Hid. rewrite (tx_get_unique db id t t0 Hwf Ht Hin Hid). exact (edit_row p t Heq eq_refl).
Qed.

Lemma delete_read_commit db s id :
  delete_transaction db s id =
  match delete_read db s id with
  | WAnswered s' r => PyOk (db, s', r)
  | WPending x => write_commit db x
  end.
Proof. unfold delete_transaction, delete_read. destruct (sess_user s); [|reflexivity]. destruct (tx_get db id); reflexivity. Qed.

(** ** Interleavings *)

Lemma set_sess_self (f : nat -> Session) c c' : set_sess f c (f c) c' = f c'.
Proof. unfold set_sess. destruct (Nat.eqb c' c) eqn:E; [apply Nat.eqb_eq in E; subst; reflexivity | reflexivity]. Qed.

Lemma tx_get_delete (db : Db A) id : tx_get (delete_tx db id) id = None.
Proof.
  unfold tx_get, delete_tx. cbn [db_txs]. induction (db_txs db) as [|t ts IH]; [reflexivity|].
  cbn. destruct (Nat.eqb (tx_id t) id) eqn:E; cbn; [exact IH | rewrite E; exact IH].
Qed.

(** The last write to wait commits. *)
Lemma estep_commit_last w ps c x :
  estep (mk_eworld w (ps ++ [(c, x)])) (mk_eworld (fst (commit_write w c x)) ps).
Proof. rewrite <- (app_nil_r ps) at 2. apply estep_commit. Qed.

(** An edit that changes nothing leaves the row as it is. *)
Lemma apply_edit_unchanged p t : edit_changed p = false -> apply_edit p t = t.
Proof.
  unfold edit_changed. intros Hc.
  apply orb_false_elim in Hc as [Hc H4]. apply orb_false_elim in Hc as [Hc H3].
  apply orb_false_elim in Hc as [H1 H2].
  unfold apply_edit. rewrite H1, H2, H3, H4. destruct t; reflexivity.
Qed.

(** The commit of an edit whose row is there leaves the row the UPDATE
    of the changed columns makes of it. *)
Lemma commit_edit_row w c p t :
  num_null p.(pe_amount) = false -> tx_get w.(w_db) p.(pe_id) = Some t ->
  tx_get (fst (commit_write w c (WEdit p))).(w_db) p.(pe_id) = Some (apply_edit p t).
Proof.
  intros Hn Ht. unfold commit_write. cbn [write_commit]. unfold edit_commit.
  destruct (edit_changed p) eqn:Ech; rewrite ?Ht, ?Hn, ?andb_false_r; cbn [fst w_db].
  - apply tx_get_update; [intros; reflexivity | exact Ht].
  - rewrite Ht, apply_edit_unchanged by exact Ech. reflexivity.
Qed.

(** C21: An edit that read its row before a concurrent deletion of it
    committed fails at its own commit: the UPDATE matches no row, the
    [StaleDataError] escapes the view and the client gets HTTP 500, with
    nothing written; the same edit served after the deletion answers 404. *)
Theorem edit_after_delete_500 w c1 c2 rq id p :
  edit_read w.(w_db) (w.(w_sess) c1) rq id = PyOk (WPending (WEdit p)) ->
  edit_changed p = true ->
  (w.(w_sess) c2).(sess_user) <> None ->
  let x := WDelete (w.(w_sess) c2) id in
  let w1 := fst (commit_write w c2 x) in
  estep (mk_eworld w []) (mk_eworld w [(c1, WEdit p)])
  /\ estep (mk_eworld w [(c1, WEdit p)]) (mk_eworld w [(c1, WEdit p); (c2, x)])
  /\ estep (mk_eworld w [(c1, WEdit p); (c2, x)]) (mk_eworld w1 [(c1, WEdit p)])
  /\ estep (mk_eworld w1 [(c1, WEdit p)]) (mk_eworld w1 [])
  /\ commit_write w1 c1 (WEdit p) = (w1, mk_reply [] (HttpError 500))
  /\ handle parse_float hasher w1.(w_db) (w1.(w_sess) c1) (AEditTransaction rq id)
     = (w1.(w_db), w1.(w_sess) c1, mk_reply [] (HttpError 404)).
Proof.
  intros Hr Hch Hs2 x w1.
  destruct (edit_read_pending _ _ _ _ _ Hr) as (p' & Hp & _ & Hid & Ht & Hs1). injection Hp as <-.
  assert (Hd : delete_read w.(w_db) (w.(w_sess) c2) id = WPending x).
  { unfold delete_read. destruct (sess_user _); [|congruence]. rewrite Ht. reflexivity. }
  assert (Hw1 : w1 = mk_world (delete_tx w.(w_db) id) (set_sess w.(w_sess) c2 (w.(w_sess) c2)))
    by reflexivity.
  assert (Hc : commit_write w1 c1 (WEdit p) = (w1, mk_reply [] (HttpError 500))).
  { unfold commit_write. cbn [write_commit]. unfold edit_commit. rewrite Hch, Hid, Hw1. cbn [w_db].
    rewrite tx_get_delete. reflexivity. }
  pose proof (estep_commit_last w1 [] c1 (WEdit p)) as Hst. rewrite Hc in Hst.
  split; [exact (estep_edit w [] c1 rq id (WEdit p) Hr)|].
  split; [exact (estep_delete w [(c1, WEdit p)] c2 id x Hd)|].
  split; [exact (estep_commit_last w [(c1, WEdit p)] c2 x)|].
  split; [exact Hst | split; [exact Hc|]].
  rewrite Hw1. unfold handle, dispatch, edit_transaction. cbn [w_db w_sess].
  rewrite set_sess_self, tx_get_delete. destruct (sess_user (w_sess w c1)); [reflexivity | congruence].
Qed.

(** C22: Two edits of one transaction that both read it before either
    commits are merged column by column, not resolved by the last write:
    each column of the row ends with the value of the second edit if
    that edit changed it, else the value of the first if the first
    changed it, else the value both loaded. *)
Theorem concurrent_edits_merge w c1 c2 rq1 rq2 id p1 p2 :
  edit_read w.(w_db) (w.(w_sess) c1) rq1 id = PyOk (WPending (WEdit p1)) ->
  edit_read w.(w_db) (w.(w_sess) c2) rq2 id = PyOk (WPending (WEdit p2)) ->
  num_null p1.(pe_amount) = false -> num_null p2.(pe_amount) = false ->
  let w1 := fst (commit_write w c1 (WEdit p1)) in
  let w2 := fst (commit_write w1 c2 (WEdit p2)) in
  estep (mk_eworld w []) (mk_eworld w [(c1, WEdit p1)])
  /\ estep (mk_eworld w [(c1, WEdit p1)]) (mk_eworld w [(c1, WEdit p1); (c2, WEdit p2)])
  /\ estep (mk_eworld w [(c1, WEdit p1); (c2, WEdit p2)]) (mk_eworld w1 [(c2, WEdit p2)])
  /\ estep (mk_eworld w1 [(c2, WEdit p2)]) (mk_eworld w2 [])
  /\ let t := p1.(pe_loaded) in
     tx_get w2.(w_db) id
     = Some (mk_transaction t.(tx_id)
               (if type_changed p2 then p2.(pe_type) else if type_changed p1 then p1.(pe_type) else t.(tx_type))
               (if category_changed p2 then p2.(pe_category)
                else if category_changed p1 then p1.(pe_category) else t.(tx_category))
               (if amount_changed p2 then p2.(pe_amount)
                else if amount_changed p1 then p1.(pe_amount) else t.(tx_amount))
               t.(tx_date)
               (if note_changed p2 then Some p2.(pe_note)
                else if note_changed p1 then Some p1.(pe_note) else t.(tx_note))
               t.(tx_user_id) t.(tx_payment_method)).
Proof.
  intros Hr1 Hr2 Hn1 Hn2 w1 w2.
  destruct (edit_read_pending _ _ _ _ _ Hr1) as (q1 & Hq1 & _ & Hid1 & Ht1 & _). injection Hq1 as <-.
  destruct (edit_read_pending _ _ _ _ _ Hr2) as (q2 & Hq2 & _ & Hid2 & _). injection Hq2 as <-.
  split; [exact (estep_edit w [] c1 rq1 id (WEdit p1) Hr1)|].
  split; [exact (estep_edit w [(c1, WEdit p1)] c2 rq2 id (WEdit p2) Hr2)|].
  split; [exact (estep_commit w [] [(c2, WEdit p2)] c1 (WEdit p1))|].
  split; [exact (estep_commit_last w1 [] c2 (WEdit p2))|].
  cbv zeta. subst w1 w2. rewrite <- Hid2, (commit_edit_row _ _ _ (apply_edit p1 (pe_loaded p1)) Hn2); [reflexivity|].
  rewrite Hid2, <- Hid1. apply commit_edit_row; [exact Hn1|]. rewrite Hid1. exact Ht1.
Qed.

End EditRace.

(** ** Witnesses, on [gap_world] of [Reach.v] with the concrete instances
    of [App.v] and [==] on integer amounts. *)

(** Client 0 changes the type of transaction 1. *)
Definition edit_form : Request :=
  post [("type", "expense"); ("category", ""); ("note", ""); ("amount", "100")].

(** Transaction 1 of [gap_world], owned by user 1. *)
Definition gap_tx1 : Transaction Z :=
  mk_transaction 1 "income" "" 100%Z (midnight 2024 1 5) (Some "") 1 (Some "").

Definition race_edit : PendingEdit := mk_edit gap_sess0 1 gap_tx1 "expense" "" "" 100%Z.

Definition race_w1 : @World Z := fst (commit_write Z.eqb gap_world 1 (WDelete (gap_world.(w_sess) 1) 1)).

Lemma edit_after_delete_500_witness :
  commit_write Z.eqb race_w1 0 (WEdit race_edit) = (race_w1, mk_reply [] (HttpError 500)).
Proof.
  exact (proj1 (proj2 (proj2 (proj2 (proj2
    (edit_after_delete_500 parse_int_amount plain_hasher Z.eqb gap_world 0 1 edit_form 1 race_edit
       ltac:(reflexivity) ltac:(reflexivity) ltac:(vm_compute; discriminate))))))).
Defined.

(** Client 0 of [gap_world] has read transaction 1 for deletion. *)
Lemma ereachable_invariant_witness :
  session_ok gap_world.(w_db) gap_sess0.
Proof.
  assert (Hr : ereachable parse_int_amount plain_hasher Z.eqb (mk_eworld gap_world [(0, WDelete gap_sess0 1)])).
  { apply (ereach_step _ _ _ _ _ (reachable_ereachable parse_int_amount plain_hasher Z.eqb _ gap_world_reachable)).
    exact (estep_delete parse_int_amount plain_hasher Z.eqb gap_world [] 0 1 _ ltac:(reflexivity)). }
  exact (proj2 (ereachable_invariant parse_int_amount plain_hasher Z.eqb _ Hr) 0 (WDelete gap_sess0 1)
           (or_introl eq_refl)).
Defined.

(** Client 0 changes the amount of transaction 1 to 250 while client 1
    changes its category to "rent"; both read the row first. *)
Definition amount_form : Request :=
  post [("type", "income"); ("category", ""); ("note", ""); ("amount", "250")].

Definition category_form : Request :=
  post [("type", "income"); ("category", "rent"); ("note", ""); ("amount", "100")].

Lemma concurrent_edits_merge_witness :
  let w1 := fst (commit_write Z.eqb gap_world 0 (WEdit (mk_edit gap_sess0 1 gap_tx1 "income" "" "" 250%Z))) in
  tx_get (fst (commit_write Z.eqb w1 1 (WEdit (mk_edit gap_sess1 1 gap_tx1 "income" "rent" "" 100%Z)))).(w_db) 1
  = Some (mk_transaction 1 "income" "rent" 250%Z (midnight 2024 1 5) (Some "") 1 (Some "")).
Proof.
  exact (proj2 (proj2 (proj2 (proj2
    (concurrent_edits_merge parse_int_amount plain_hasher Z.eqb gap_world 0 1 amount_form category_form 1
       (mk_edit gap_sess0 1 gap_tx1 "income" "" "" 250%Z) (mk_edit gap_sess1 1 gap_tx1 "income" "rent" "" 100%Z)
       ltac:(reflexivity) ltac:(reflexivity) eq_refl eq_refl))))).
Defined.
